(** * APBA control driver (apba.c): a shallow embedding and its properties

    The driver owns one [struct apba_ctrl] and talks to a number of kernel
    collaborators (GPIO, pinctrl, clock, MTD, the mods UART transport, the
    slave-control bus).  The embedding keeps the driver's own state in a
    record, threads it through a small state monad, and records every call
    into a collaborator as an [event] in a chronological trace.  Outcomes
    the collaborators decide (an MTD read result, whether a send succeeded,
    which messages arrive while a request is waiting) are inputs of the
    functions, so every statement below is quantified over them.  Kernel
    log output (pr_err, pr_debug, dev_dbg) has no effect on the driver and
    is left out. *)

From Stdlib Require Import DecimalString Ascii String ZArith List Bool Lia.
Import ListNotations.
Open Scope Z_scope.

(** ** Kernel-side vocabulary *)

Module Kernel.

(** errno values of the Linux ABI used by the driver. *)
Definition EIO : Z := 5.
Definition EAGAIN : Z := 11.
Definition ENODEV : Z := 19.
Definition EINVAL : Z := 22.

Definition PAGE_SIZE : Z := 4096.
Definition SZ_16K : Z := 16384.
Definition MTD_ABSENT : Z := 0.

(** C integer conversions, wrap-around written out. *)
Definition wrap_u8 (x : Z) : Z := x mod 256.
Definition wrap_u16 (x : Z) : Z := x mod 65536.
Definition wrap_u32 (x : Z) : Z := x mod 4294967296.
Definition wrap_int (x : Z) : Z :=
  let u := wrap_u32 x in
  if u <? 2147483648 then u else u - 4294967296.
(** [unsigned long] of an LP64 kernel. *)
Definition wrap_ulong (x : Z) : Z := x mod 18446744073709551616.

Definition MIN (a b : Z) : Z := if a <? b then a else b.

(** A buffer handed over as (pointer, length): the bytes the owner
    provided, and whatever memory happens to follow them.  C code that
    indexes past the length reads [cb_beyond]. *)
Record cbuf := mkCbuf {
  cb_bytes : list Z;
  cb_beyond : nat -> Z
}.

Definition cb_len (b : cbuf) : Z := Z.of_nat (length (cb_bytes b)).

Definition cb_read (b : cbuf) (off : nat) : Z :=
  match nth_error (cb_bytes b) off with
  | Some x => x
  | None => cb_beyond b (off - length (cb_bytes b))
  end.

(** [n] bytes starting at [off], as memcpy would fetch them. *)
Definition cb_slice (b : cbuf) (off n : nat) : list Z :=
  map (cb_read b) (seq off n).

Definition le16_at (b : cbuf) (off : nat) : Z :=
  cb_read b off + 256 * cb_read b (S off).

Definition le32_at (b : cbuf) (off : nat) : Z :=
  cb_read b off + 256 * cb_read b (off + 1)
  + 65536 * cb_read b (off + 2) + 16777216 * cb_read b (off + 3).

Definition cpu_to_le16 (x : Z) : list Z :=
  [wrap_u16 x mod 256; wrap_u16 x / 256].

Definition cpu_to_le32 (x : Z) : list Z :=
  let u := wrap_u32 x in
  [u mod 256; (u / 256) mod 256; (u / 65536) mod 256; u / 16777216].

(** lib/string.c memcmp: byte-wise, stops at the first difference.
    Returns the result and the number of byte positions examined. *)
Fixpoint memcmp_from (cs ct : nat -> Z) (i count : nat) : Z * nat :=
  match count with
  | O => (0, i)
  | S count' =>
      let res := cs i - ct i in
      if res =? 0 then memcmp_from cs ct (S i) count' else (res, S i)
  end.

Definition memcmp (cs ct : nat -> Z) (count : Z) : Z * nat :=
  memcmp_from cs ct 0 (Z.to_nat count).

(** kfifo of bytes, oldest first, with its fixed capacity. *)
Definition kfifo := list Z.

Definition kfifo_len (f : kfifo) : Z := Z.of_nat (length f).

(** [kfifo_out fifo buf n]: removes min(n, len) elements from the front;
    returns how many were removed, the removed bytes and the new fifo. *)
Definition kfifo_out (f : kfifo) (n : Z) : Z * list Z * kfifo :=
  let k := Z.to_nat (MIN n (kfifo_len f)) in
  (Z.of_nat k, firstn k f, skipn k f).

(** [kfifo_in fifo buf n]: copies min(n, unused) elements to the back. *)
Definition kfifo_in (size : Z) (f : kfifo) (src : nat -> list Z) (n : Z)
  : Z * kfifo :=
  let k := Z.to_nat (MIN n (size - kfifo_len f)) in
  (Z.of_nat k, f ++ src k).

End Kernel.
Import Kernel.

(** ** Constants of headers the driver includes *)

(** Modelled from the spec: [apba.h], [mods_protocols.h] and the GPIO
    headers are not part of the sources at hand.  The message header is
    {type: u16 LE, size: u16 LE}; the numeric values of the message types,
    of the maximum message size and of the slave-control constants are
    left open and collected here. *)
Record headers := mkHeaders {
  APBA_MSG_SIZE_MAX : Z;
  APBA_CTRL_INT_REASON : Z;
  APBA_CTRL_PM_WAKE_ACK : Z;
  APBA_CTRL_PM_SLEEP_ACK : Z;
  APBA_CTRL_PM_SLEEP_IND : Z;
  APBA_CTRL_LOG_IND : Z;
  APBA_CTRL_LOG_REQUEST : Z;
  APBA_CTRL_MODE_REQUEST : Z;
  APBA_CTRL_BAUD_REQUEST : Z;
  APBA_CTRL_BAUD_ACK : Z;
  MB_CONTROL_SLAVE_POWER_ON : Z;
  MB_CONTROL_SLAVE_POWER_OFF : Z;
  MB_CONTROL_SLAVE_MASK_APBE : Z;
  ARCH_NR_GPIOS : Z
}.

(** sizeof(struct apba_ctrl_msg_hdr) and of the packed messages. *)
Definition sizeof_hdr : Z := 4.
Definition sizeof_int_reason_resp : Z := 6.
Definition sizeof_mode_req : Z := 5.
Definition sizeof_baud_req : Z := 8.
Definition sizeof_baud_ack : Z := 9.

Definition hdr_type (b : cbuf) : Z := le16_at b 0.
Definition hdr_size (b : cbuf) : Z := le16_at b 2.

(** ** Driver constants and data *)

Definition APBA_NUM_GPIOS : Z := 8.
Definition APBA_MAX_SEQ : Z := APBA_NUM_GPIOS * 3 * 2.
Definition APBE_RESET_DELAY : Z := 250.
Definition APBA_LOG_SIZE : Z := SZ_16K.
Definition APBA_LOG_REQ_TIMEOUT : Z := 1000.
Definition APBA_MODE_REQ_TIMEOUT : Z := 1000.
Definition APBA_BAUD_REQ_TIMEOUT : Z := 1000.

Definition APBA_INT_REASON_NONE : Z := 0.
Definition APBA_INT_APBE_ON : Z := 1.
Definition APBA_INT_APBE_RESET : Z := 2.
Definition APBA_INT_APBE_CONNECTED : Z := 3.
Definition APBA_INT_APBE_DISCONNECTED : Z := 4.

Record apba_seq_t := mkSeq {
  val : list Z;          (* u32 val[APBA_MAX_SEQ] *)
  len : Z
}.

Inductive completion_id := COMP | BAUD_COMP | MODE_COMP.

Inductive array_id := ARR_SEQ_VAL | ARR_GPIOS | BUF_PAYLOAD | BUF_FW_DATA.

Inductive pin_state := PINS_DEFAULT | PINS_SPI_ACTIVE.

(** Calls into collaborators, in the order the driver makes them.
    [EvOutOfBounds a i] marks a read of element [i] of [a] that lies
    outside what the owner of [a] provided. *)
Inductive event :=
| EvBusVote (on : bool)
| EvUartOpen
| EvUartClose
| EvUartPmOn (on : bool)
| EvUartPmEvent (type : Z)
| EvUartSend (msg : list Z)
| EvUartLockTx (lock : bool)
| EvUartUpdateBaud (baud : Z)
| EvModAttach (present : Z)
| EvScheduleAttachWork (present : Z)
| EvGpioSet (gpio value : Z)
| EvUsleep (us : Z)
| EvMsleep (ms : Z)
| EvPinctrlSelect (st : pin_state)
| EvRegisterSpiFlash
| EvDeregisterSpiFlash
| EvPlatformDeviceCreate
| EvPlatformDepopulate
| EvClkPrepareEnable
| EvClkDisableUnprepare
| EvSlaveCtrlPower (intf mode mask : Z)
| EvGetMtdDevice (num : Z)
| EvPutMtdDevice (name : string)
| EvMtdErase (name : string) (start length : Z)
| EvMtdRead (name : string) (from length : Z)
| EvMtdWrite (name : string) (to length : Z) (data : list Z)
| EvWait (c : completion_id) (ms : Z)
| EvOutOfBounds (a : array_id) (i : Z).

Record apba_ctrl := mkCtrl {
  pinctrl_state_active : bool;       (* !IS_ERR(pinctrl_state_active) *)
  gpio_cnt : Z;
  gpios : list Z;                    (* int gpios[APBA_NUM_GPIOS], zeroed *)
  int_index : Z;
  enable_seq : apba_seq_t;
  disable_seq : apba_seq_t;
  wake_assert_seq : apba_seq_t;
  wake_deassert_seq : apba_seq_t;
  flash_start_seq : apba_seq_t;
  flash_end_seq : apba_seq_t;
  mods_uart : bool;                  (* mods_uart != NULL *)
  desired_on : Z;
  comp : Z;                          (* completion.done *)
  baud_comp : Z;
  mode_comp : Z;
  master_intf : Z;
  mode : Z;
  flash_dev_populated : bool
}.

(** The single driver instance, the global pointer to it, the log fifo,
    the baud rate the transport currently uses, and the trace. *)
Record world := mkWorld {
  ctrl : apba_ctrl;
  g_ctrl : bool;                     (* g_ctrl != NULL; it points to [ctrl] *)
  apba_log_fifo : kfifo;
  uart_baud : Z;
  trace : list event
}.

(** ** State monad *)

Definition M (A : Type) : Type := world -> A * world.

Definition ret {A} (a : A) : M A := fun w => (a, w).
Definition bind {A B} (m : M A) (k : A -> M B) : M B :=
  fun w => k (fst (m w)) (snd (m w)).

Declare Scope apba_scope.
Delimit Scope apba_scope with apba.
Notation "x <- m ;; k" := (bind m (fun x => k))
  (at level 100, m at next level, right associativity) : apba_scope.
Notation "m ;; k" := (bind m (fun _ => k))
  (at level 100, right associativity) : apba_scope.
Open Scope apba_scope.

Definition gets {A} (f : world -> A) : M A := fun w => (f w, w).
Definition modify (f : world -> world) : M unit := fun w => (tt, f w).
Definition when (c : bool) (m : M unit) : M unit := if c then m else ret tt.
Definition exec {A} (m : M A) (w : world) : world := snd (m w).
Definition eval {A} (m : M A) (w : world) : A := fst (m w).

Definition with_trace (t : list event) (w : world) : world :=
  mkWorld (ctrl w) (g_ctrl w) (apba_log_fifo w) (uart_baud w) t.
Definition with_ctrl (c : apba_ctrl) (w : world) : world :=
  mkWorld c (g_ctrl w) (apba_log_fifo w) (uart_baud w) (trace w).
Definition with_fifo (f : kfifo) (w : world) : world :=
  mkWorld (ctrl w) (g_ctrl w) f (uart_baud w) (trace w).
Definition with_baud (b : Z) (w : world) : world :=
  mkWorld (ctrl w) (g_ctrl w) (apba_log_fifo w) b (trace w).

Definition emit (e : event) : M unit :=
  modify (fun w => with_trace (trace w ++ [e]) w).

Definition set_mode (m : Z) (c : apba_ctrl) : apba_ctrl :=
  mkCtrl (pinctrl_state_active c) (gpio_cnt c) (gpios c) (int_index c)
    (enable_seq c) (disable_seq c) (wake_assert_seq c) (wake_deassert_seq c)
    (flash_start_seq c) (flash_end_seq c) (mods_uart c) (desired_on c)
    (comp c) (baud_comp c) (mode_comp c) (master_intf c) m
    (flash_dev_populated c).
Definition set_desired_on (d : Z) (c : apba_ctrl) : apba_ctrl :=
  mkCtrl (pinctrl_state_active c) (gpio_cnt c) (gpios c) (int_index c)
    (enable_seq c) (disable_seq c) (wake_assert_seq c) (wake_deassert_seq c)
    (flash_start_seq c) (flash_end_seq c) (mods_uart c) d
    (comp c) (baud_comp c) (mode_comp c) (master_intf c) (mode c)
    (flash_dev_populated c).
Definition set_flash_dev_populated (p : bool) (c : apba_ctrl) : apba_ctrl :=
  mkCtrl (pinctrl_state_active c) (gpio_cnt c) (gpios c) (int_index c)
    (enable_seq c) (disable_seq c) (wake_assert_seq c) (wake_deassert_seq c)
    (flash_start_seq c) (flash_end_seq c) (mods_uart c) (desired_on c)
    (comp c) (baud_comp c) (mode_comp c) (master_intf c) (mode c) p.
Definition set_done (id : completion_id) (d : Z) (c : apba_ctrl) : apba_ctrl :=
  mkCtrl (pinctrl_state_active c) (gpio_cnt c) (gpios c) (int_index c)
    (enable_seq c) (disable_seq c) (wake_assert_seq c) (wake_deassert_seq c)
    (flash_start_seq c) (flash_end_seq c) (mods_uart c) (desired_on c)
    (match id with COMP => d | _ => comp c end)
    (match id with BAUD_COMP => d | _ => baud_comp c end)
    (match id with MODE_COMP => d | _ => mode_comp c end)
    (master_intf c) (mode c) (flash_dev_populated c).

Definition done (id : completion_id) (c : apba_ctrl) : Z :=
  match id with
  | COMP => comp c
  | BAUD_COMP => baud_comp c
  | MODE_COMP => mode_comp c
  end.

Definition upd_ctrl (f : apba_ctrl -> apba_ctrl) : M unit :=
  modify (fun w => with_ctrl (f (ctrl w)) w).

(** complete(): one more wake-up is pending on the completion. *)
Definition complete (id : completion_id) : M unit :=
  upd_ctrl (fun c => set_done id (done id c + 1) c).

(** An array read [a[i]] of a C array with [size] elements. *)
Definition array_read (id : array_id) (size : Z) (a : list Z) (i : Z) : M Z :=
  if (0 <=? i) && (i <? size) then ret (nth (Z.to_nat i) a 0)
  else (emit (EvOutOfBounds id i) ;; ret 0).

(** A read of [n] bytes at offset [off] of a buffer that holds [len]
    bytes; the first offset outside the buffer is recorded. *)
Definition touch (id : array_id) (len off n : Z) : M unit :=
  when ((0 <? n) && (len <? off + n)) (emit (EvOutOfBounds id (Z.max off len))).

(** ** Collaborators whose answers the driver depends on *)

Record mtd_read_result := mkRead {
  rd_err : Z;
  rd_data : list Z                   (* the bytes delivered; retlen is their number *)
}.

Record mtd_info := mkMtd {
  mtd_name : string;
  mtd_type : Z;
  mtd_size : Z;
  mtd_erasesize : Z;
  _erase : Z -> Z -> Z;
  _read : Z -> Z -> mtd_read_result;
  _write : Z -> Z -> list Z -> Z
}.

Record env := mkEnv {
  get_mtd_device : Z -> option mtd_info;      (* None: IS_ERR *)
  kmalloc_page : bool;                         (* kmalloc(PAGE_SIZE) != NULL *)
  kzalloc_attach_work : bool;
  of_find_transports : bool;
  of_find_spi_transfer : bool;
  of_platform_device_create : bool;
  clk_prepare_enable : Z;
  mods_uart_apba_send : list Z -> Z;
  mods_uart_update_baud : Z -> Z;
  kstrtoul : string -> option Z
}.

(** ** The driver *)

Section Driver.

Variable H : headers.
Variable E : env.

Definition gpio_is_valid (gpio : Z) : bool :=
  (0 <=? gpio) && (gpio <? ARCH_NR_GPIOS H).

Definition apba_mtd_erase (m : mtd_info) (start length : Z) : M Z :=
  let start := wrap_u32 start in
  let length := wrap_u32 length in
  emit (EvMtdErase (mtd_name m) start length) ;;
  ret (_erase m start length).

Fixpoint apba_init_mtd_module_from (n : nat) (num : Z) (partition_name : string)
  : M (option mtd_info) :=
  match n with
  | O => ret None
  | S n' =>
      emit (EvGetMtdDevice num) ;;
      match get_mtd_device E num with
      | None => apba_init_mtd_module_from n' (num + 1) partition_name
      | Some m =>
          if mtd_type m =? MTD_ABSENT then
            (emit (EvPutMtdDevice (mtd_name m)) ;;
             apba_init_mtd_module_from n' (num + 1) partition_name)
          else if negb (String.eqb (mtd_name m) partition_name) then
            (emit (EvPutMtdDevice (mtd_name m)) ;;
             apba_init_mtd_module_from n' (num + 1) partition_name)
          else ret (Some m)
      end
  end.

Definition apba_init_mtd_module (partition_name : string) : M (option mtd_info) :=
  apba_init_mtd_module_from 16 0 partition_name.

(** One iteration of the loop of apba_seq, at index [i]. *)
Definition apba_seq_body (seq : apba_seq_t) (i : Z) : M unit :=
  v0 <- array_read ARR_SEQ_VAL APBA_MAX_SEQ (val seq) i ;;
  v1 <- array_read ARR_SEQ_VAL APBA_MAX_SEQ (val seq) (i + 1) ;;
  v2 <- array_read ARR_SEQ_VAL APBA_MAX_SEQ (val seq) (i + 2) ;;
  let index := wrap_u32 v0 in
  let value := wrap_int v1 in
  let delay := wrap_u32 v2 in
  (if index <? APBA_NUM_GPIOS then
     c <- gets ctrl ;;
     gpio <- array_read ARR_GPIOS APBA_NUM_GPIOS (gpios c) index ;;
     when (gpio_is_valid gpio) (emit (EvGpioSet gpio value))
   else ret tt) ;;
  when (negb (delay =? 0)) (emit (EvUsleep (wrap_ulong (delay * 1000)))).

Fixpoint apba_seq_loop (fuel : nat) (seq : apba_seq_t) (i : Z) : M unit :=
  match fuel with
  | O => ret tt
  | S fuel' =>
      if i <? len seq then
        (apba_seq_body seq i ;; apba_seq_loop fuel' seq (i + 3))
      else ret tt
  end.

(** [i] grows by 3 each round, so [len] rounds always suffice. *)
Definition apba_seq (seq : apba_seq_t) : M unit :=
  apba_seq_loop (Z.to_nat (len seq)) seq 0.

Definition apba_on (on : bool) : M unit :=
  emit (EvBusVote on) ;;
  if on then
    (c <- gets ctrl ;;
     when (mods_uart c) (emit EvUartOpen) ;;
     apba_seq (enable_seq c) ;;
     when (mods_uart c) (emit (EvUartPmOn true)))
  else
    (upd_ctrl (set_mode 0) ;;
     c <- gets ctrl ;;
     apba_seq (disable_seq c) ;;
     when (mods_uart c) (emit (EvUartPmOn false) ;; emit EvUartClose)).

Definition populate_transports_node : M unit :=
  if negb (of_find_transports E) then ret tt
  else if negb (of_find_spi_transfer E) then ret tt
  else
    (emit EvPlatformDeviceCreate ;;
     if negb (of_platform_device_create E) then ret tt
     else upd_ctrl (set_flash_dev_populated true)).

Definition apba_flash_on (on : bool) : M unit :=
  c <- gets ctrl ;;
  if on then
    (when (pinctrl_state_active c) (emit (EvPinctrlSelect PINS_SPI_ACTIVE)) ;;
     apba_seq (flash_start_seq c) ;;
     emit EvRegisterSpiFlash ;;
     populate_transports_node)
  else
    (when (flash_dev_populated c)
       (emit EvPlatformDepopulate ;;
        upd_ctrl (set_flash_dev_populated false)) ;;
     apba_seq (flash_end_seq c) ;;
     emit EvDeregisterSpiFlash ;;
     emit (EvPinctrlSelect PINS_DEFAULT)).

(** The code at label [no_mtd] of both partition operations. *)
Definition no_mtd (err : Z) : M Z :=
  apba_flash_on false ;;
  c <- gets ctrl ;;
  when (negb (desired_on c =? 0)) (apba_on true) ;;
  ret err.

(** The code at label [cleanup]. *)
Definition cleanup (m : mtd_info) (err : Z) : M Z :=
  emit (EvPutMtdDevice (mtd_name m)) ;;
  no_mtd err.

Definition apba_erase_partition (ctrl_ptr : bool) (partition : string) : M Z :=
  if negb ctrl_ptr then ret (- EINVAL)
  else
    (apba_on false ;;
     apba_flash_on true ;;
     mi <- apba_init_mtd_module partition ;;
     match mi with
     | None => no_mtd (- ENODEV)
     | Some m =>
         err <- apba_mtd_erase m 0 (mtd_size m) ;;
         cleanup m err
     end).

Definition apba_compare_partition (m : mtd_info) (fw : cbuf) : M Z :=
  if negb (kmalloc_page E) then ret 1
  else
    (emit (EvMtdRead (mtd_name m) 0 PAGE_SIZE) ;;
     let r := _read m 0 PAGE_SIZE in
     let retlen := Z.of_nat (length (rd_data r)) in
     if rd_err r <? 0 then ret 1
     else if retlen <? PAGE_SIZE then ret 1
     else
       let ffff := firstn (Z.to_nat PAGE_SIZE) (rd_data r) in
       let cmp := memcmp (fun i => nth i ffff 0) (cb_read fw) PAGE_SIZE in
       touch BUF_FW_DATA (cb_len fw) 0 (Z.of_nat (snd cmp)) ;;
       ret (fst cmp)).

Definition apba_flash_partition (ctrl_ptr : bool) (partition : string)
  (fw : option cbuf) : M Z :=
  match fw with
  | None => ret (- EINVAL)
  | Some fw =>
      if negb ctrl_ptr then ret (- EINVAL)
      else
        (apba_on false ;;
         apba_flash_on true ;;
         mi <- apba_init_mtd_module partition ;;
         match mi with
         | None => no_mtd (- ENODEV)
         | Some m =>
             compare_result <- apba_compare_partition m fw ;;
             if compare_result =? 0 then cleanup m 0
             else
               (err <- apba_mtd_erase m 0 (mtd_size m) ;;
                if err <? 0 then cleanup m err
                else
                  (emit (EvMtdWrite (mtd_name m) 0 (cb_len fw) (cb_bytes fw)) ;;
                   cleanup m (_write m 0 (cb_len fw) (cb_bytes fw))))
         end)
  end.

Definition apba_notify_abpe_attach (present : Z) : M unit :=
  g <- gets g_ctrl ;;
  if negb g then ret tt
  else if negb (kzalloc_attach_work E) then ret tt
  else emit (EvScheduleAttachWork present).

Definition apba_action_on_int_reason (reason : Z) : M unit :=
  g <- gets g_ctrl ;;
  c <- gets ctrl ;;
  if negb g || (master_intf c =? 0) then ret tt
  else if reason =? APBA_INT_APBE_ON then
    emit (EvSlaveCtrlPower (master_intf c) (MB_CONTROL_SLAVE_POWER_ON H)
            (MB_CONTROL_SLAVE_MASK_APBE H))
  else if reason =? APBA_INT_APBE_RESET then
    (emit (EvSlaveCtrlPower (master_intf c) (MB_CONTROL_SLAVE_POWER_OFF H)
             (MB_CONTROL_SLAVE_MASK_APBE H)) ;;
     emit (EvMsleep APBE_RESET_DELAY) ;;
     emit (EvSlaveCtrlPower (master_intf c) (MB_CONTROL_SLAVE_POWER_ON H)
             (MB_CONTROL_SLAVE_MASK_APBE H)))
  else if reason =? APBA_INT_APBE_CONNECTED then
    apba_notify_abpe_attach 1
  else if reason =? APBA_INT_APBE_DISCONNECTED then
    (emit (EvSlaveCtrlPower (master_intf c) (MB_CONTROL_SLAVE_POWER_OFF H)
             (MB_CONTROL_SLAVE_MASK_APBE H)) ;;
     apba_notify_abpe_attach 0)
  else ret tt.

(** The LOG_IND case: make room in the fifo, then queue the payload.
    [msg->size] is used as stored (a little-endian host). *)
Definition log_ind (payload : cbuf) : M unit :=
  let plen := cb_len payload in
  touch BUF_PAYLOAD plen 2 2 ;;
  let size := hdr_size payload in
  f <- gets apba_log_fifo ;;
  let ovf := wrap_int (kfifo_len f + size - APBA_LOG_SIZE) in
  let f1 :=
    if 0 <? ovf then snd (kfifo_out f (wrap_u32 (MIN ovf (APBA_MSG_SIZE_MAX H))))
    else f in
  let r := kfifo_in APBA_LOG_SIZE f1 (cb_slice payload 4) size in
  touch BUF_PAYLOAD plen sizeof_hdr (fst r) ;;
  modify (with_fifo (snd r)).

(** The BAUD_ACK case.  The test of [accepted] is the first read of the
    acknowledgement; the pr_debug before it is compiled out. *)
Definition baud_ack (payload : cbuf) : M unit :=
  let plen := cb_len payload in
  touch BUF_PAYLOAD plen 8 1 ;;
  let accepted := cb_read payload 8 in
  when (negb (accepted =? 0))
    (touch BUF_PAYLOAD plen 4 4 ;;
     let baud := le32_at payload 4 in
     emit (EvUartUpdateBaud baud) ;;
     when (mods_uart_update_baud E baud =? 0) (modify (with_baud baud))) ;;
  complete BAUD_COMP.

Definition apba_handle_message (payload : cbuf) : M unit :=
  let plen := cb_len payload in
  g <- gets g_ctrl ;;
  if negb g then ret tt
  else if plen <? sizeof_hdr then ret tt
  else
    let type := hdr_type payload in
    if type =? APBA_CTRL_INT_REASON H then
      (if sizeof_int_reason_resp <=? plen then
         apba_action_on_int_reason (le16_at payload 4)
       else ret tt)
    else if (type =? APBA_CTRL_PM_WAKE_ACK H)
            || (type =? APBA_CTRL_PM_SLEEP_ACK H)
            || (type =? APBA_CTRL_PM_SLEEP_IND H) then
      emit (EvUartPmEvent type)
    else if type =? APBA_CTRL_LOG_IND H then log_ind payload
    else if type =? APBA_CTRL_LOG_REQUEST H then complete COMP
    else if type =? APBA_CTRL_BAUD_ACK H then baud_ack payload
    else if type =? APBA_CTRL_MODE_REQUEST H then complete MODE_COMP
    else ret tt.

(** wait_for_completion_timeout.  [arrivals] are the inbound messages the
    receive path hands to apba_handle_message while the caller is blocked,
    up to the end of the timeout.  The wait ends as soon as a wake-up is
    pending (it consumes it and returns a positive remainder); when the
    arrivals run out without one it returns 0. *)
Fixpoint wait_loop (id : completion_id) (arrivals : list cbuf) : M Z :=
  c <- gets ctrl ;;
  if 0 <? done id c then
    (upd_ctrl (set_done id (done id c - 1)) ;; ret 1)
  else
    match arrivals with
    | [] => ret 0
    | b :: rest => apba_handle_message b ;; wait_loop id rest
    end.

Definition wait_for_completion_timeout (id : completion_id) (ms : Z)
  (arrivals : list cbuf) : M Z :=
  emit (EvWait id ms) ;;
  wait_loop id arrivals.

Definition apba_mode_store (buf : string) (count : Z) (arrivals : list cbuf)
  : M Z :=
  g <- gets g_ctrl ;;
  c <- gets ctrl ;;
  if negb g || negb (mods_uart c) then ret 0
  else
    match kstrtoul E buf with
    | None => ret (- EINVAL)
    | Some v =>
        let msg := cpu_to_le16 (APBA_CTRL_MODE_REQUEST H)
                   ++ cpu_to_le16 1 ++ [wrap_u8 v] in
        emit (EvUartSend msg) ;;
        if negb (mods_uart_apba_send E msg =? 0) then ret count
        else
          (r <- wait_for_completion_timeout MODE_COMP APBA_MODE_REQ_TIMEOUT
                  arrivals ;;
           if r =? 0 then ret count
           else (upd_ctrl (set_mode (wrap_u8 v)) ;; ret count))
    end.

Definition apba_baud_store (buf : string) (count : Z) (arrivals : list cbuf)
  : M Z :=
  g <- gets g_ctrl ;;
  c <- gets ctrl ;;
  if negb g || negb (mods_uart c) then ret (- ENODEV)
  else
    match kstrtoul E buf with
    | None => ret (- EINVAL)
    | Some v =>
        let msg := cpu_to_le16 (APBA_CTRL_BAUD_REQUEST H)
                   ++ cpu_to_le16 4 ++ cpu_to_le32 v in
        emit (EvUartSend msg) ;;
        if negb (mods_uart_apba_send E msg =? 0) then ret (- EIO)
        else
          (emit (EvUartLockTx true) ;;
           r <- wait_for_completion_timeout BAUD_COMP APBA_BAUD_REQ_TIMEOUT
                  arrivals ;;
           if r =? 0 then (emit (EvUartLockTx false) ;; ret (- EAGAIN))
           else (emit (EvUartLockTx false) ;; ret count))
    end.

(** Returns the byte count and the bytes copied to the caller's page. *)
Definition apba_log_show (arrivals : list cbuf) : M (Z * list Z) :=
  g <- gets g_ctrl ;;
  if negb g then ret (0, [])
  else
    let msg := cpu_to_le16 (APBA_CTRL_LOG_REQUEST H) ++ cpu_to_le16 0 in
    emit (EvUartSend msg) ;;
    if negb (mods_uart_apba_send E msg =? 0) then ret (0, [])
    else
      (r <- wait_for_completion_timeout COMP APBA_LOG_REQ_TIMEOUT arrivals ;;
       if r =? 0 then ret (0, [])
       else
         (f <- gets apba_log_fifo ;;
          let o := kfifo_out f (PAGE_SIZE - 1) in
          modify (with_fifo (snd o)) ;;
          ret (fst (fst o), snd (fst o)))).

Definition apba_enable : M Z :=
  g <- gets g_ctrl ;;
  if negb g then ret (- ENODEV)
  else
    (emit EvClkPrepareEnable ;;
     if negb (clk_prepare_enable E =? 0) then ret (clk_prepare_enable E)
     else
       (upd_ctrl (set_desired_on 1) ;;
        apba_on true ;;
        ret 0)).

Definition apba_disable : M unit :=
  g <- gets g_ctrl ;;
  c <- gets ctrl ;;
  if negb g || (desired_on c =? 0) then ret tt
  else
    (emit (EvSlaveCtrlPower (master_intf c) (MB_CONTROL_SLAVE_POWER_OFF H)
             (MB_CONTROL_SLAVE_MASK_APBE H)) ;;
     upd_ctrl (set_desired_on 0) ;;
     when (mods_uart c) (emit (EvModAttach 0)) ;;
     emit EvClkDisableUnprepare ;;
     apba_on false).

End Driver.

(** ** Observations on a trace *)

Definition is_bus_vote (e : event) : bool :=
  match e with EvBusVote _ => true | _ => false end.

Definition is_spi_flash_reg (e : event) : bool :=
  match e with
  | EvRegisterSpiFlash | EvDeregisterSpiFlash => true
  | _ => false
  end.

Definition is_erase_or_write (e : event) : bool :=
  match e with
  | EvMtdErase _ _ _ | EvMtdWrite _ _ _ _ => true
  | _ => false
  end.

Definition is_out_of_bounds (e : event) : bool :=
  match e with EvOutOfBounds _ _ => true | _ => false end.

(** The controller is powered the way the latest apba_on left it: every
    apba_on casts its bus vote first. *)
Definition power_of (t : list event) : option bool :=
  fold_left (fun acc e => match e with EvBusVote on => Some on | _ => acc end)
    t None.

(** The SPI flash transport is registered between apba_flash_on(true) and
    apba_flash_on(false). *)
Definition flash_mode_of (t : list event) : option bool :=
  fold_left
    (fun acc e =>
       match e with
       | EvRegisterSpiFlash => Some true
       | EvDeregisterSpiFlash => Some false
       | _ => acc
       end) t None.

Definition power_state (w : world) : option bool := power_of (trace w).
Definition flash_mode (w : world) : option bool := flash_mode_of (trace w).

(** [follows P w w']: [w'] is reached from [w] with the same desired-on
    flag and the same global pointer, adding only events accepted by [P]. *)
Definition follows (P : event -> bool) (w w' : world) : Prop :=
  desired_on (ctrl w') = desired_on (ctrl w) /\
  g_ctrl w' = g_ctrl w /\
  exists evs, trace w' = trace w ++ evs /\ forallb P evs = true.

Definition keeps (P : event -> bool) {A} (m : M A) : Prop :=
  forall w, follows P w (exec m w).

(** ** runSequence as the specification words it *)

Definition triple : Type := Z * Z * Z.

Definition flatten_triples (ts : list triple) : list Z :=
  flat_map (fun t : triple => let '(i, v, d) := t in [i; v; d]) ts.

Definition seq_of_triples (ts : list triple) : apba_seq_t :=
  mkSeq (flatten_triples ts) (3 * Z.of_nat (length ts)).

Definition u32 (x : Z) : Prop := 0 <= x < 4294967296.

Definition triple_u32 (t : triple) : Prop :=
  let '(i, v, d) := t in u32 i /\ u32 v /\ u32 d.

(** Set the pin when its index is within the pin array. *)
Definition pin_write (H : headers) (c : apba_ctrl) (index value : Z)
  : list event :=
  if index <? APBA_NUM_GPIOS then
    let gpio := nth (Z.to_nat index) (gpios c) 0 in
    if gpio_is_valid H gpio then [EvGpioSet gpio (wrap_int value)] else []
  else [].

(** Block for the delay when it is nonzero. *)
Definition pause (delay : Z) : list event :=
  if delay =? 0 then [] else [EvUsleep (delay * 1000)].

Definition run_triple (H : headers) (c : apba_ctrl) (t : triple) : list event :=
  let '(i, v, d) := t in pin_write H c i v ++ pause d.

Definition runSequence_spec (H : headers) (c : apba_ctrl) (ts : list triple)
  : list event :=
  flat_map (run_triple H c) ts.

(** ** Notions used to state the properties *)

Definition no_bus_vote (e : event) : bool := negb (is_bus_vote e).
Definition no_spi_flash_reg (e : event) : bool := negb (is_spi_flash_reg e).
Definition no_erase_or_write (e : event) : bool := negb (is_erase_or_write e).

(** [m] always finishes by running the code at label [no_mtd], reached
    through events accepted by [P]. *)
Definition ends_in_no_mtd (H : headers) (E : env) (P : event -> bool)
  (m : M Z) : Prop :=
  forall w, exists mid err,
    m w = no_mtd H E err mid /\ follows P w mid.

(** What a partition operation started in [w] leaves behind in [w']: flash
    mode was left and the controller was then switched on again exactly
    when desired-on was set in [w]. *)
Definition power_restored (H : headers) (E : env) (w w' : world) : Prop :=
  let d := negb (desired_on (ctrl w) =? 0) in
  (exists mid,
      desired_on (ctrl mid) = desired_on (ctrl w) /\
      w' = exec (when d (apba_on H true)) (exec (apba_flash_on H E false) mid))
  /\ power_state w' = Some d
  /\ flash_mode w' = Some false
  /\ desired_on (ctrl w') = desired_on (ctrl w).

(** The case labels of the switch in apba_handle_message, in order.  A C
    switch has pairwise distinct labels. *)
Definition handled_types (H : headers) : list Z :=
  [APBA_CTRL_INT_REASON H; APBA_CTRL_PM_WAKE_ACK H; APBA_CTRL_PM_SLEEP_ACK H;
   APBA_CTRL_PM_SLEEP_IND H; APBA_CTRL_LOG_IND H; APBA_CTRL_LOG_REQUEST H;
   APBA_CTRL_BAUD_ACK H; APBA_CTRL_MODE_REQUEST H].

(** The message type whose arrival wakes up a completion. *)
Definition completion_type (H : headers) (id : completion_id) : Z :=
  match id with
  | COMP => APBA_CTRL_LOG_REQUEST H
  | BAUD_COMP => APBA_CTRL_BAUD_ACK H
  | MODE_COMP => APBA_CTRL_MODE_REQUEST H
  end.

Definition signals (H : headers) (id : completion_id) (b : cbuf) : bool :=
  (sizeof_hdr <=? cb_len b) && (hdr_type b =? completion_type H id).

(** No wake-up is pending on the completion when the request is sent and
    none of the messages arriving within the timeout is its reply. *)
Definition not_signaled (H : headers) (id : completion_id)
  (arrivals : list cbuf) (w : world) : Prop :=
  done id (ctrl w) = 0
  /\ forallb (fun b => negb (signals H id b)) arrivals = true.

Definition any_event (e : event) : bool := true.

(** [f] reads the same before and after [m]. *)
Definition unchanged {X A} (f : world -> X) (m : M A) : Prop :=
  forall w, f (exec m w) = f w.

(** A sysfs store handler reports a failure to its caller with a negative
    errno; any other value is the number of bytes it consumed. *)
Definition reports_failure (r : Z) : Prop := r < 0.

(** ** A concrete board, used to exercise the statements *)

Definition demo_headers : headers :=
  {| APBA_MSG_SIZE_MAX := 2048;
     APBA_CTRL_INT_REASON := 1;
     APBA_CTRL_PM_WAKE_ACK := 2;
     APBA_CTRL_PM_SLEEP_ACK := 3;
     APBA_CTRL_PM_SLEEP_IND := 4;
     APBA_CTRL_LOG_IND := 5;
     APBA_CTRL_LOG_REQUEST := 6;
     APBA_CTRL_MODE_REQUEST := 7;
     APBA_CTRL_BAUD_REQUEST := 8;
     APBA_CTRL_BAUD_ACK := 9;
     MB_CONTROL_SLAVE_POWER_ON := 1;
     MB_CONTROL_SLAVE_POWER_OFF := 2;
     MB_CONTROL_SLAVE_MASK_APBE := 1;
     ARCH_NR_GPIOS := 1024 |}.

(** First page of the demo partition: 1, 2, 3 and then zeroes. *)
Definition demo_page : list Z := [1; 2; 3] ++ repeat 0 4093.

Definition demo_mtd : mtd_info :=
  {| mtd_name := "apba";
     mtd_type := 3;
     mtd_size := 65536;
     mtd_erasesize := 4096;
     _erase := fun _ _ => 0;
     _read := fun _ _ => mkRead 0 demo_page;
     _write := fun _ _ _ => 0 |}.

Definition demo_env : env :=
  {| get_mtd_device := fun num => if num =? 1 then Some demo_mtd else None;
     kmalloc_page := true;
     kzalloc_attach_work := true;
     of_find_transports := true;
     of_find_spi_transfer := true;
     of_platform_device_create := true;
     clk_prepare_enable := 0;
     mods_uart_apba_send := fun _ => 0;
     mods_uart_update_baud := fun _ => 0;
     kstrtoul := fun s =>
       if String.eqb s "3" then Some 3
       else if String.eqb s "230400" then Some 230400
       else None |}.

Definition demo_triples : list triple := [(0, 1, 5); (9, 1, 2); (1, 0, 0)].

Definition demo_ctrl : apba_ctrl :=
  {| pinctrl_state_active := true;
     gpio_cnt := 3;
     gpios := [10; 11; 12];
     int_index := 2;
     enable_seq := seq_of_triples [(0, 1, 5); (1, 1, 0)];
     disable_seq := seq_of_triples [(1, 0, 0); (0, 0, 5)];
     wake_assert_seq := seq_of_triples [(2, 1, 0)];
     wake_deassert_seq := seq_of_triples [(2, 0, 0)];
     flash_start_seq := seq_of_triples [(0, 0, 10)];
     flash_end_seq := seq_of_triples [(0, 1, 10)];
     mods_uart := true;
     desired_on := 1;
     comp := 0;
     baud_comp := 0;
     mode_comp := 0;
     master_intf := 1;
     mode := 0;
     flash_dev_populated := false |}.

Definition demo_world : world :=
  {| ctrl := demo_ctrl;
     g_ctrl := true;
     apba_log_fifo := [];
     uart_baud := 115200;
     trace := [] |}.

(** The same controller after apba_disable: desired-on cleared. *)
Definition demo_world_off : world :=
  with_ctrl (set_desired_on 0 demo_ctrl) demo_world.

(** A full image whose first page is the partition's, and two 3-byte
    images that differ only in what lies behind them in memory. *)
Definition demo_fw : cbuf := mkCbuf (demo_page ++ [7; 7; 7]) (fun _ => 0).
Definition demo_fw_short : cbuf := mkCbuf [1; 2; 3] (fun _ => 0).
Definition demo_fw_short' : cbuf := mkCbuf [1; 2; 3] (fun _ => 255).

(** Messages as they come in from the transport. *)
Definition demo_msg (type : Z) (payload : list Z) : cbuf :=
  mkCbuf (cpu_to_le16 type ++ cpu_to_le16 (Z.of_nat (length payload)) ++ payload)
    (fun _ => 0).

(** A BAUD_ACK cut after its header, followed in memory by the bytes of
    an accepted 230400 baud acknowledgement. *)
Definition demo_baud_ack_header_only : cbuf :=
  mkCbuf (cpu_to_le16 9 ++ cpu_to_le16 5)
    (fun i => nth i [0; 132; 3; 0; 1] 0).

(** The log fifo six bytes short of full, and a board whose maximum
    message size exceeds the log capacity. *)
Definition demo_world_log_nearly_full : world :=
  with_fifo (repeat 65 (Z.to_nat 16378)) demo_world.

Definition big_message_headers : headers :=
  {| APBA_MSG_SIZE_MAX := 20000;
     APBA_CTRL_INT_REASON := 1;
     APBA_CTRL_PM_WAKE_ACK := 2;
     APBA_CTRL_PM_SLEEP_ACK := 3;
     APBA_CTRL_PM_SLEEP_IND := 4;
     APBA_CTRL_LOG_IND := 5;
     APBA_CTRL_LOG_REQUEST := 6;
     APBA_CTRL_MODE_REQUEST := 7;
     APBA_CTRL_BAUD_REQUEST := 8;
     APBA_CTRL_BAUD_ACK := 9;
     MB_CONTROL_SLAVE_POWER_ON := 1;
     MB_CONTROL_SLAVE_POWER_OFF := 2;
     MB_CONTROL_SLAVE_MASK_APBE := 1;
     ARCH_NR_GPIOS := 1024 |}.

(** Ten LOG_IND messages of 2000 bytes each, the k-th filled with k. *)
Definition demo_log_chunks : list (list Z) :=
  map (fun k => repeat k 2000) [1; 2; 3; 4; 5; 6; 7; 8; 9; 10].

Definition feed_log (w : world) (chunks : list (list Z)) : world :=
  fold_left
    (fun w chunk => exec (apba_handle_message demo_headers demo_env
                            (demo_msg 5 chunk)) w)
    chunks w.

(** ** More of the driver: device-tree sequences, sysfs handlers, hooks *)

Definition MAX_PARTITION_NAME : Z := 16.

Definition newline : ascii := "010"%char.

(** A char array read as a C string: the characters before the first NUL. *)
Fixpoint c_str (s : string) : string :=
  match s with
  | EmptyString => EmptyString
  | String c rest =>
      if Ascii.eqb c Ascii.zero then EmptyString else String c (c_str rest)
  end.

Definition set_mods_uart (u : bool) (c : apba_ctrl) : apba_ctrl :=
  mkCtrl (pinctrl_state_active c) (gpio_cnt c) (gpios c) (int_index c)
    (enable_seq c) (disable_seq c) (wake_assert_seq c) (wake_deassert_seq c)
    (flash_start_seq c) (flash_end_seq c) u (desired_on c)
    (comp c) (baud_comp c) (mode_comp c) (master_intf c) (mode c)
    (flash_dev_populated c).

(** apba_parse_seq.  [pp] is what of_find_property finds: the length of the
    property in bytes, or None.  [read cnt] is of_property_read_u32_array:
    its return value and the [cnt] cells it stores.  The sequence comes
    from a zeroed structure with [len] preset to the capacity of [val]. *)
Definition apba_parse_seq (pp : option Z) (read : Z -> Z * list Z)
  (seq : apba_seq_t) : Z * apba_seq_t :=
  let cnt := match pp with Some l => l | None => 0 end in
  let cnt := wrap_int (wrap_ulong cnt / 4) in
  match pp with
  | None => (- EINVAL, seq)
  | Some _ =>
      if (cnt =? 0) || (len seq <? wrap_ulong cnt)
         || negb (Z.rem cnt 3 =? 0)
      then (- EINVAL, seq)
      else
        let r := read cnt in
        if negb (fst r =? 0) then (fst r, seq)
        else (fst r, mkSeq (snd r) cnt)
  end.

(** The name handling at the head of erase_partition_store and of
    flash_partition_store: one trailing newline is dropped, and a name
    that is empty or does not fit [partition] is refused (None stands for
    the return of -EINVAL). *)
Definition partition_name_sz (buf : string) : nat :=
  let count := String.length buf in
  match count with
  | O => O
  | S k =>
      match String.get k buf with
      | Some c => if Ascii.eqb c newline then k else count
      | None => count
      end
  end.

Definition store_partition_name (buf : string) : option string :=
  let sz := partition_name_sz buf in
  if (sz =? 0)%nat || (Z.to_nat (MAX_PARTITION_NAME + 1) <=? sz)%nat then None
  else Some (c_str (substring 0 sz buf)).

(** scnprintf(buf, size, "%d\n", x): at most [size - 1] characters are
    stored, and their number is returned. *)
Definition scnprintf_d (size : Z) (x : Z) : Z * string :=
  let s := (NilZero.string_of_int (Z.to_int x)
            ++ String newline EmptyString)%string in
  let out := substring 0 (Z.to_nat (size - 1)) s in
  (Z.of_nat (String.length out), out).

Section DriverRest.

Variable H : headers.
Variable E : env.

(** The controller pointer of the sysfs handlers is the driver data of
    the platform device, which is set together with [g_ctrl]. *)
Definition erase_partition_store (buf : string) : M Z :=
  let count := Z.of_nat (String.length buf) in
  match store_partition_name buf with
  | None => ret (- EINVAL)
  | Some partition =>
      drvdata <- gets g_ctrl ;;
      err <- apba_erase_partition H E drvdata partition ;;
      ret (if err =? 0 then count else err)
  end.

Definition apba_enable_show : M (Z * string) :=
  g <- gets g_ctrl ;;
  if negb g then ret (0, EmptyString)
  else (c <- gets ctrl ;; ret (scnprintf_d PAGE_SIZE (desired_on c))).

Definition flash_enable_show : M (Z * string) :=
  g <- gets g_ctrl ;;
  if negb g then ret (0, EmptyString)
  else
    (c <- gets ctrl ;;
     ret (scnprintf_d PAGE_SIZE (if flash_dev_populated c then 1 else 0))).

Definition apba_enable_store (buf : string) (count : Z) : M Z :=
  match kstrtoul E buf with
  | None => ret (- EINVAL)
  | Some v =>
      if negb (v =? 0) && negb (v =? 1) then ret (- EINVAL)
      else
        ((if negb (v =? 0) then (_ <- apba_enable H E ;; ret tt)
          else apba_disable H) ;;
         ret count)
  end.

Definition apba_mode_show : M (Z * string) :=
  g <- gets g_ctrl ;;
  if negb g then ret (0, EmptyString)
  else (c <- gets ctrl ;; ret (scnprintf_d 4 (mode c))).

Definition apba_baud_show : M (Z * string) :=
  g <- gets g_ctrl ;;
  c <- gets ctrl ;;
  if negb g || negb (mods_uart c) then ret (0, EmptyString)
  else (b <- gets uart_baud ;; ret (scnprintf_d PAGE_SIZE b)).

Definition apbe_power_store (buf : string) (count : Z) : M Z :=
  g <- gets g_ctrl ;;
  c <- gets ctrl ;;
  if negb g then ret (- EINVAL)
  else if master_intf c =? 0 then ret (- EINVAL)
  else
    match kstrtoul E buf with
    | None => ret (- EINVAL)
    | Some v =>
        if negb (v =? 0) && negb (v =? 1) then ret (- EINVAL)
        else
          (emit (EvSlaveCtrlPower (master_intf c) v
                   (MB_CONTROL_SLAVE_MASK_APBE H)) ;;
           ret count)
    end.


(** [mods_uart] is the handle passed in: NULL or a transport. *)
Definition apba_uart_register (mods_uart : bool) : M Z :=
  g <- gets g_ctrl ;;
  if negb g then ret (- ENODEV)
  else (upd_ctrl (set_mods_uart mods_uart) ;; ret 0).

(** apba_apbe_attach_work_func, for the work item queued by
    apba_notify_abpe_attach with [present]. *)
Definition apba_apbe_attach_work_func (present : Z) : M unit :=
  g <- gets g_ctrl ;;
  c <- gets ctrl ;;
  when (g && mods_uart c) (emit (EvModAttach present)).

Definition apba_disable_work_func : M unit := apba_disable H.

End DriverRest.

(** ** Further observations on a trace *)

Definition is_lock_tx (e : event) : bool :=
  match e with EvUartLockTx _ => true | _ => false end.

Definition is_clk_event (e : event) : bool :=
  match e with
  | EvClkPrepareEnable | EvClkDisableUnprepare => true
  | _ => false
  end.

Definition is_mtd_ref_event (e : event) : bool :=
  match e with
  | EvGetMtdDevice _ | EvPutMtdDevice _ => true
  | _ => false
  end.

(** What an inbound message can make the driver call. *)
Definition is_handler_event (e : event) : bool :=
  match e with
  | EvSlaveCtrlPower _ _ _ | EvMsleep _ | EvScheduleAttachWork _
  | EvUartPmEvent _ | EvUartUpdateBaud _ | EvOutOfBounds _ _ => true
  | _ => false
  end.

(** Slot [num] of the MTD table holds a present device with this name. *)
Definition mtd_matches (E : env) (name : string) (num : Z) : bool :=
  match get_mtd_device E num with
  | Some m => negb (mtd_type m =? MTD_ABSENT) && String.eqb (mtd_name m) name
  | None => false
  end.

(** The cells of a sequence property, three by three. *)
Fixpoint triples_of (cells : list Z) (n : nat) : list triple :=
  match n with
  | O => []
  | S n' =>
      match cells with
      | i :: v :: d :: rest => (i, v, d) :: triples_of rest n'
      | _ => []
      end
  end.

(** [adds Q l w w']: [w'] extends the trace of [w], and the added events
    that [Q] selects are, in order, [l]. *)
Definition adds (Q : event -> bool) (l : list event) (w w' : world) : Prop :=
  exists evs, trace w' = trace w ++ evs /\ filter Q evs = l.

(** What probing slot [k] leaves in the trace when the device there is not
    the one looked for: the reference taken is given back. *)
Definition mtd_probe_rejected (E : env) (k : Z) : list event :=
  EvGetMtdDevice k ::
  match get_mtd_device E k with
  | Some m => [EvPutMtdDevice (mtd_name m)]
  | None => []
  end.

Definition slots (num : Z) (n : nat) : list Z :=
  map (fun i => num + Z.of_nat i) (seq 0 n).

(** What running a sequence can add to the trace. *)
Definition is_seq_event (e : event) : bool :=
  match e with
  | EvGpioSet _ _ | EvUsleep _ | EvOutOfBounds _ _ => true
  | _ => false
  end.

(** The transport calls around the enable sequence and after the disable
    sequence, made when a transport is registered. *)
Definition uart_calls (u : bool) (calls : list event) : list event :=
  if u then calls else [].

(** The receive path handling a run of inbound messages, oldest first. *)
Definition handle_all (H : headers) (E : env) (msgs : list cbuf) (w : world)
  : world :=
  fold_left (fun w m => exec (apba_handle_message H E m) w) msgs w.

(** The sample controller after the replies to three requests that had
    timed out came in late, behind two bytes of log. *)
Definition demo_world_late_replies : world :=
  handle_all demo_headers demo_env
    [demo_msg 5 [104; 105]; demo_msg 7 [3]; demo_msg 9 [0; 0; 0; 0; 0];
     demo_msg 6 []]
    demo_world.

(** The requests as apba_mode_store, apba_baud_store and apba_log_show
    put them on the wire. *)
Definition mode_req_bytes (H : headers) (v : Z) : list Z :=
  cpu_to_le16 (APBA_CTRL_MODE_REQUEST H) ++ cpu_to_le16 1 ++ [wrap_u8 v].

Definition baud_req_bytes (H : headers) (v : Z) : list Z :=
  cpu_to_le16 (APBA_CTRL_BAUD_REQUEST H) ++ cpu_to_le16 4 ++ cpu_to_le32 v.

Definition log_req_bytes (H : headers) : list Z :=
  cpu_to_le16 (APBA_CTRL_LOG_REQUEST H) ++ cpu_to_le16 0.

(** ** More sample data *)


(** The sample controller showing mode 200. *)
Definition demo_world_mode_200 : world :=
  with_ctrl (set_mode 200 demo_ctrl) demo_world.

(** The enable sequence of the sample controller as a device-tree
    property of six cells, and the zeroed sequence it is parsed into. *)
Definition demo_enable_cells (cnt : Z) : Z * list Z := (0, [0; 1; 5; 1; 1; 0]).
Definition demo_empty_seq : apba_seq_t := mkSeq [] APBA_MAX_SEQ.

(** The sample board with a kstrtoul that also reads "0" and "1". *)
Definition demo_env_switch : env :=
  {| get_mtd_device := get_mtd_device demo_env;
     kmalloc_page := kmalloc_page demo_env;
     kzalloc_attach_work := kzalloc_attach_work demo_env;
     of_find_transports := of_find_transports demo_env;
     of_find_spi_transfer := of_find_spi_transfer demo_env;
     of_platform_device_create := of_platform_device_create demo_env;
     clk_prepare_enable := clk_prepare_enable demo_env;
     mods_uart_apba_send := mods_uart_apba_send demo_env;
     mods_uart_update_baud := mods_uart_update_baud demo_env;
     kstrtoul := fun s =>
       if String.eqb s "0" then Some 0
       else if String.eqb s "1" then Some 1
       else kstrtoul demo_env s |}.

(** ** Firmware loading, the interrupt and the slave notification *)

(** Calls into collaborators for which [event] has no name.  A function
    returns the calls it made, in order, each with the length of the trace
    at the moment of the call.  [CallGpioExport] carries what gpio_export
    returned. *)
Inductive sys_call : Type :=
| CallRequestFirmware (name : string)
| CallReleaseFirmware
| CallMucEnableDet
| CallScheduleDisableWork
| CallGpioGetValue (gpio : Z)
| CallUartWakeInterrupt
| CallGpioRequestOne (gpio : Z)
| CallGpioExport (gpio : Z) (ret : Z)
| CallGpioExportLink (label : string) (gpio : Z)
| CallGpioUnexport (gpio : Z)
| CallSysfsRemoveLink (label : string)
| CallRequestIrq (irq : Z)
| CallEnableIrqWake (irq : Z).

Definition call (c : sys_call) : M (list (nat * sys_call)) :=
  fun w => ([(length (trace w), c)], w).

Definition set_master_intf (m : Z) (c : apba_ctrl) : apba_ctrl :=
  mkCtrl (pinctrl_state_active c) (gpio_cnt c) (gpios c) (int_index c)
    (enable_seq c) (disable_seq c) (wake_assert_seq c) (wake_deassert_seq c)
    (flash_start_seq c) (flash_end_seq c) (mods_uart c) (desired_on c)
    (comp c) (baud_comp c) (mode_comp c) m (mode c)
    (flash_dev_populated c).

Definition FFFF_EXT : string := ".ffff".
Definition BIN_EXT : string := ".bin".
Definition APBA_FIRMWARE_PARTITION : string := "apba".

Section Hooks.

Variable H : headers.
Variable E : env.

(** flash_partition_store.  [request_firmware name] is the return value
    of request_firmware and the image it hands out.  The result is None
    where the code reads [ctrl->dev] through a NULL driver data
    pointer. *)
Definition flash_partition_store
  (request_firmware : string -> Z * option cbuf) (buf : string)
  : M (option Z * list (nat * sys_call)) :=
  let count := Z.of_nat (String.length buf) in
  match store_partition_name buf with
  | None => ret (Some (- EINVAL), [])
  | Some partition =>
      let stem := substring 0 (partition_name_sz buf) buf in
      let ffff := c_str (stem ++ FFFF_EXT) in
      let bin := c_str (stem ++ BIN_EXT) in
      drvdata <- gets g_ctrl ;;
      if negb drvdata then ret (None, [])
      else
        (c1 <- call (CallRequestFirmware ffff) ;;
         c2 <- (if fst (request_firmware ffff) <? 0
                then call (CallRequestFirmware bin) else ret []) ;;
         let r := if fst (request_firmware ffff) <? 0
                  then request_firmware bin else request_firmware ffff in
         if fst r <? 0 then ret (Some (fst r), c1 ++ c2)
         else
           match snd r with
           | None => ret (Some (- EINVAL), c1 ++ c2)
           | Some fw =>
               if cb_len fw =? 0 then ret (Some (- EINVAL), c1 ++ c2)
               else
                 (err <- apba_flash_partition H E drvdata partition
                           (Some fw) ;;
                  c3 <- call CallReleaseFirmware ;;
                  ret (Some (if err =? 0 then count else err),
                       c1 ++ c2 ++ c3))
           end)
  end.

(** apba_firmware_callback, with [ctrl_ptr] telling whether the context
    pointer is set. *)
Definition apba_firmware_callback (ctrl_ptr : bool) (fw : option cbuf)
  : M (list (nat * sys_call)) :=
  if negb ctrl_ptr then ret []
  else
    (c1 <- match fw with
           | None =>
               apba_flash_on H E false ;;
               c <- gets ctrl ;;
               when (negb (desired_on c =? 0)) (apba_on H true) ;;
               ret []
           | Some f =>
               _ <- apba_flash_partition H E ctrl_ptr
                      APBA_FIRMWARE_PARTITION (Some f) ;;
               call CallReleaseFirmware
           end ;;
     c2 <- call CallMucEnableDet ;;
     ret (c1 ++ c2)).

(** apba_isr; its data pointer is the controller. *)
Definition apba_isr : M (list (nat * sys_call)) :=
  c <- gets ctrl ;;
  gpio <- array_read ARR_GPIOS APBA_NUM_GPIOS (gpios c) (int_index c) ;;
  c1 <- call (CallGpioGetValue gpio) ;;
  if (desired_on c =? 0) || negb (mods_uart c) then ret c1
  else (c2 <- call CallUartWakeInterrupt ;; ret (c1 ++ c2)).

(** The two slave states of the switch in apba_slave_notify come from a
    header that is not part of the sources. *)
Variable SLAVE_STATE_DISABLED : Z.
Variable SLAVE_STATE_ENABLED : Z.

Definition apba_slave_notify (intf slave_mask slave_state : Z)
  : M (list (nat * sys_call)) :=
  g <- gets g_ctrl ;;
  if negb g then ret []
  else if negb (slave_mask =? MB_CONTROL_SLAVE_MASK_APBE H) then ret []
  else
    (upd_ctrl (set_master_intf intf) ;;
     if slave_state =? SLAVE_STATE_DISABLED
     then call CallScheduleDisableWork
     else if slave_state =? SLAVE_STATE_ENABLED
     then (_ <- apba_enable H E ;; ret [])
     else ret []).

End Hooks.

Definition is_power_cmd (e : event) : bool :=
  match e with EvSlaveCtrlPower _ _ _ => true | _ => false end.

(** A firmware store that holds apba.bin and no apba.ffff. *)
Definition demo_request_firmware (name : string) : Z * option cbuf :=
  if String.eqb name "apba.bin" then (0, Some demo_fw) else (-2, None).

(** ** Setting up the pins and the interrupt at probe time *)

(** What the device-tree node and the GPIO layer answer.  The calls made
    once per pin are indexed by the pin's position in the node. *)
Record gpio_node := mkGpioNode {
  of_gpio_count : Z;
  of_property_count_strings : Z;
  of_get_gpio_flags : Z -> Z;
  of_property_read_string_index : Z -> Z * string;
  devm_gpio_request_one : Z -> Z;
  gpio_export : Z -> Z;
  gpio_export_link : Z -> Z;
  of_property_read_u32 : Z * Z;          (* mmi,int-index: return value, cell *)
  gpio_to_irq : Z -> Z;
  devm_request_threaded_irq : Z -> Z
}.

Definition set_gpios (g : list Z) (c : apba_ctrl) : apba_ctrl :=
  mkCtrl (pinctrl_state_active c) (gpio_cnt c) g (int_index c)
    (enable_seq c) (disable_seq c) (wake_assert_seq c) (wake_deassert_seq c)
    (flash_start_seq c) (flash_end_seq c) (mods_uart c) (desired_on c)
    (comp c) (baud_comp c) (mode_comp c) (master_intf c) (mode c)
    (flash_dev_populated c).

Definition set_gpio_cnt (n : Z) (c : apba_ctrl) : apba_ctrl :=
  mkCtrl (pinctrl_state_active c) n (gpios c) (int_index c)
    (enable_seq c) (disable_seq c) (wake_assert_seq c) (wake_deassert_seq c)
    (flash_start_seq c) (flash_end_seq c) (mods_uart c) (desired_on c)
    (comp c) (baud_comp c) (mode_comp c) (master_intf c) (mode c)
    (flash_dev_populated c).

Definition set_int_index (i : Z) (c : apba_ctrl) : apba_ctrl :=
  mkCtrl (pinctrl_state_active c) (gpio_cnt c) (gpios c) i
    (enable_seq c) (disable_seq c) (wake_assert_seq c) (wake_deassert_seq c)
    (flash_start_seq c) (flash_end_seq c) (mods_uart c) (desired_on c)
    (comp c) (baud_comp c) (mode_comp c) (master_intf c) (mode c)
    (flash_dev_populated c).

Fixpoint list_update {A} (l : list A) (i : nat) (v : A) : list A :=
  match l, i with
  | [], _ => []
  | _ :: t, O => v :: t
  | h :: t, S i' => h :: list_update t i' v
  end.

(** An array write [a[i] = v] to a C array with [size] elements. *)
Definition array_write {A} (id : array_id) (size : Z) (a : list A) (i : Z)
  (v : A) : M (list A) :=
  if (0 <=? i) && (i <? size) then ret (list_update a (Z.to_nat i) v)
  else (emit (EvOutOfBounds id i) ;; ret a).

Section Pins.

Variable H : headers.
Variable D : gpio_node.

(** apba_gpio_free from index [i] on.  [labels] is the array
    [gpio_labels] of the controller. *)
Fixpoint apba_gpio_free_from (fuel : nat) (i : Z) (labels : list string)
  : M (list (nat * sys_call)) :=
  match fuel with
  | O => ret []
  | S fuel' =>
      c <- gets ctrl ;;
      if i <? gpio_cnt c then
        (c1 <- call (CallSysfsRemoveLink (nth (Z.to_nat i) labels EmptyString)) ;;
         gpio <- array_read ARR_GPIOS APBA_NUM_GPIOS (gpios c) i ;;
         c2 <- call (CallGpioUnexport gpio) ;;
         rest <- apba_gpio_free_from fuel' (i + 1) labels ;;
         ret (c1 ++ c2 ++ rest))
      else ret []
  end.

Definition apba_gpio_free (labels : list string)
  : M (list (nat * sys_call)) :=
  c <- gets ctrl ;;
  apba_gpio_free_from (Z.to_nat (gpio_cnt c)) 0 labels.

(** One turn of the loop of apba_gpio_setup: the value of [ret] (0 when
    the turn went through, else the value with which the loop is left
    for [gpio_cleanup]), the labels and the calls made. *)
Definition apba_gpio_setup_body (i : Z) (labels : list string)
  : M (Z * list string * list (nat * sys_call)) :=
  let gpio := of_get_gpio_flags D i in
  let rl := of_property_read_string_index D i in
  if negb (gpio_is_valid H gpio) then ret (- EINVAL, labels, [])
  else if negb (fst rl =? 0) then ret (fst rl, labels, [])
  else
    (c1 <- call (CallGpioRequestOne gpio) ;;
     if negb (devm_gpio_request_one D i =? 0)
     then ret (devm_gpio_request_one D i, labels, c1)
     else
       (c2 <- call (CallGpioExport gpio (gpio_export D i)) ;;
        if negb (gpio_export D i =? 0)
        then ret (gpio_export D i, labels, c1 ++ c2)
        else
          (c3 <- call (CallGpioExportLink (snd rl) gpio) ;;
           if negb (gpio_export_link D i =? 0)
           then (c4 <- call (CallGpioUnexport gpio) ;;
                 ret (gpio_export_link D i, labels, c1 ++ c2 ++ c3 ++ c4))
           else
             (c <- gets ctrl ;;
              gs <- array_write ARR_GPIOS APBA_NUM_GPIOS (gpios c) i gpio ;;
              upd_ctrl (set_gpios gs) ;;
              upd_ctrl (fun c => set_gpio_cnt (wrap_int (gpio_cnt c + 1)) c) ;;
              ret (0, list_update labels (Z.to_nat i) (snd rl),
                   c1 ++ c2 ++ c3))))).

Fixpoint apba_gpio_setup_loop (fuel : nat) (i : Z) (labels : list string)
  : M (Z * list string * list (nat * sys_call)) :=
  match fuel with
  | O => ret (0, labels, [])
  | S fuel' =>
      r <- apba_gpio_setup_body i labels ;;
      if fst (fst r) =? 0 then
        (r' <- apba_gpio_setup_loop fuel' (i + 1) (snd (fst r)) ;;
         ret (fst (fst r'), snd (fst r'), snd r ++ snd r'))
      else ret r
  end.

(** apba_gpio_setup: its return value, the labels and the calls. *)
Definition apba_gpio_setup (labels : list string)
  : M (Z * list string * list (nat * sys_call)) :=
  let gpio_cnt := of_gpio_count D in
  let label_cnt := of_property_count_strings D in
  if gpio_cnt <=? 0 then ret (- EINVAL, labels, [])
  else if APBA_NUM_GPIOS <? gpio_cnt then ret (- EINVAL, labels, [])
  else if negb (label_cnt =? gpio_cnt) then ret (- EINVAL, labels, [])
  else
    (r <- apba_gpio_setup_loop (Z.to_nat gpio_cnt) 0 labels ;;
     if fst (fst r) =? 0 then ret r
     else
       (f <- apba_gpio_free (snd (fst r)) ;;
        ret (fst (fst r), snd (fst r), snd r ++ f))).

Definition apba_int_setup : M (Z * list (nat * sys_call)) :=
  let r := of_property_read_u32 D in
  if negb (fst r =? 0) then ret (fst r, [])
  else
    (upd_ctrl (set_int_index (wrap_int (snd r))) ;;
     c <- gets ctrl ;;
     if (int_index c <? 0) || (gpio_cnt c <=? int_index c)
     then ret (- EINVAL, [])
     else
       (gpio <- array_read ARR_GPIOS APBA_NUM_GPIOS (gpios c) (int_index c) ;;
        let irq := gpio_to_irq D gpio in
        c1 <- call (CallRequestIrq irq) ;;
        if negb (devm_request_threaded_irq D irq =? 0)
        then ret (devm_request_threaded_irq D irq, c1)
        else (c2 <- call (CallEnableIrqWake irq) ;; ret (0, c1 ++ c2)))).

End Pins.

(** The pins handed to gpio_unexport, and those for which gpio_export
    returned 0. *)
Definition unexported (calls : list (nat * sys_call)) : list Z :=
  flat_map (fun c => match snd c with CallGpioUnexport g => [g] | _ => [] end)
    calls.

Definition exported (calls : list (nat * sys_call)) : list Z :=
  flat_map (fun c => match snd c with
                     | CallGpioExport g r => if r =? 0 then [g] else []
                     | _ => []
                     end) calls.

(** A node with the three pins of the sample controller, the interrupt on
    the third, and the zeroed controller that probe starts from. *)
Definition demo_gpio_node : gpio_node :=
  {| of_gpio_count := 3;
     of_property_count_strings := 3;
     of_get_gpio_flags := fun i => 10 + i;
     of_property_read_string_index :=
       fun i => (0, if i =? 0 then "reset"%string
                   else if i =? 1 then "boot"%string else "int"%string);
     devm_gpio_request_one := fun _ => 0;
     gpio_export := fun _ => 0;
     gpio_export_link := fun _ => 0;
     of_property_read_u32 := (0, 2);
     gpio_to_irq := fun gpio => 300 + gpio;
     devm_request_threaded_irq := fun _ => 0 |}.

Definition demo_world_probe : world :=
  with_ctrl (set_gpio_cnt 0 (set_gpios (repeat 0 8) demo_ctrl)) demo_world.

Definition demo_labels : list string := repeat EmptyString 8.
(** ** Monad laws used below *)

Lemma exec_bind {A B} (m : M A) (k : A -> M B) (w : world) :
  exec (bind m k) w = exec (k (eval m w)) (exec m w).
Proof. reflexivity. Qed.

Lemma eval_bind {A B} (m : M A) (k : A -> M B) (w : world) :
  eval (bind m k) w = eval (k (eval m w)) (exec m w).
Proof. reflexivity. Qed.

Lemma run_eta {A} (m : M A) (w : world) : m w = (eval m w, exec m w).
Proof. unfold eval, exec. destruct (m w); reflexivity. Qed.

Lemma with_trace_same (w : world) : with_trace (trace w) w = w.
Proof. destruct w; reflexivity. Qed.

Lemma with_trace_twice (t t' : list event) (w : world) :
  with_trace t (with_trace t' w) = with_trace t w.
Proof. reflexivity. Qed.

Lemma exec_emit (e : event) (w : world) :
  exec (emit e) w = with_trace (trace w ++ [e]) w.
Proof. reflexivity. Qed.

Lemma exec_when (c : bool) (m : M unit) (w : world) :
  exec (when c m) w = if c then exec m w else w.
Proof. destruct c; reflexivity. Qed.

Lemma array_read_in (id : array_id) (size : Z) (a : list Z) (i : Z) (w : world) :
  0 <= i < size ->
  array_read id size a i w = (nth (Z.to_nat i) a 0, w).
Proof.
  intros Hi. unfold array_read.
  replace ((0 <=? i) && (i <? size)) with true; [reflexivity|].
  symmetry. apply andb_true_iff. split; [apply Z.leb_le | apply Z.ltb_lt]; lia.
Qed.

(** *** Arithmetic of the C conversions *)

Lemma wrap_u32_id (x : Z) : u32 x -> wrap_u32 x = x.
Proof. unfold u32, wrap_u32. intros. apply Z.mod_small. lia. Qed.

Lemma wrap_ulong_delay (d : Z) : u32 d -> wrap_ulong (d * 1000) = d * 1000.
Proof. unfold u32, wrap_ulong. intros. apply Z.mod_small. lia. Qed.

Lemma wrap_int_small (x : Z) : -2147483648 <= x < 2147483648 -> wrap_int x = x.
Proof.
  intros Hx. unfold wrap_int, wrap_u32.
  destruct (Z_lt_le_dec x 0) as [Hneg|Hpos].
  - assert (x mod 4294967296 = x + 4294967296) as ->
      by (symmetry; apply Z.mod_unique with (q := -1); lia).
    destruct (Z.ltb_spec (x + 4294967296) 2147483648); lia.
  - rewrite Z.mod_small by lia.
    destruct (Z.ltb_spec x 2147483648); lia.
Qed.

(** ** The GPIO sequencer *)

Section Sequencer.

Variable H : headers.

Lemma flatten_triples_app (ts1 ts2 : list triple) :
  flatten_triples (ts1 ++ ts2) = flatten_triples ts1 ++ flatten_triples ts2.
Proof. apply flat_map_app. Qed.

Lemma flatten_triples_length (ts : list triple) :
  length (flatten_triples ts) = (3 * length ts)%nat.
Proof.
  induction ts as [|[[i v] d] ts IH]; [reflexivity|].
  cbn [flatten_triples flat_map app length] in *.
  fold (flatten_triples ts). rewrite IH. lia.
Qed.

Lemma flatten_triples_nth (pre post : list triple) (i v d : Z) (k : nat) :
  (k < 3)%nat ->
  nth (3 * length pre + k) (flatten_triples (pre ++ (i, v, d) :: post)) 0
  = nth k [i; v; d] 0.
Proof.
  intros Hk. rewrite flatten_triples_app.
  rewrite app_nth2 by (rewrite flatten_triples_length; lia).
  rewrite flatten_triples_length.
  replace (3 * length pre + k - 3 * length pre)%nat with k by lia.
  cbn [flatten_triples flat_map app].
  destruct k as [|[|[|k]]]; try reflexivity; lia.
Qed.

Lemma seq_val_read (pre post : list triple) (i v d : Z) (k : nat) (w : world) :
  (k < 3)%nat ->
  (length pre + S (length post) <= 16)%nat ->
  array_read ARR_SEQ_VAL APBA_MAX_SEQ
    (val (seq_of_triples (pre ++ (i, v, d) :: post)))
    (3 * Z.of_nat (length pre) + Z.of_nat k) w
  = (nth k [i; v; d] 0, w).
Proof.
  intros Hk Hlen.
  rewrite array_read_in by (unfold APBA_MAX_SEQ, APBA_NUM_GPIOS; lia).
  replace (Z.to_nat (3 * Z.of_nat (length pre) + Z.of_nat k))
    with (3 * length pre + k)%nat by lia.
  cbn [val seq_of_triples]. rewrite flatten_triples_nth by exact Hk.
  reflexivity.
Qed.

Lemma apba_seq_body_spec (pre post : list triple) (i v d : Z) (w : world) :
  triple_u32 (i, v, d) ->
  (length pre + S (length post) <= 16)%nat ->
  apba_seq_body H (seq_of_triples (pre ++ (i, v, d) :: post))
    (3 * Z.of_nat (length pre)) w
  = (tt, with_trace (trace w ++ run_triple H (ctrl w) (i, v, d)) w).
Proof.
  intros [Hi [Hv Hd]] Hlen.
  pose proof (seq_val_read pre post i v d 0 w) as R0.
  pose proof (seq_val_read pre post i v d 1 w) as R1.
  pose proof (seq_val_read pre post i v d 2 w) as R2.
  change (Z.of_nat 0) with 0 in R0. change (Z.of_nat 1) with 1 in R1.
  change (Z.of_nat 2) with 2 in R2. cbn [nth] in R0, R1, R2.
  rewrite Z.add_0_r in R0.
  unfold apba_seq_body, bind.
  rewrite R0 by lia. cbn [fst snd].
  rewrite R1 by lia. cbn [fst snd].
  rewrite R2 by lia. cbn [fst snd].
  rewrite !wrap_u32_id by assumption.
  rewrite wrap_ulong_delay by assumption.
  unfold run_triple, pin_write, pause.
  destruct (Z.ltb_spec i APBA_NUM_GPIOS) as [Hin|Hout].
  - unfold gets. cbn [fst snd].
    rewrite array_read_in by (unfold u32 in Hi; lia). cbn [fst snd].
    destruct (gpio_is_valid H (nth (Z.to_nat i) (gpios (ctrl w)) 0));
      destruct (d =? 0);
      unfold when, emit, modify, ret, with_trace;
      cbn [negb fst snd trace ctrl g_ctrl apba_log_fifo uart_baud app];
      rewrite ?app_nil_r, <- ?app_assoc; destruct w; reflexivity.
  - destruct (d =? 0);
      unfold when, emit, modify, ret, with_trace;
      cbn [negb fst snd trace ctrl g_ctrl apba_log_fifo uart_baud app];
      rewrite ?app_nil_r; destruct w; reflexivity.
Qed.

Lemma apba_seq_loop_spec (post : list triple) :
  forall (pre : list triple) (fuel : nat) (w : world),
    Forall triple_u32 post ->
    (length pre + length post <= 16)%nat ->
    (length post <= fuel)%nat ->
    apba_seq_loop H fuel (seq_of_triples (pre ++ post))
      (3 * Z.of_nat (length pre)) w
    = (tt, with_trace (trace w ++ runSequence_spec H (ctrl w) post) w).
Proof.
  induction post as [|[[i v] d] post IH]; intros pre fuel w Hu Hlen Hfuel.
  - cbn [runSequence_spec flat_map]. rewrite !app_nil_r, with_trace_same.
    destruct fuel as [|fuel]; [reflexivity|].
    cbn [apba_seq_loop seq_of_triples len].
    rewrite Z.ltb_irrefl. reflexivity.
  - destruct fuel as [|fuel]; [cbn [length] in Hfuel; lia|].
    cbn [length] in Hlen, Hfuel.
    inversion Hu as [|t ts Ht Hts]; subst.
    cbn [apba_seq_loop].
    match goal with
    | |- context [Z.ltb ?a ?b] => destruct (Z.ltb_spec a b) as [Hlt|Hge]
    end.
    2:{ exfalso. cbn [len seq_of_triples] in Hge.
        rewrite length_app in Hge. cbn [length] in Hge. lia. }
    unfold bind at 1.
    rewrite apba_seq_body_spec by (assumption || lia).
    cbn [fst snd].
    pose proof (IH (pre ++ [(i, v, d)]) fuel
                  (with_trace (trace w ++ run_triple H (ctrl w) (i, v, d)) w)
                  Hts) as IH'.
    rewrite <- app_assoc in IH'. cbn [app] in IH'.
    rewrite length_app in IH'. cbn [length] in IH'.
    replace (3 * Z.of_nat (length pre + 1))
      with (3 * Z.of_nat (length pre) + 3) in IH' by lia.
    rewrite IH' by lia.
    cbn [runSequence_spec flat_map].
    fold (runSequence_spec H (ctrl w) post).
    cbn [ctrl with_trace trace]. unfold with_trace. cbn [ctrl g_ctrl apba_log_fifo uart_baud].
    rewrite <- app_assoc. reflexivity.
Qed.

Lemma apba_seq_spec (ts : list triple) (w : world) :
  Forall triple_u32 ts ->
  (length ts <= 16)%nat ->
  apba_seq H (seq_of_triples ts) w
  = (tt, with_trace (trace w ++ runSequence_spec H (ctrl w) ts) w).
Proof.
  intros Hu Hlen. unfold apba_seq.
  apply (apba_seq_loop_spec ts [] _ w); try assumption.
  cbn [len seq_of_triples]. lia.
Qed.

Lemma runSequence_spec_app (c : apba_ctrl) (ts1 ts2 : list triple) :
  runSequence_spec H c (ts1 ++ ts2)
  = runSequence_spec H c ts1 ++ runSequence_spec H c ts2.
Proof. apply flat_map_app. Qed.

Lemma run_triple_in_bounds (c : apba_ctrl) (t : triple) :
  forallb (fun e => negb (is_out_of_bounds e)) (run_triple H c t) = true.
Proof.
  destruct t as [[i v] d]. unfold run_triple, pin_write, pause.
  destruct (i <? APBA_NUM_GPIOS);
    [destruct (gpio_is_valid H _)|]; destruct (d =? 0); reflexivity.
Qed.

Lemma runSequence_spec_in_bounds (c : apba_ctrl) (ts : list triple) :
  forallb (fun e => negb (is_out_of_bounds e)) (runSequence_spec H c ts) = true.
Proof.
  induction ts as [|t ts IH]; [reflexivity|].
  cbn [runSequence_spec flat_map]. rewrite forallb_app.
  rewrite run_triple_in_bounds. exact IH.
Qed.

(** C6: apba_seq visits the triples of a sequence in their original
    order: its effect is the concatenation, in order, of what each
    triple asks for.  A triple whose pin index is not below the size of
    the pin array contributes only its delay, the triples after it are
    still run, and no array is read out of bounds. *)
Theorem apba_seq_visits_in_order (ts : list triple) (w : world) :
  Forall triple_u32 ts ->
  (length ts <= 16)%nat ->
  apba_seq H (seq_of_triples ts) w
  = (tt, with_trace (trace w ++ runSequence_spec H (ctrl w) ts) w)
  /\ forallb (fun e => negb (is_out_of_bounds e))
       (runSequence_spec H (ctrl w) ts) = true
  /\ forall pre post i v d,
       ts = pre ++ (i, v, d) :: post ->
       APBA_NUM_GPIOS <= i ->
       exec (apba_seq H (seq_of_triples ts)) w
       = with_trace
           (trace w ++ runSequence_spec H (ctrl w) pre ++ pause d
            ++ runSequence_spec H (ctrl w) post) w.
Proof.
  intros Hu Hlen. split; [apply apba_seq_spec; assumption|].
  split; [apply runSequence_spec_in_bounds|].
  intros pre post i v d -> Hout.
  unfold exec. rewrite apba_seq_spec by assumption. cbn [snd].
  rewrite runSequence_spec_app. cbn [runSequence_spec flat_map run_triple].
  unfold pin_write.
  replace (i <? APBA_NUM_GPIOS) with false by (symmetry; apply Z.ltb_ge; lia).
  cbn [app]. reflexivity.
Qed.

End Sequencer.

(** ** Frame reasoning: what a computation may add to the trace *)

Section Frames.

Variable P : event -> bool.

Lemma follows_refl (w : world) : follows P w w.
Proof.
  repeat split. exists []. rewrite app_nil_r. split; reflexivity.
Qed.

Lemma follows_trans (w1 w2 w3 : world) :
  follows P w1 w2 -> follows P w2 w3 -> follows P w1 w3.
Proof.
  intros (Hd1 & Hg1 & evs1 & Ht1 & Hp1) (Hd2 & Hg2 & evs2 & Ht2 & Hp2).
  repeat split; try congruence.
  exists (evs1 ++ evs2). split.
  - rewrite Ht2, Ht1, app_assoc. reflexivity.
  - rewrite forallb_app, Hp1, Hp2. reflexivity.
Qed.

Lemma keeps_ret {A} (a : A) : keeps P (ret a).
Proof. intros w. apply follows_refl. Qed.

Lemma keeps_gets {A} (f : world -> A) : keeps P (gets f).
Proof. intros w. apply follows_refl. Qed.

Lemma keeps_bind {A B} (m : M A) (k : A -> M B) :
  keeps P m -> (forall a, keeps P (k a)) -> keeps P (bind m k).
Proof.
  intros Hm Hk w. rewrite exec_bind.
  eapply follows_trans; [apply Hm | apply Hk].
Qed.

Lemma keeps_emit (e : event) : P e = true -> keeps P (emit e).
Proof.
  intros He w. repeat split. exists [e]. split; [reflexivity|].
  cbn. rewrite He. reflexivity.
Qed.

Lemma keeps_when (c : bool) (m : M unit) : keeps P m -> keeps P (when c m).
Proof. intros Hm. destruct c; [exact Hm | apply keeps_ret]. Qed.

Lemma keeps_upd_ctrl (f : apba_ctrl -> apba_ctrl) :
  (forall c, desired_on (f c) = desired_on c) -> keeps P (upd_ctrl f).
Proof.
  intros Hf w. repeat split.
  - apply Hf.
  - exists []. cbn. rewrite app_nil_r. split; reflexivity.
Qed.

Lemma keeps_with_fifo (f : kfifo) : keeps P (modify (with_fifo f)).
Proof.
  intros w. repeat split. exists []. cbn. rewrite app_nil_r.
  split; reflexivity.
Qed.

Lemma keeps_with_baud (b : Z) : keeps P (modify (with_baud b)).
Proof.
  intros w. repeat split. exists []. cbn. rewrite app_nil_r.
  split; reflexivity.
Qed.

Hypothesis P_out_of_bounds : forall a i, P (EvOutOfBounds a i) = true.

Lemma keeps_array_read (id : array_id) (size : Z) (a : list Z) (i : Z) :
  keeps P (array_read id size a i).
Proof.
  unfold array_read. destruct ((0 <=? i) && (i <? size)).
  - apply keeps_ret.
  - apply keeps_bind; [apply keeps_emit, P_out_of_bounds|].
    intros _. apply keeps_ret.
Qed.

Lemma keeps_touch (id : array_id) (l off n : Z) : keeps P (touch id l off n).
Proof. apply keeps_when, keeps_emit, P_out_of_bounds. Qed.

End Frames.

Lemma fold_left_unchanged {A B} (f : A -> B -> A) (Q : B -> bool) (l : list B) :
  (forall a b, Q b = true -> f a b = a) ->
  forallb Q l = true -> forall a, fold_left f l a = a.
Proof.
  intros Hf. induction l as [|b l IH]; intros Hl a; [reflexivity|].
  cbn in Hl. apply andb_true_iff in Hl. destruct Hl as [Hb Hl].
  cbn. rewrite Hf by exact Hb. apply IH, Hl.
Qed.

Lemma power_state_follows (w w' : world) :
  follows (fun e => negb (is_bus_vote e)) w w' ->
  power_state w' = power_state w.
Proof.
  intros (_ & _ & evs & Ht & Hp). unfold power_state, power_of.
  rewrite Ht, fold_left_app.
  apply (fold_left_unchanged _ (fun e => negb (is_bus_vote e))); [|exact Hp].
  intros a [] Hb; try reflexivity; discriminate.
Qed.

Lemma flash_mode_follows (w w' : world) :
  follows (fun e => negb (is_spi_flash_reg e)) w w' ->
  flash_mode w' = flash_mode w.
Proof.
  intros (_ & _ & evs & Ht & Hp). unfold flash_mode, flash_mode_of.
  rewrite Ht, fold_left_app.
  apply (fold_left_unchanged _ (fun e => negb (is_spi_flash_reg e))); [|exact Hp].
  intros a [] Hb; try reflexivity; discriminate.
Qed.

Lemma power_state_emit (on : bool) (w : world) :
  power_state (exec (emit (EvBusVote on)) w) = Some on.
Proof.
  unfold power_state, power_of. rewrite exec_emit. cbn [trace with_trace].
  rewrite fold_left_app. reflexivity.
Qed.

Lemma flash_mode_emit_dereg (w : world) :
  flash_mode (exec (emit EvDeregisterSpiFlash) w) = Some false.
Proof.
  unfold flash_mode, flash_mode_of. rewrite exec_emit. cbn [trace with_trace].
  rewrite fold_left_app. reflexivity.
Qed.

(** Decomposes a [keeps] goal along the structure of the computation. *)
Ltac keeps_step :=
  match goal with
  | |- keeps _ (ret _) => apply keeps_ret
  | |- keeps _ (gets _) => apply keeps_gets
  | |- keeps _ (emit _) => apply keeps_emit; reflexivity
  | |- keeps _ (bind _ _) => apply keeps_bind; [|intros ?]
  | |- keeps _ (when _ _) => apply keeps_when
  | |- keeps _ (upd_ctrl _) => apply keeps_upd_ctrl; intros ?; reflexivity
  | |- keeps _ (modify (with_fifo _)) => apply keeps_with_fifo
  | |- keeps _ (modify (with_baud _)) => apply keeps_with_baud
  | |- keeps _ (array_read _ _ _ _) =>
      apply keeps_array_read; intros ? ?; reflexivity
  | |- keeps _ (touch _ _ _ _) => apply keeps_touch; intros ? ?; reflexivity
  | |- keeps _ (if ?c then _ else _) => destruct c
  | |- keeps _ (match ?x with Some _ => _ | None => _ end) => destruct x
  end.

Ltac keeps_auto := repeat keeps_step.

(** ** Power and flash mode around the partition operations *)

Section PartitionOps.

Variable H : headers.
Variable E : env.

Section AnyEvents.

Variable P : event -> bool.
Hypothesis P_out_of_bounds : forall a i, P (EvOutOfBounds a i) = true.
Hypothesis P_gpio_set : forall g v, P (EvGpioSet g v) = true.
Hypothesis P_usleep : forall us, P (EvUsleep us) = true.

Lemma keeps_apba_seq_body (s : apba_seq_t) (i : Z) :
  keeps P (apba_seq_body H s i).
Proof.
  unfold apba_seq_body.
  repeat (apply keeps_bind; [|intros ?]);
    try (apply keeps_array_read; assumption);
    try apply keeps_gets.
  - destruct (wrap_u32 _ <? APBA_NUM_GPIOS); [|apply keeps_ret].
    repeat (apply keeps_bind; [|intros ?]);
      try (apply keeps_array_read; assumption);
      try apply keeps_gets.
    apply keeps_when, keeps_emit, P_gpio_set.
  - apply keeps_when, keeps_emit, P_usleep.
Qed.

Lemma keeps_apba_seq_loop (fuel : nat) (s : apba_seq_t) :
  forall i, keeps P (apba_seq_loop H fuel s i).
Proof.
  induction fuel as [|fuel IH]; intros i; cbn [apba_seq_loop].
  - apply keeps_ret.
  - destruct (i <? len s); [|apply keeps_ret].
    apply keeps_bind; [apply keeps_apba_seq_body|].
    intros _. apply IH.
Qed.

Lemma keeps_apba_seq (s : apba_seq_t) : keeps P (apba_seq H s).
Proof. apply keeps_apba_seq_loop. Qed.

Hypothesis P_get_mtd : forall n, P (EvGetMtdDevice n) = true.
Hypothesis P_put_mtd : forall n, P (EvPutMtdDevice n) = true.

Lemma keeps_apba_init_mtd_module_from (n : nat) (name : string) :
  forall num, keeps P (apba_init_mtd_module_from E n num name).
Proof.
  induction n as [|n IH]; intros num; cbn [apba_init_mtd_module_from].
  - apply keeps_ret.
  - apply keeps_bind; [apply keeps_emit, P_get_mtd|]. intros _.
    destruct (get_mtd_device E num) as [m|]; [|apply IH].
    destruct (mtd_type m =? MTD_ABSENT);
      [|destruct (negb (String.eqb (mtd_name m) name))];
      try (apply keeps_bind; [apply keeps_emit, P_put_mtd|]; intros _; apply IH).
    apply keeps_ret.
Qed.

Lemma keeps_apba_init_mtd_module (name : string) :
  keeps P (apba_init_mtd_module E name).
Proof. apply keeps_apba_init_mtd_module_from. Qed.

End AnyEvents.

Ltac keeps_driver :=
  repeat first
    [ keeps_step
    | apply keeps_apba_seq; intros; reflexivity
    | apply keeps_apba_init_mtd_module; intros; reflexivity ].

Lemma apba_flash_on_no_bus_vote (on : bool) :
  keeps no_bus_vote (apba_flash_on H E on).
Proof. unfold apba_flash_on, populate_transports_node. keeps_driver. Qed.

Lemma apba_flash_on_no_erase (on : bool) :
  keeps no_erase_or_write (apba_flash_on H E on).
Proof. unfold apba_flash_on, populate_transports_node. keeps_driver. Qed.

Lemma apba_on_no_spi_flash_reg (on : bool) :
  keeps no_spi_flash_reg (apba_on H on).
Proof. unfold apba_on. keeps_driver. Qed.

Lemma apba_on_no_erase (on : bool) :
  keeps no_erase_or_write (apba_on H on).
Proof. unfold apba_on. keeps_driver. Qed.

Lemma apba_compare_partition_no_bus_vote (m : mtd_info) (fw : cbuf) :
  keeps no_bus_vote (apba_compare_partition E m fw).
Proof. unfold apba_compare_partition. keeps_driver. Qed.

Lemma apba_compare_partition_no_erase (m : mtd_info) (fw : cbuf) :
  keeps no_erase_or_write (apba_compare_partition E m fw).
Proof. unfold apba_compare_partition. keeps_driver. Qed.

Lemma power_state_after_vote (on : bool) (k : unit -> M unit) (w : world) :
  keeps no_bus_vote (k tt) ->
  power_state (exec (bind (emit (EvBusVote on)) k) w) = Some on
  /\ desired_on (ctrl (exec (bind (emit (EvBusVote on)) k) w))
     = desired_on (ctrl w).
Proof.
  intros Hk. rewrite exec_bind.
  change (eval (emit (EvBusVote on)) w) with tt.
  pose proof (Hk (exec (emit (EvBusVote on)) w)) as Hf.
  split.
  - rewrite (power_state_follows _ _ Hf). apply power_state_emit.
  - destruct Hf as (Hd & _). rewrite Hd. reflexivity.
Qed.

(** apba_on casts its bus vote and nothing after it changes the vote. *)
Lemma apba_on_power_state (on : bool) (w : world) :
  power_state (exec (apba_on H on) w) = Some on
  /\ desired_on (ctrl (exec (apba_on H on) w)) = desired_on (ctrl w).
Proof.
  unfold apba_on. apply power_state_after_vote. keeps_driver.
Qed.

Lemma flash_mode_after_flash_off (w : world) :
  flash_mode (exec (apba_flash_on H E false) w) = Some false.
Proof.
  unfold apba_flash_on. rewrite !exec_bind.
  match goal with
  | |- flash_mode (exec (emit (EvPinctrlSelect PINS_DEFAULT)) ?w2) = _ =>
      rewrite (flash_mode_follows w2
                 (exec (emit (EvPinctrlSelect PINS_DEFAULT)) w2))
  end.
  - apply flash_mode_emit_dereg.
  - apply (keeps_emit no_spi_flash_reg). reflexivity.
Qed.

Lemma exec_no_mtd (err : Z) (mid : world) :
  exec (no_mtd H E err) mid
  = exec (when (negb (desired_on (ctrl mid) =? 0)) (apba_on H true))
      (exec (apba_flash_on H E false) mid)
  /\ eval (no_mtd H E err) mid = err.
Proof.
  pose proof (apba_flash_on_no_bus_vote false mid) as (Hd & _).
  unfold no_mtd. rewrite !exec_bind, !eval_bind.
  change (eval (gets ctrl) (exec (apba_flash_on H E false) mid))
    with (ctrl (exec (apba_flash_on H E false) mid)).
  rewrite Hd. split; reflexivity.
Qed.

(** From a state in which the controller is off, the code at [no_mtd]
    leaves flash mode and powers the controller as desired. *)
Lemma no_mtd_restores (err : Z) (mid : world) :
  power_state mid = Some false ->
  let w' := exec (no_mtd H E err) mid in
  power_state w' = Some (negb (desired_on (ctrl mid) =? 0))
  /\ flash_mode w' = Some false
  /\ desired_on (ctrl w') = desired_on (ctrl mid).
Proof.
  intros Hoff w'. subst w'.
  destruct (exec_no_mtd err mid) as [-> _].
  pose proof (apba_flash_on_no_bus_vote false mid) as Hfb.
  pose proof (flash_mode_after_flash_off mid) as Hfm.
  set (w1 := exec (apba_flash_on H E false) mid) in *.
  destruct (desired_on (ctrl mid) =? 0); cbn [negb when].
  - change (exec (ret tt) w1) with w1.
    rewrite (power_state_follows _ _ Hfb).
    destruct Hfb as (Hd & _). auto.
  - destruct (apba_on_power_state true w1) as [Hp Hd].
    rewrite Hp, Hd.
    rewrite (flash_mode_follows _ _ (apba_on_no_spi_flash_reg true w1)).
    destruct Hfb as (Hd' & _). auto.
Qed.

Lemma ends_in_no_mtd_here (P : event -> bool) (err : Z) :
  ends_in_no_mtd H E P (no_mtd H E err).
Proof. intros w. exists w, err. split; [reflexivity | apply follows_refl]. Qed.

Lemma ends_in_no_mtd_bind {A} (P : event -> bool) (m : M A) (k : A -> M Z) :
  keeps P m ->
  (forall a, ends_in_no_mtd H E P (k a)) ->
  ends_in_no_mtd H E P (bind m k).
Proof.
  intros Hm Hk w.
  destruct (Hk (eval m w) (exec m w)) as (mid & err & Heq & Hf).
  exists mid, err. split; [exact Heq|].
  eapply follows_trans; [apply Hm | exact Hf].
Qed.

Lemma ends_in_no_mtd_cleanup (P : event -> bool) (m : mtd_info) (err : Z) :
  (forall n, P (EvPutMtdDevice n) = true) ->
  ends_in_no_mtd H E P (cleanup H E m err).
Proof.
  intros HP. unfold cleanup. apply ends_in_no_mtd_bind.
  - apply keeps_emit, HP.
  - intros _. apply ends_in_no_mtd_here.
Qed.

Lemma apba_mtd_erase_no_bus_vote (m : mtd_info) (start length : Z) :
  keeps no_bus_vote (apba_mtd_erase m start length).
Proof. unfold apba_mtd_erase. keeps_driver. Qed.

(** Everything the two operations do after switching the controller
    off leads to [no_mtd] without another bus vote. *)
Lemma erase_tail_ends_in_no_mtd (partition : string) :
  ends_in_no_mtd H E no_bus_vote
    (apba_flash_on H E true ;;
     mi <- apba_init_mtd_module E partition ;;
     match mi with
     | None => no_mtd H E (- ENODEV)
     | Some m =>
         err <- apba_mtd_erase m 0 (mtd_size m) ;;
         cleanup H E m err
     end).
Proof.
  apply ends_in_no_mtd_bind; [apply apba_flash_on_no_bus_vote|]. intros _.
  apply ends_in_no_mtd_bind; [keeps_driver|]. intros [m|].
  - apply ends_in_no_mtd_bind; [apply apba_mtd_erase_no_bus_vote|].
    intros err. apply ends_in_no_mtd_cleanup. reflexivity.
  - apply ends_in_no_mtd_here.
Qed.

Lemma flash_tail_ends_in_no_mtd (partition : string) (fw : cbuf) :
  ends_in_no_mtd H E no_bus_vote
    (apba_flash_on H E true ;;
     mi <- apba_init_mtd_module E partition ;;
     match mi with
     | None => no_mtd H E (- ENODEV)
     | Some m =>
         compare_result <- apba_compare_partition E m fw ;;
         if compare_result =? 0 then cleanup H E m 0
         else
           (err <- apba_mtd_erase m 0 (mtd_size m) ;;
            if err <? 0 then cleanup H E m err
            else
              (emit (EvMtdWrite (mtd_name m) 0 (cb_len fw) (cb_bytes fw)) ;;
               cleanup H E m (_write m 0 (cb_len fw) (cb_bytes fw))))
     end).
Proof.
  apply ends_in_no_mtd_bind; [apply apba_flash_on_no_bus_vote|]. intros _.
  apply ends_in_no_mtd_bind; [keeps_driver|]. intros [m|].
  - apply ends_in_no_mtd_bind; [apply apba_compare_partition_no_bus_vote|].
    intros r. destruct (r =? 0).
    + apply ends_in_no_mtd_cleanup. reflexivity.
    + apply ends_in_no_mtd_bind; [apply apba_mtd_erase_no_bus_vote|].
      intros err. destruct (err <? 0).
      * apply ends_in_no_mtd_cleanup. reflexivity.
      * apply ends_in_no_mtd_bind; [keeps_driver|]. intros _.
        apply ends_in_no_mtd_cleanup. reflexivity.
  - apply ends_in_no_mtd_here.
Qed.

Lemma bracketed_restores_power (body : M Z) (w : world) :
  ends_in_no_mtd H E no_bus_vote body ->
  power_restored H E w (exec (apba_on H false ;; body) w).
Proof.
  intros Hbody. rewrite exec_bind.
  destruct (apba_on_power_state false w) as [Hoff Hd0].
  set (w0 := exec (apba_on H false) w) in *.
  destruct (Hbody w0) as (mid & err & Heq & Hf).
  unfold exec at 1. rewrite Heq. fold (exec (no_mtd H E err) mid).
  assert (Hmid : power_state mid = Some false)
    by (rewrite (power_state_follows _ _ Hf); exact Hoff).
  assert (Hdm : desired_on (ctrl mid) = desired_on (ctrl w))
    by (destruct Hf as (Hd & _); congruence).
  destruct (no_mtd_restores err mid Hmid) as (Hp & Hfm & Hd).
  unfold power_restored. rewrite <- Hdm.
  repeat split; try assumption.
  exists mid. split; [reflexivity|]. apply exec_no_mtd.
Qed.

(** C1: flashPartition and erasePartition, whatever happens inside
    (partition not found, compare outcome, erase or write failure,
    success), finish by leaving flash mode and then switching the
    controller on exactly when its desired-on flag is set; the power
    state afterwards is the desired-on intent from before the call. *)
Theorem partition_ops_restore_power (w : world) (partition : string) (fw : cbuf) :
  power_restored H E w
    (exec (apba_flash_partition H E true partition (Some fw)) w)
  /\ power_restored H E w
       (exec (apba_erase_partition H E true partition) w).
Proof.
  split.
  - apply (bracketed_restores_power _ w (flash_tail_ends_in_no_mtd partition fw)).
  - apply (bracketed_restores_power _ w (erase_tail_ends_in_no_mtd partition)).
Qed.

End PartitionOps.

(** ** The compare step and the skip path *)

Lemma memcmp_from_equal (cs ct : nat -> Z) (count : nat) :
  forall i,
    (forall j, (i <= j < i + count)%nat -> cs j = ct j) ->
    memcmp_from cs ct i count = (0, (i + count)%nat).
Proof.
  induction count as [|count IH]; intros i Heq; cbn [memcmp_from].
  - rewrite Nat.add_0_r. reflexivity.
  - rewrite (Heq i) by lia. rewrite Z.sub_diag. cbn [Z.eqb].
    rewrite IH by (intros j Hj; apply Heq; lia).
    f_equal. lia.
Qed.

Lemma memcmp_from_zero (cs ct : nat -> Z) (count : nat) :
  forall i,
    fst (memcmp_from cs ct i count) = 0 ->
    forall j, (i <= j < i + count)%nat -> cs j = ct j.
Proof.
  induction count as [|count IH]; intros i Hz j Hj; [lia|].
  cbn [memcmp_from] in Hz.
  destruct (Z.eqb_spec (cs i - ct i) 0) as [Hi|Hi].
  - destruct (Nat.eq_dec j i) as [->|Hne]; [lia|].
    apply (IH (S i) Hz). lia.
  - cbn [fst] in Hz. contradiction.
Qed.

Lemma memcmp_from_examined (cs ct : nat -> Z) (count : nat) :
  forall i, (snd (memcmp_from cs ct i count) <= i + count)%nat.
Proof.
  induction count as [|count IH]; intros i; cbn [memcmp_from].
  - cbn [snd]. lia.
  - destruct (cs i - ct i =? 0); [specialize (IH (S i)) | cbn [snd]]; lia.
Qed.

Lemma cb_read_in (b : cbuf) (i : nat) :
  (i < length (cb_bytes b))%nat -> cb_read b i = nth i (cb_bytes b) 0.
Proof.
  intros Hi. unfold cb_read.
  destruct (nth_error (cb_bytes b) i) as [x|] eqn:Hn.
  - symmetry. apply nth_error_nth. exact Hn.
  - apply nth_error_None in Hn. lia.
Qed.

Lemma nth_firstn_lt {A} (l : list A) (n i : nat) (d : A) :
  (i < n)%nat -> nth i (firstn n l) d = nth i l d.
Proof.
  revert n i. induction l as [|x l IH]; intros n i Hi.
  - rewrite firstn_nil. reflexivity.
  - destruct n as [|n]; [lia|]. destruct i as [|i]; [reflexivity|].
    cbn [firstn nth]. apply IH. lia.
Qed.

Section Compare.

Variable H : headers.
Variable E : env.

Lemma eval_no_mtd (err : Z) (w : world) : eval (no_mtd H E err) w = err.
Proof. reflexivity. Qed.

Lemma eval_cleanup (m : mtd_info) (err : Z) (w : world) :
  eval (cleanup H E m err) w = err.
Proof. reflexivity. Qed.

Lemma cleanup_no_erase (m : mtd_info) (err : Z) :
  keeps no_erase_or_write (cleanup H E m err).
Proof.
  unfold cleanup, no_mtd. repeat keeps_step.
  - apply apba_flash_on_no_erase.
  - apply apba_on_no_erase.
Qed.

(** apba_compare_partition once the page was read in full: memcmp over
    PAGE_SIZE positions, where positions past the end of the image are
    whatever lies behind it in memory. *)
Lemma apba_compare_partition_run (m : mtd_info) (fw : cbuf) (w : world) :
  kmalloc_page E = true ->
  0 <= rd_err (_read m 0 PAGE_SIZE) ->
  PAGE_SIZE <= Z.of_nat (length (rd_data (_read m 0 PAGE_SIZE))) ->
  let cmp := memcmp (fun i => nth i (rd_data (_read m 0 PAGE_SIZE)) 0)
               (cb_read fw) PAGE_SIZE in
  apba_compare_partition E m fw w
  = (fst cmp,
     exec (touch BUF_FW_DATA (cb_len fw) 0 (Z.of_nat (snd cmp)))
       (exec (emit (EvMtdRead (mtd_name m) 0 PAGE_SIZE)) w)).
Proof.
  intros Hk Herr Hlen cmp. subst cmp. unfold apba_compare_partition.
  rewrite Hk. cbn [negb]. rewrite run_eta, eval_bind, exec_bind. cbv beta zeta.
  replace (rd_err (_read m 0 PAGE_SIZE) <? 0) with false
    by (symmetry; apply Z.ltb_ge; lia).
  replace (Z.of_nat (length (rd_data (_read m 0 PAGE_SIZE))) <? PAGE_SIZE)
    with false by (symmetry; apply Z.ltb_ge; lia).
  rewrite eval_bind, exec_bind. cbv beta.
  unfold eval at 1, ret. cbn [fst]. unfold exec at 1. cbn [snd].
  unfold memcmp.
  generalize (rd_data (_read m 0 PAGE_SIZE)). intros data.
  assert (Hgen : forall count i,
             (i + count <= Z.to_nat PAGE_SIZE)%nat ->
             memcmp_from (fun i => nth i (firstn (Z.to_nat PAGE_SIZE) data) 0)
               (cb_read fw) i count
             = memcmp_from (fun i => nth i data 0) (cb_read fw) i count).
  { induction count as [|count IH]; intros i Hi; [reflexivity|].
    cbn [memcmp_from]. rewrite nth_firstn_lt by lia.
    rewrite IH by lia. reflexivity. }
  rewrite Hgen by lia. reflexivity.
Qed.

Lemma apba_compare_partition_full_read (m : mtd_info) (fw : cbuf) (w : world) :
  kmalloc_page E = true ->
  0 <= rd_err (_read m 0 PAGE_SIZE) ->
  PAGE_SIZE <= Z.of_nat (length (rd_data (_read m 0 PAGE_SIZE))) ->
  eval (apba_compare_partition E m fw) w
  = fst (memcmp (fun i => nth i (rd_data (_read m 0 PAGE_SIZE)) 0)
           (cb_read fw) PAGE_SIZE).
Proof.
  intros Hk Herr Hlen. unfold eval.
  rewrite apba_compare_partition_run by assumption. reflexivity.
Qed.

Lemma apba_compare_partition_match (m : mtd_info) (fw : cbuf) (w : world) :
  kmalloc_page E = true ->
  0 <= rd_err (_read m 0 PAGE_SIZE) ->
  PAGE_SIZE <= Z.of_nat (length (rd_data (_read m 0 PAGE_SIZE))) ->
  firstn (Z.to_nat PAGE_SIZE) (rd_data (_read m 0 PAGE_SIZE))
  = firstn (Z.to_nat PAGE_SIZE) (cb_bytes fw) ->
  eval (apba_compare_partition E m fw) w = 0.
Proof.
  intros Hk Herr Hlen Hsame.
  rewrite apba_compare_partition_full_read by assumption.
  unfold memcmp. rewrite memcmp_from_equal; [reflexivity|].
  intros j Hj. cbn [Nat.add] in Hj.
  assert (Hfw : (Z.to_nat PAGE_SIZE <= length (cb_bytes fw))%nat).
  { apply (f_equal (@length Z)) in Hsame.
    rewrite !length_firstn in Hsame. lia. }
  rewrite cb_read_in by lia.
  rewrite <- (nth_firstn_lt (rd_data _) (Z.to_nat PAGE_SIZE)) by lia.
  rewrite <- (nth_firstn_lt (cb_bytes fw) (Z.to_nat PAGE_SIZE)) by lia.
  rewrite Hsame. reflexivity.
Qed.

(** C2: when the partition resolves, the page buffer is allocated, the
    first 4096 bytes of the partition are read in full and equal the
    first 4096 bytes of the image, apba_flash_partition returns 0 and
    makes no erase call and no write call. *)
Theorem flash_skipped_when_first_page_matches
  (w : world) (partition : string) (fw : cbuf) (m : mtd_info) :
  (forall w0, eval (apba_init_mtd_module E partition) w0 = Some m) ->
  kmalloc_page E = true ->
  0 <= rd_err (_read m 0 PAGE_SIZE) ->
  PAGE_SIZE <= Z.of_nat (length (rd_data (_read m 0 PAGE_SIZE))) ->
  firstn (Z.to_nat PAGE_SIZE) (rd_data (_read m 0 PAGE_SIZE))
  = firstn (Z.to_nat PAGE_SIZE) (cb_bytes fw) ->
  eval (apba_flash_partition H E true partition (Some fw)) w = 0
  /\ exists evs,
       trace (exec (apba_flash_partition H E true partition (Some fw)) w)
       = trace w ++ evs
       /\ forallb no_erase_or_write evs = true.
Proof.
  intros Hres Hk Herr Hlen Hsame.
  unfold apba_flash_partition. cbn [negb].
  rewrite !eval_bind, !exec_bind. cbv beta.
  set (w1 := exec (apba_on H false) w).
  set (w2 := exec (apba_flash_on H E true) w1).
  rewrite (Hres w2).
  rewrite !eval_bind, !exec_bind. cbv beta.
  set (w3 := exec (apba_init_mtd_module E partition) w2).
  rewrite (apba_compare_partition_match m fw w3) by assumption.
  cbn [Z.eqb]. set (w4 := exec (apba_compare_partition E m fw) w3).
  split; [apply eval_cleanup|].
  assert (Hf : follows no_erase_or_write w (exec (cleanup H E m 0) w4)).
  { apply follows_trans with w1; [apply apba_on_no_erase|].
    apply follows_trans with w2; [apply apba_flash_on_no_erase|].
    apply follows_trans with w3;
      [apply keeps_apba_init_mtd_module; intros; reflexivity|].
    apply follows_trans with w4; [apply apba_compare_partition_no_erase|].
    apply cleanup_no_erase. }
  destruct Hf as (_ & _ & evs & Ht & Hp). exists evs. split; assumption.
Qed.

End Compare.

Lemma memcmp_from_zero_examined (cs ct : nat -> Z) (count : nat) :
  forall i,
    fst (memcmp_from cs ct i count) = 0 ->
    snd (memcmp_from cs ct i count) = (i + count)%nat.
Proof.
  induction count as [|count IH]; intros i Hz; cbn [memcmp_from] in *.
  - cbn [snd]. lia.
  - destruct (Z.eqb_spec (cs i - ct i) 0) as [Hi|Hi].
    + rewrite IH by exact Hz. lia.
    + cbn [fst] in Hz. contradiction.
Qed.

(** C10: the compare step always runs memcmp over PAGE_SIZE (4096)
    positions of the image, whatever the image's size: it reports "equal"
    exactly when all 4096 positions agree with the partition page, a
    position past the end of the image being read from the memory behind
    it.  For an image shorter than a page an "equal" verdict therefore
    comes with an out-of-bounds read, and two 3-byte images with the same
    bytes are flashed or skipped depending on the memory behind them. *)
Theorem compare_reads_a_full_page_of_any_image :
  (forall (E : env) (m : mtd_info) (fw : cbuf) (w : world),
      kmalloc_page E = true ->
      0 <= rd_err (_read m 0 PAGE_SIZE) ->
      PAGE_SIZE <= Z.of_nat (length (rd_data (_read m 0 PAGE_SIZE))) ->
      (eval (apba_compare_partition E m fw) w = 0 <->
       forall i, (i < Z.to_nat PAGE_SIZE)%nat ->
                 nth i (rd_data (_read m 0 PAGE_SIZE)) 0 = cb_read fw i)
      /\ (eval (apba_compare_partition E m fw) w = 0 ->
          cb_len fw < PAGE_SIZE ->
          In (EvOutOfBounds BUF_FW_DATA (cb_len fw))
            (trace (exec (apba_compare_partition E m fw) w))))
  /\ (cb_bytes demo_fw_short = cb_bytes demo_fw_short'
      /\ cb_len demo_fw_short < PAGE_SIZE
      /\ existsb is_erase_or_write
           (trace (exec (apba_flash_partition demo_headers demo_env true "apba"
                           (Some demo_fw_short)) demo_world)) = false
      /\ existsb is_erase_or_write
           (trace (exec (apba_flash_partition demo_headers demo_env true "apba"
                           (Some demo_fw_short')) demo_world)) = true
      /\ In (EvOutOfBounds BUF_FW_DATA 3)
           (trace (exec (apba_flash_partition demo_headers demo_env true "apba"
                           (Some demo_fw_short)) demo_world))).
Proof.
  split.
  - intros E m fw w Hk Herr Hlen. split; [split|].
    + intros Hz i Hi.
      rewrite apba_compare_partition_full_read in Hz by assumption.
      apply (memcmp_from_zero _ _ _ 0%nat Hz). lia.
    + intros Hall.
      rewrite apba_compare_partition_full_read by assumption.
      unfold memcmp. rewrite memcmp_from_equal; [reflexivity|].
      intros j Hj. apply Hall. lia.
    + intros Hz Hshort.
      pose proof (apba_compare_partition_run E m fw w Hk Herr Hlen) as Hrun.
      cbv zeta in Hrun. unfold eval in Hz. unfold exec.
      rewrite Hrun in *. cbn [fst snd] in *.
      unfold memcmp in *.
      rewrite (memcmp_from_zero_examined _ _ _ _ Hz).
      unfold touch.
      replace ((0 <? Z.of_nat (0 + Z.to_nat PAGE_SIZE))
               && (cb_len fw <? 0 + Z.of_nat (0 + Z.to_nat PAGE_SIZE)))
        with true.
      2:{ symmetry. apply andb_true_iff.
          split; apply Z.ltb_lt; unfold PAGE_SIZE in *; lia. }
      rewrite exec_when, exec_emit. cbn [trace with_trace].
      apply in_or_app. right.
      replace (Z.max 0 (cb_len fw)) with (cb_len fw)
        by (unfold cb_len; lia).
      left. reflexivity.
  - split; [reflexivity|]. split; [reflexivity|].
    split; [vm_compute; reflexivity|]. split; [vm_compute; reflexivity|].
    vm_compute. tauto.
Qed.

(** ** Inbound messages and the interrupt dispatcher *)

Lemma handled_types_distinct (H : headers) :
  NoDup (handled_types H) ->
  (APBA_CTRL_LOG_IND H =? APBA_CTRL_INT_REASON H) = false
  /\ (APBA_CTRL_LOG_IND H =? APBA_CTRL_PM_WAKE_ACK H) = false
  /\ (APBA_CTRL_LOG_IND H =? APBA_CTRL_PM_SLEEP_ACK H) = false
  /\ (APBA_CTRL_LOG_IND H =? APBA_CTRL_PM_SLEEP_IND H) = false
  /\ (APBA_CTRL_BAUD_ACK H =? APBA_CTRL_INT_REASON H) = false
  /\ (APBA_CTRL_BAUD_ACK H =? APBA_CTRL_PM_WAKE_ACK H) = false
  /\ (APBA_CTRL_BAUD_ACK H =? APBA_CTRL_PM_SLEEP_ACK H) = false
  /\ (APBA_CTRL_BAUD_ACK H =? APBA_CTRL_PM_SLEEP_IND H) = false
  /\ (APBA_CTRL_BAUD_ACK H =? APBA_CTRL_LOG_IND H) = false
  /\ (APBA_CTRL_BAUD_ACK H =? APBA_CTRL_LOG_REQUEST H) = false.
Proof.
  unfold handled_types. intros Hnd.
  repeat match goal with
         | Hn : NoDup (_ :: _) |- _ =>
             let Hin := fresh "Hin" in
             let Hrest := fresh "Hrest" in
             apply NoDup_cons_iff in Hn; destruct Hn as [Hin Hrest];
             cbn [In] in Hin
         end.
  repeat split; apply Z.eqb_neq; intros Heq; rewrite ?Heq in *; tauto.
Qed.

Section Messages.

Variable H : headers.
Variable E : env.

(** C8: with a master interface registered, reason APBE_RESET makes the
    dispatcher power the companion chip off, sleep 250 ms and power it on
    again, in this order and nothing else; a reason outside the known
    codes triggers no power action and no attach notification. *)
Theorem int_reason_reset_and_unknown (w : world) :
  g_ctrl w = true ->
  master_intf (ctrl w) <> 0 ->
  apba_action_on_int_reason H E APBA_INT_APBE_RESET w
  = (tt,
     with_trace
       (trace w ++
        [EvSlaveCtrlPower (master_intf (ctrl w)) (MB_CONTROL_SLAVE_POWER_OFF H)
           (MB_CONTROL_SLAVE_MASK_APBE H);
         EvMsleep 250;
         EvSlaveCtrlPower (master_intf (ctrl w)) (MB_CONTROL_SLAVE_POWER_ON H)
           (MB_CONTROL_SLAVE_MASK_APBE H)]) w)
  /\ forall reason,
       reason <> APBA_INT_APBE_ON ->
       reason <> APBA_INT_APBE_RESET ->
       reason <> APBA_INT_APBE_CONNECTED ->
       reason <> APBA_INT_APBE_DISCONNECTED ->
       apba_action_on_int_reason H E reason w = (tt, w).
Proof.
  intros Hg Hm.
  assert (Hmi : (master_intf (ctrl w) =? 0) = false) by (apply Z.eqb_neq; exact Hm).
  split.
  - unfold apba_action_on_int_reason, bind, gets. cbn [fst snd].
    rewrite Hg, Hmi. cbn [negb orb].
    cbn [APBA_INT_APBE_RESET APBA_INT_APBE_ON Z.eqb Pos.eqb].
    unfold emit, modify, with_trace.
    cbn [fst snd trace ctrl g_ctrl apba_log_fifo uart_baud].
    rewrite <- !app_assoc. reflexivity.
  - intros reason H1 H2 H3 H4.
    unfold apba_action_on_int_reason, bind, gets. cbn [fst snd].
    rewrite Hg, Hmi. cbn [negb orb].
    apply Z.eqb_neq in H1, H2, H3, H4. rewrite H1, H2, H3, H4.
    reflexivity.
Qed.

(** C7: a buffer shorter than the 4-byte header, and a message whose
    type is none of the case labels, are dropped without any effect: the
    log fifo, the three completions and the trace of power and attach
    actions are exactly as before. *)
Theorem short_or_unknown_message_discarded (payload : cbuf) (w : world) :
  cb_len payload < sizeof_hdr
  \/ (sizeof_hdr <= cb_len payload
      /\ ~ In (hdr_type payload) (handled_types H)) ->
  apba_handle_message H E payload w = (tt, w).
Proof.
  intros Hcase. unfold apba_handle_message, bind, gets. cbn [fst snd].
  destruct (g_ctrl w); cbn [negb]; [|reflexivity].
  destruct Hcase as [Hshort | [Hlen Hunk]].
  - replace (cb_len payload <? sizeof_hdr) with true
      by (symmetry; apply Z.ltb_lt; exact Hshort).
    reflexivity.
  - replace (cb_len payload <? sizeof_hdr) with false
      by (symmetry; apply Z.ltb_ge; exact Hlen).
    unfold handled_types in Hunk. cbn [In] in Hunk.
    repeat match goal with
           | |- context [hdr_type payload =? ?c] =>
               replace (hdr_type payload =? c) with false
                 by (symmetry; apply Z.eqb_neq; intros Heq; apply Hunk;
                     rewrite Heq; tauto)
           end.
    reflexivity.
Qed.

End Messages.

(** ** The log fifo *)

Lemma MIN_is_min (a b : Z) : MIN a b = Z.min a b.
Proof. unfold MIN. destruct (Z.ltb_spec a b); lia. Qed.

Lemma skipn_nth_cons (l : list Z) :
  forall off, (off < length l)%nat ->
              skipn off l = nth off l 0 :: skipn (S off) l.
Proof.
  induction l as [|x l IH]; intros off Hoff; cbn [length] in Hoff; [lia|].
  destruct off as [|off]; [reflexivity|].
  cbn [skipn nth]. rewrite IH by lia. reflexivity.
Qed.

Lemma cb_slice_in (b : cbuf) (n : nat) :
  forall off, (off + n <= length (cb_bytes b))%nat ->
              cb_slice b off n = firstn n (skipn off (cb_bytes b)).
Proof.
  unfold cb_slice. induction n as [|n IH]; intros off Hlen; [reflexivity|].
  cbn [seq map]. rewrite IH by lia.
  rewrite (skipn_nth_cons (cb_bytes b) off) by lia.
  cbn [firstn]. rewrite cb_read_in by lia. reflexivity.
Qed.

Lemma cb_slice_length (b : cbuf) (off n : nat) : length (cb_slice b off n) = n.
Proof. unfold cb_slice. rewrite length_map, length_seq. reflexivity. Qed.

Section LogFifo.

Variable H : headers.
Variable E : env.

Lemma log_ind_fifo (payload : cbuf) (w : world) :
  let f := apba_log_fifo w in
  let size := hdr_size payload in
  let ovf := wrap_int (kfifo_len f + size - APBA_LOG_SIZE) in
  let f1 :=
    if 0 <? ovf
    then snd (kfifo_out f (wrap_u32 (MIN ovf (APBA_MSG_SIZE_MAX H))))
    else f in
  apba_log_fifo (exec (log_ind H payload) w)
  = snd (kfifo_in APBA_LOG_SIZE f1 (cb_slice payload 4) size).
Proof.
  cbv zeta. unfold log_ind. rewrite !exec_bind. cbv beta.
  unfold eval at 1 2 3 4, gets. cbn [fst].
  assert (Ht : forall id l off n w0,
             apba_log_fifo (exec (touch id l off n) w0) = apba_log_fifo w0).
  { intros id l off n w0. unfold touch, when.
    destruct ((0 <? n) && (l <? off + n)); reflexivity. }
  rewrite Ht. reflexivity.
Qed.

Lemma handle_message_log_ind (payload : cbuf) (w : world) :
  NoDup (handled_types H) ->
  g_ctrl w = true ->
  sizeof_hdr <= cb_len payload ->
  hdr_type payload = APBA_CTRL_LOG_IND H ->
  apba_handle_message H E payload w = log_ind H payload w.
Proof.
  intros Hnd Hg Hlen Ht.
  destruct (handled_types_distinct H Hnd) as (D1 & D2 & D3 & D4 & _).
  unfold apba_handle_message, bind, gets. cbn [fst snd].
  rewrite Hg. cbn [negb].
  replace (cb_len payload <? sizeof_hdr) with false
    by (symmetry; apply Z.ltb_ge; exact Hlen).
  rewrite Ht, D1, D2, D3, D4, Z.eqb_refl. reflexivity.
Qed.

(** C3: a LOG_IND message whose payload size does not exceed the maximum
    message size first drops min(length + size - 16384, maximum message
    size) of the oldest bytes when that number is positive, and nothing
    otherwise; it then appends the payload; the fifo never holds more
    than its 16384 bytes afterwards.  The maximum message size comes from
    a header that is not at hand and is taken not to exceed the log
    capacity. *)
Theorem log_ind_evicts_oldest_then_appends (payload : cbuf) (w : world) :
  NoDup (handled_types H) ->
  APBA_MSG_SIZE_MAX H <= APBA_LOG_SIZE ->
  g_ctrl w = true ->
  sizeof_hdr <= cb_len payload ->
  hdr_type payload = APBA_CTRL_LOG_IND H ->
  0 <= hdr_size payload <= APBA_MSG_SIZE_MAX H ->
  kfifo_len (apba_log_fifo w) <= APBA_LOG_SIZE ->
  let size := hdr_size payload in
  let q := Z.min (kfifo_len (apba_log_fifo w) + size - 16384)
             (APBA_MSG_SIZE_MAX H) in
  let evicted := if 0 <? q then q else 0 in
  let w' := exec (apba_handle_message H E payload) w in
  apba_log_fifo w'
  = skipn (Z.to_nat evicted) (apba_log_fifo w)
    ++ cb_slice payload 4 (Z.to_nat size)
  /\ kfifo_len (apba_log_fifo w') <= 16384
  /\ (cb_len payload = sizeof_hdr + size ->
      cb_slice payload 4 (Z.to_nat size) = skipn 4 (cb_bytes payload)).
Proof.
  intros Hnd Hmax Hg Hlen Ht Hsize Hfifo size q evicted w'.
  subst w'. unfold exec.
  rewrite handle_message_log_ind by assumption.
  fold (exec (log_ind H payload) w). rewrite log_ind_fifo. cbv zeta.
  fold size. subst evicted q.
  set (f := apba_log_fifo w) in *.
  set (L := kfifo_len f) in *.
  assert (HL : 0 <= L) by (subst L; unfold kfifo_len; lia).
  unfold APBA_LOG_SIZE, SZ_16K in *.
  assert (Hl : Z.of_nat (length f) = L) by reflexivity.
  rewrite wrap_int_small by lia.
  assert (Hfit : forall k,
             (k <= length f)%nat ->
             Z.of_nat (length f) - Z.of_nat k + size <= 16384 ->
             let r := kfifo_in 16384 (skipn k f) (cb_slice payload 4) size in
             snd r = skipn k f ++ cb_slice payload 4 (Z.to_nat size)
             /\ kfifo_len (snd r) <= 16384).
  { intros k Hk Hroom r. subst r. unfold kfifo_in, kfifo_len. cbn [snd].
    rewrite MIN_is_min, length_skipn.
    replace (Z.min size (16384 - Z.of_nat (length f - k))) with size by lia.
    split; [reflexivity|].
    rewrite length_app, length_skipn, cb_slice_length. lia. }
  assert (Hq : Z.min (L + size - 16384) (APBA_MSG_SIZE_MAX H)
               = L + size - 16384) by lia.
  rewrite Hq.
  destruct (Z.ltb_spec 0 (L + size - 16384)) as [Hpos|Hnon].
  - unfold kfifo_out. cbn [snd]. rewrite !MIN_is_min, Hq.
    rewrite wrap_u32_id by (unfold u32; lia).
    fold L. replace (Z.min (L + size - 16384) L) with (L + size - 16384) by lia.
    destruct (Hfit (Z.to_nat (L + size - 16384))) as [Hf1 Hf2]; [lia | lia |].
    rewrite Hf1. split; [reflexivity|]. split.
    + rewrite <- Hf1. exact Hf2.
    + intros Hwf. rewrite cb_slice_in by (unfold cb_len, sizeof_hdr in *; lia).
      apply firstn_all2. rewrite length_skipn.
      unfold cb_len, sizeof_hdr in *. lia.
  - destruct (Hfit 0%nat) as [Hf1 Hf2]; [lia | lia |].
    change (Z.to_nat 0) with 0%nat. change (skipn 0 f) with f in *.
    rewrite Hf1. split; [reflexivity|]. split.
    + rewrite <- Hf1. exact Hf2.
    + intros Hwf. rewrite cb_slice_in by (unfold cb_len, sizeof_hdr in *; lia).
      apply firstn_all2. rewrite length_skipn.
      unfold cb_len, sizeof_hdr in *. lia.
Qed.

Lemma kfifo_in_bounded (size : Z) (f : kfifo) (src : nat -> list Z) (n : Z) :
  (forall k, length (src k) = k) ->
  kfifo_len f <= size ->
  kfifo_len (snd (kfifo_in size f src n)) <= size.
Proof.
  intros Hsrc Hf. unfold kfifo_in, kfifo_len in *. cbn [snd].
  rewrite length_app, Hsrc, MIN_is_min. lia.
Qed.

Lemma kfifo_out_bounded (f : kfifo) (n : Z) :
  kfifo_len (snd (kfifo_out f n)) <= kfifo_len f.
Proof.
  unfold kfifo_out, kfifo_len. cbn [snd]. rewrite length_skipn. lia.
Qed.

(** Whatever arrives, the log fifo stays within its capacity. *)
Lemma apba_handle_message_fifo_bounded (payload : cbuf) (w : world) :
  kfifo_len (apba_log_fifo w) <= APBA_LOG_SIZE ->
  kfifo_len (apba_log_fifo (exec (apba_handle_message H E payload) w))
  <= APBA_LOG_SIZE.
Proof.
  intros Hf.
  assert (Hlog : kfifo_len (apba_log_fifo (exec (log_ind H payload) w))
                 <= APBA_LOG_SIZE).
  { rewrite log_ind_fifo. cbv zeta.
    apply kfifo_in_bounded; [intros k; apply cb_slice_length|].
    destruct (0 <? _); [|exact Hf].
    eapply Z.le_trans; [apply kfifo_out_bounded | exact Hf]. }
  unfold exec in *.
  unfold apba_handle_message, baud_ack, apba_action_on_int_reason,
    apba_notify_abpe_attach, complete, upd_ctrl, touch, when, bind, gets.
  cbn [fst snd].
  repeat match goal with
         | |- context [if ?c then _ else _] => destruct c eqn:?
         end; try exact Hf; exact Hlog.
Qed.

End LogFifo.

(** ** The BAUD_ACK case *)

Lemma handle_message_baud_ack (H : headers) (E : env) (payload : cbuf) (w : world) :
  NoDup (handled_types H) ->
  g_ctrl w = true ->
  sizeof_hdr <= cb_len payload ->
  hdr_type payload = APBA_CTRL_BAUD_ACK H ->
  apba_handle_message H E payload w = baud_ack E payload w.
Proof.
  intros Hnd Hg Hlen Ht.
  destruct (handled_types_distinct H Hnd)
    as (_ & _ & _ & _ & D1 & D2 & D3 & D4 & D5 & D6).
  unfold apba_handle_message, bind, gets. cbn [fst snd].
  rewrite Hg. cbn [negb].
  replace (cb_len payload <? sizeof_hdr) with false
    by (symmetry; apply Z.ltb_ge; exact Hlen).
  rewrite Ht, D1, D2, D3, D4, D5, D6, Z.eqb_refl. reflexivity.
Qed.

Ltac split_ifs :=
  repeat match goal with
         | |- context [if ?c then _ else _] => destruct c eqn:?
         end.

Lemma baud_ack_effect (E : env) (payload : cbuf) (w : world) :
  let w' := exec (baud_ack E payload) w in
  baud_comp (ctrl w') = baud_comp (ctrl w) + 1
  /\ (cb_read payload 8 <> 0 ->
      mods_uart_update_baud E (le32_at payload 4) = 0 ->
      uart_baud w' = le32_at payload 4)
  /\ (cb_read payload 8 = 0 -> uart_baud w' = uart_baud w)
  /\ (cb_len payload < sizeof_baud_ack ->
      In (EvOutOfBounds BUF_PAYLOAD 8) (trace w')).
Proof.
  cbv zeta. unfold baud_ack, exec, bind, touch, when, complete, upd_ctrl.
  split; [|split; [|split]].
  - split_ifs; reflexivity.
  - intros Ha Hu. apply Z.eqb_neq in Ha. apply Z.eqb_eq in Hu.
    rewrite Ha, Hu. cbn [negb]. split_ifs; reflexivity.
  - intros Ha. apply Z.eqb_eq in Ha. rewrite Ha. cbn [negb].
    split_ifs; reflexivity.
  - intros Hshort. unfold sizeof_baud_ack in Hshort.
    replace ((0 <? 1) && (cb_len payload <? 8 + 1)) with true
      by (symmetry; apply andb_true_iff; split; apply Z.ltb_lt; lia).
    replace (Z.max 8 (cb_len payload)) with 8 by lia.
    split_ifs; unfold emit, modify, ret, with_trace, with_baud, with_ctrl;
      cbn [fst snd trace ctrl g_ctrl apba_log_fifo uart_baud];
      rewrite ?in_app_iff; cbn [In]; tauto.
Qed.

(** C9: the BAUD_ACK case reads the accepted byte at offset 8 and, when it
    is nonzero, the baud field at offsets 4..7, for every message that has
    a header: no test of the length against the 9 bytes of the message
    stands before these reads.  A BAUD_ACK that consists of its 4-byte
    header alone makes the handler read behind the buffer, and the baud
    rate of the transport is then set from bytes that are not part of the
    message. *)
Theorem baud_ack_read_without_length_check :
  (forall (H : headers) (E : env) (payload : cbuf) (w : world),
      NoDup (handled_types H) ->
      g_ctrl w = true ->
      sizeof_hdr <= cb_len payload ->
      hdr_type payload = APBA_CTRL_BAUD_ACK H ->
      let w' := exec (apba_handle_message H E payload) w in
      baud_comp (ctrl w') = baud_comp (ctrl w) + 1
      /\ (cb_read payload 8 <> 0 ->
          mods_uart_update_baud E (le32_at payload 4) = 0 ->
          uart_baud w' = le32_at payload 4)
      /\ (cb_read payload 8 = 0 -> uart_baud w' = uart_baud w)
      /\ (cb_len payload < sizeof_baud_ack ->
          In (EvOutOfBounds BUF_PAYLOAD 8) (trace w')))
  /\ (cb_len demo_baud_ack_header_only = sizeof_hdr
      /\ hdr_type demo_baud_ack_header_only = APBA_CTRL_BAUD_ACK demo_headers
      /\ uart_baud demo_world = 115200
      /\ uart_baud (exec (apba_handle_message demo_headers demo_env
                            demo_baud_ack_header_only) demo_world) = 230400
      /\ trace (exec (apba_handle_message demo_headers demo_env
                        demo_baud_ack_header_only) demo_world)
         = [EvOutOfBounds BUF_PAYLOAD 8; EvOutOfBounds BUF_PAYLOAD 4;
            EvUartUpdateBaud 230400]).
Proof.
  split.
  - intros H E payload w Hnd Hg Hlen Ht. cbv zeta. unfold exec.
    rewrite handle_message_baud_ack by assumption.
    apply baud_ack_effect.
  - repeat split; vm_compute; reflexivity.
Qed.

(** ** Requests that wait for an acknowledgement *)

Lemma In_trace_follows (P : event -> bool) (w w' : world) (e : event) :
  follows P w w' -> In e (trace w) -> In e (trace w').
Proof.
  intros (_ & _ & evs & Ht & _) Hin. rewrite Ht. apply in_or_app. left. exact Hin.
Qed.

Section Requests.

Variable H : headers.
Variable E : env.

Lemma apba_handle_message_follows (b : cbuf) :
  keeps any_event (apba_handle_message H E b).
Proof.
  unfold apba_handle_message, log_ind, baud_ack, apba_action_on_int_reason,
    apba_notify_abpe_attach, complete.
  cbv zeta. repeat keeps_step.
Qed.

Ltac run_handler :=
  unfold unchanged, exec, apba_handle_message, log_ind, baud_ack,
    apba_action_on_int_reason, apba_notify_abpe_attach, complete, upd_ctrl,
    touch, when, bind, gets;
  cbn [fst snd].

Lemma apba_handle_message_mode (b : cbuf) :
  unchanged (fun w => mode (ctrl w)) (apba_handle_message H E b).
Proof. run_handler. intros w. split_ifs; reflexivity. Qed.

Lemma apba_handle_message_mods_uart (b : cbuf) :
  unchanged (fun w => mods_uart (ctrl w)) (apba_handle_message H E b).
Proof. run_handler. intros w. split_ifs; reflexivity. Qed.

Ltac not_the_reply Hs :=
  exfalso; unfold signals in Hs; cbn [completion_type] in Hs;
  match goal with
  | Hl : (cb_len _ <? sizeof_hdr) = false |- _ =>
      apply Z.ltb_ge in Hl; apply Z.leb_le in Hl; rewrite Hl in Hs
  end;
  match goal with
  | Ht : (hdr_type _ =? _) = true |- _ => rewrite Ht in Hs
  end;
  discriminate Hs.

Lemma apba_handle_message_done (id : completion_id) (b : cbuf) :
  signals H id b = false ->
  unchanged (fun w => done id (ctrl w)) (apba_handle_message H E b).
Proof.
  intros Hs. run_handler. intros w.
  destruct id; split_ifs; try reflexivity; not_the_reply Hs.
Qed.

Lemma apba_handle_message_baud (b : cbuf) :
  signals H BAUD_COMP b = false ->
  unchanged uart_baud (apba_handle_message H E b).
Proof.
  intros Hs. run_handler. intros w.
  split_ifs; try reflexivity; not_the_reply Hs.
Qed.

(** A wait during which nothing wakes the completion runs into the
    timeout, and the arrivals handled meanwhile leave the mode byte, the
    completion and (for a baud request) the baud rate as they were. *)
Lemma wait_loop_times_out (id : completion_id) (arrivals : list cbuf) :
  forall w,
    not_signaled H id arrivals w ->
    eval (wait_loop H E id arrivals) w = 0
    /\ follows any_event w (exec (wait_loop H E id arrivals) w)
    /\ mode (ctrl (exec (wait_loop H E id arrivals) w)) = mode (ctrl w)
    /\ mods_uart (ctrl (exec (wait_loop H E id arrivals) w))
       = mods_uart (ctrl w)
    /\ (id = BAUD_COMP ->
        uart_baud (exec (wait_loop H E id arrivals) w) = uart_baud w).
Proof.
  induction arrivals as [|b rest IH]; intros w [Hd Hall].
  - cbn [wait_loop]. unfold eval, exec, bind, gets. cbn [fst snd].
    rewrite Hd. cbn. repeat split; auto. apply follows_refl.
  - cbn [forallb] in Hall. apply andb_true_iff in Hall.
    destruct Hall as [Hb Hrest]. apply negb_true_iff in Hb.
    pose proof (apba_handle_message_done id b Hb w) as Hdone.
    cbv beta in Hdone.
    set (w1 := exec (apba_handle_message H E b) w) in *.
    assert (Hns : not_signaled H id rest w1)
      by (split; [congruence | exact Hrest]).
    destruct (IH w1 Hns) as (He & Hf & Hm & Hu & Hbd).
    assert (Hrun : wait_loop H E id (b :: rest) w = wait_loop H E id rest w1).
    { cbn [wait_loop]. unfold bind at 1, gets. cbn [fst snd].
      rewrite Hd. reflexivity. }
    unfold eval, exec in *. rewrite Hrun.
    split; [exact He|]. split; [|split; [|split]].
    + eapply follows_trans; [apply apba_handle_message_follows | exact Hf].
    + rewrite Hm. apply (apba_handle_message_mode b w).
    + rewrite Hu. apply (apba_handle_message_mods_uart b w).
    + intros ->. rewrite (Hbd eq_refl).
      apply (apba_handle_message_baud b Hb w).
Qed.

Lemma wait_times_out (id : completion_id) (ms : Z) (arrivals : list cbuf)
  (w : world) :
  not_signaled H id arrivals w ->
  let r := wait_for_completion_timeout H E id ms arrivals w in
  fst r = 0
  /\ In (EvWait id ms) (trace (snd r))
  /\ mode (ctrl (snd r)) = mode (ctrl w)
  /\ (id = BAUD_COMP -> uart_baud (snd r) = uart_baud w).
Proof.
  intros Hns r. subst r. unfold wait_for_completion_timeout.
  rewrite run_eta, eval_bind, exec_bind. cbv beta. cbn [fst snd].
  set (w1 := exec (emit (EvWait id ms)) w).
  assert (Hns1 : not_signaled H id arrivals w1) by exact Hns.
  destruct (wait_loop_times_out id arrivals w1 Hns1) as (He & Hf & Hm & _ & Hb).
  split; [exact He|]. split; [|split].
  - apply (In_trace_follows _ _ _ _ Hf). subst w1. rewrite exec_emit.
    cbn [trace with_trace]. apply in_or_app. right. left. reflexivity.
  - rewrite Hm. reflexivity.
  - intros Hid. rewrite (Hb Hid). reflexivity.
Qed.

(** A wake-up that is already pending ends the wait at once: it is
    consumed and no arrival is handled. *)
Lemma wait_loop_pending (id : completion_id) (arrivals : list cbuf)
  (w : world) :
  0 < done id (ctrl w) ->
  wait_loop H E id arrivals w
  = (1, with_ctrl (set_done id (done id (ctrl w) - 1) (ctrl w)) w).
Proof.
  intros Hd. apply Z.ltb_lt in Hd.
  destruct arrivals; cbn [wait_loop]; unfold bind, gets; cbn [fst snd];
    rewrite Hd; reflexivity.
Qed.

(** C4, as the code has it.  Completions are never re-armed, so whether
    a request for which no reply arrives within the 1000 ms wait times
    out depends on the completion.  When no wake-up is pending on it as
    the request is sent, the request times out: the baud request returns
    -EAGAIN, the mode request returns the byte count it was given (what
    it also returns on success) and the log request returns 0 bytes; the
    stored mode byte is unchanged after the mode request and the
    transport's baud rate is unchanged after the baud request.  When a
    wake-up is pending (left by the reply to an earlier request that had
    timed out), the wait consumes it and ends at once, whatever arrives:
    the mode request stores the requested mode, cut to 8 bits, and
    returns the byte count, the baud request returns the byte count
    with the baud rate unchanged, and the log request returns the
    oldest bytes of the log fifo, at most 4095. *)
Theorem requests_time_out
  (w : world) (buf : string) (count : Z) (arrivals : list cbuf) (v : Z) :
  g_ctrl w = true ->
  mods_uart (ctrl w) = true ->
  kstrtoul E buf = Some v ->
  (forall msg, mods_uart_apba_send E msg = 0) ->
  (not_signaled H MODE_COMP arrivals w ->
   let r := apba_mode_store H E buf count arrivals w in
   fst r = count
   /\ mode (ctrl (snd r)) = mode (ctrl w)
   /\ In (EvWait MODE_COMP 1000) (trace (snd r)))
  /\ (not_signaled H BAUD_COMP arrivals w ->
      let r := apba_baud_store H E buf count arrivals w in
      fst r = - EAGAIN
      /\ uart_baud (snd r) = uart_baud w
      /\ In (EvWait BAUD_COMP 1000) (trace (snd r)))
  /\ (not_signaled H COMP arrivals w ->
      let r := apba_log_show H E arrivals w in
      fst r = (0, [])
      /\ In (EvWait COMP 1000) (trace (snd r)))
  /\ (0 < done MODE_COMP (ctrl w) ->
      let r := apba_mode_store H E buf count arrivals w in
      fst r = count
      /\ mode (ctrl (snd r)) = wrap_u8 v
      /\ done MODE_COMP (ctrl (snd r)) = done MODE_COMP (ctrl w) - 1
      /\ In (EvWait MODE_COMP 1000) (trace (snd r)))
  /\ (0 < done BAUD_COMP (ctrl w) ->
      let r := apba_baud_store H E buf count arrivals w in
      fst r = count
      /\ uart_baud (snd r) = uart_baud w
      /\ done BAUD_COMP (ctrl (snd r)) = done BAUD_COMP (ctrl w) - 1
      /\ In (EvWait BAUD_COMP 1000) (trace (snd r)))
  /\ (0 < done COMP (ctrl w) ->
      let r := apba_log_show H E arrivals w in
      fst r = fst (kfifo_out (apba_log_fifo w) (PAGE_SIZE - 1))
      /\ apba_log_fifo (snd r)
         = snd (kfifo_out (apba_log_fifo w) (PAGE_SIZE - 1))
      /\ done COMP (ctrl (snd r)) = done COMP (ctrl w) - 1
      /\ In (EvWait COMP 1000) (trace (snd r))).
Proof.
  intros Hg Hu Hk Hsend.
  split; [|split; [|split; [|split; [|split]]]]; intros Hns r; subst r.
  - destruct (wait_times_out MODE_COMP APBA_MODE_REQ_TIMEOUT arrivals
                (snd (emit (EvUartSend
                              (cpu_to_le16 (APBA_CTRL_MODE_REQUEST H)
                               ++ cpu_to_le16 1 ++ [wrap_u8 v])) w)) Hns)
      as (Hr & Hin & Hm & _).
    assert (Hrun :
              apba_mode_store H E buf count arrivals w
              = (count,
                 snd (wait_for_completion_timeout H E MODE_COMP
                        APBA_MODE_REQ_TIMEOUT arrivals
                        (snd (emit (EvUartSend
                                      (cpu_to_le16 (APBA_CTRL_MODE_REQUEST H)
                                       ++ cpu_to_le16 1 ++ [wrap_u8 v])) w))))).
    { unfold apba_mode_store, bind, gets. cbn [fst snd].
      rewrite Hg, Hu, Hk. cbn [negb orb].
      rewrite Hsend. cbn [Z.eqb negb]. rewrite Hr. reflexivity. }
    rewrite Hrun. cbn [fst snd].
    split; [reflexivity|]. split; [exact Hm | exact Hin].
  - destruct (wait_times_out BAUD_COMP APBA_BAUD_REQ_TIMEOUT arrivals
                (snd (emit (EvUartLockTx true)
                        (snd (emit (EvUartSend
                                      (cpu_to_le16 (APBA_CTRL_BAUD_REQUEST H)
                                       ++ cpu_to_le16 4 ++ cpu_to_le32 v)) w))))
                Hns)
      as (Hr & Hin & _ & Hb).
    assert (Hrun :
              apba_baud_store H E buf count arrivals w
              = (- EAGAIN,
                 exec (emit (EvUartLockTx false))
                   (snd (wait_for_completion_timeout H E BAUD_COMP
                        APBA_BAUD_REQ_TIMEOUT arrivals
                        (snd (emit (EvUartLockTx true)
                           (snd (emit (EvUartSend
                                      (cpu_to_le16 (APBA_CTRL_BAUD_REQUEST H)
                                       ++ cpu_to_le16 4 ++ cpu_to_le32 v))
                                   w)))))))).
    { unfold apba_baud_store, bind, gets. cbn [fst snd].
      rewrite Hg, Hu, Hk. cbn [negb orb].
      rewrite Hsend. cbn [Z.eqb negb]. rewrite Hr. reflexivity. }
    rewrite Hrun. cbn [fst snd].
    split; [reflexivity|]. split.
    + rewrite exec_emit. cbn [uart_baud with_trace].
      rewrite (Hb eq_refl). reflexivity.
    + rewrite exec_emit. cbn [trace with_trace].
      apply in_or_app. left. exact Hin.
  - destruct (wait_times_out COMP APBA_LOG_REQ_TIMEOUT arrivals
                (snd (emit (EvUartSend
                              (cpu_to_le16 (APBA_CTRL_LOG_REQUEST H)
                               ++ cpu_to_le16 0)) w)) Hns)
      as (Hr & Hin & _ & _).
    assert (Hrun :
              apba_log_show H E arrivals w
              = ((0, []),
                 snd (wait_for_completion_timeout H E COMP
                        APBA_LOG_REQ_TIMEOUT arrivals
                        (snd (emit (EvUartSend
                                      (cpu_to_le16 (APBA_CTRL_LOG_REQUEST H)
                                       ++ cpu_to_le16 0)) w))))).
    { unfold apba_log_show, bind, gets. cbn [fst snd].
      rewrite Hg. cbn [negb].
      rewrite Hsend. cbn [Z.eqb negb]. rewrite Hr. reflexivity. }
    rewrite Hrun. cbn [fst snd].
    split; [reflexivity | exact Hin].
  - unfold apba_mode_store, bind, gets. cbn [fst snd].
    rewrite Hg, Hu, Hk. cbn [negb orb].
    rewrite Hsend. cbn [Z.eqb negb].
    unfold wait_for_completion_timeout, bind. cbn [fst snd].
    rewrite wait_loop_pending by exact Hns.
    cbn [fst snd Z.eqb]. split; [reflexivity|]. split; [reflexivity|].
    split; [reflexivity|].
    cbn. rewrite ?in_app_iff. cbn [In]. tauto.
  - unfold apba_baud_store, bind, gets. cbn [fst snd].
    rewrite Hg, Hu, Hk. cbn [negb orb].
    rewrite Hsend. cbn [Z.eqb negb].
    unfold wait_for_completion_timeout, bind. cbn [fst snd].
    rewrite wait_loop_pending by exact Hns.
    cbn [fst snd Z.eqb]. split; [reflexivity|]. split; [reflexivity|].
    split; [reflexivity|].
    cbn. rewrite ?in_app_iff. cbn [In]. tauto.
  - unfold apba_log_show, bind, gets. cbn [fst snd].
    rewrite Hg. cbn [negb].
    rewrite Hsend. cbn [Z.eqb negb].
    unfold wait_for_completion_timeout, bind. cbn [fst snd].
    rewrite wait_loop_pending by exact Hns.
    cbn [fst snd Z.eqb]. split; [reflexivity|]. split; [reflexivity|].
    split; [reflexivity|].
    cbn. rewrite ?in_app_iff. cbn [In]. tauto.
Qed.

End Requests.

(** ** apba_disable *)

Section Disable.

Variable H : headers.

Lemma apba_disable_noop (w : world) :
  g_ctrl w = false \/ desired_on (ctrl w) = 0 ->
  apba_disable H w = (tt, w).
Proof.
  intros Hoff. unfold apba_disable, bind, gets. cbn [fst snd].
  destruct Hoff as [Hg | Hd].
  - rewrite Hg. reflexivity.
  - rewrite Hd. cbn [Z.eqb]. rewrite orb_true_r. reflexivity.
Qed.

Lemma apba_disable_clears_desired_on (w : world) :
  g_ctrl w = true ->
  desired_on (ctrl (exec (apba_disable H) w)) = 0.
Proof.
  intros Hg. destruct (Z.eqb_spec (desired_on (ctrl w)) 0) as [Hd|Hd].
  - unfold exec. rewrite apba_disable_noop by (right; exact Hd). exact Hd.
  - apply Z.eqb_neq in Hd.
    unfold exec, apba_disable, bind, gets. cbn [fst snd].
    rewrite Hg, Hd. cbn [negb orb].
    match goal with
    | |- desired_on (ctrl (snd (apba_on H false ?w3))) = 0 =>
        destruct (apba_on_power_state H false w3) as [_ Hd'];
        unfold exec in Hd'; rewrite Hd'
    end.
    unfold when. destruct (mods_uart (ctrl w)); reflexivity.
Qed.

(** C5: apba_disable called while desired-on is already false does
    nothing at all: the world, trace included, is what it was, so no
    slave power command, no GPIO sequence, no clock operation and no
    transport detach or close happens.  A second apba_disable in a row
    is therefore always without effect. *)
Theorem apba_disable_when_off_is_noop (w : world) :
  (desired_on (ctrl w) = 0 -> apba_disable H w = (tt, w))
  /\ apba_disable H (exec (apba_disable H) w)
     = (tt, exec (apba_disable H) w).
Proof.
  split.
  - intros Hd. apply apba_disable_noop. right. exact Hd.
  - apply apba_disable_noop. destruct (g_ctrl w) eqn:Hg.
    + right. apply apba_disable_clears_desired_on. exact Hg.
    + left. unfold exec. rewrite apba_disable_noop by (left; exact Hg).
      exact Hg.
Qed.

End Disable.

(** ** The statements on the demo board *)

Lemma demo_handled_types_distinct : NoDup (handled_types demo_headers).
Proof.
  unfold handled_types, demo_headers. cbn.
  repeat (apply NoDup_cons; [cbn [In]; intuition discriminate|]).
  apply NoDup_nil.
Qed.

Lemma demo_triples_u32 : Forall triple_u32 demo_triples.
Proof. repeat constructor; unfold u32; lia. Qed.

(** Both operations refuse a NULL controller, and the flash operation a
    NULL image, before they touch anything. *)
Lemma partition_ops_reject_null (H : headers) (E : env) (partition : string)
  (fw : option cbuf) (ctrl_ptr : bool) (w : world) :
  apba_erase_partition H E false partition w = (- EINVAL, w)
  /\ apba_flash_partition H E false partition fw w = (- EINVAL, w)
  /\ apba_flash_partition H E ctrl_ptr partition None w = (- EINVAL, w).
Proof. destruct fw; repeat split; reflexivity. Qed.

Lemma flash_skipped_when_first_page_matches_witness :
  eval (apba_flash_partition demo_headers demo_env true "apba" (Some demo_fw))
    demo_world = 0
  /\ exists evs,
       trace (exec (apba_flash_partition demo_headers demo_env true "apba"
                      (Some demo_fw)) demo_world)
       = trace demo_world ++ evs
       /\ forallb no_erase_or_write evs = true.
Proof.
  apply (flash_skipped_when_first_page_matches demo_headers demo_env
           demo_world "apba" demo_fw demo_mtd).
  - intros w0. reflexivity.
  - reflexivity.
  - vm_compute. discriminate.
  - vm_compute. discriminate.
  - vm_compute. reflexivity.
Defined.

Lemma log_ind_evicts_oldest_then_appends_witness :
  let payload := demo_msg 5 [1; 2; 3; 4; 5; 6; 7; 8; 9; 10] in
  let w := demo_world_log_nearly_full in
  let size := hdr_size payload in
  let q := Z.min (kfifo_len (apba_log_fifo w) + size - 16384)
             (APBA_MSG_SIZE_MAX demo_headers) in
  let evicted := if 0 <? q then q else 0 in
  let w' := exec (apba_handle_message demo_headers demo_env payload) w in
  apba_log_fifo w'
  = skipn (Z.to_nat evicted) (apba_log_fifo w)
    ++ cb_slice payload 4 (Z.to_nat size)
  /\ kfifo_len (apba_log_fifo w') <= 16384
  /\ (cb_len payload = sizeof_hdr + size ->
      cb_slice payload 4 (Z.to_nat size) = skipn 4 (cb_bytes payload)).
Proof.
  apply (log_ind_evicts_oldest_then_appends demo_headers demo_env
           (demo_msg 5 [1; 2; 3; 4; 5; 6; 7; 8; 9; 10])
           demo_world_log_nearly_full).
  - exact demo_handled_types_distinct.
  - vm_compute. discriminate.
  - reflexivity.
  - vm_compute. discriminate.
  - reflexivity.
  - split; vm_compute; discriminate.
  - vm_compute. discriminate.
Defined.

Lemma requests_time_out_witness :
  ((let r := apba_mode_store demo_headers demo_env "3" 2 [] demo_world in
    fst r = 2
    /\ mode (ctrl (snd r)) = mode (ctrl demo_world)
    /\ In (EvWait MODE_COMP 1000) (trace (snd r)))
   /\ (let r := apba_baud_store demo_headers demo_env "3" 2 [] demo_world in
       fst r = - EAGAIN
       /\ uart_baud (snd r) = uart_baud demo_world
       /\ In (EvWait BAUD_COMP 1000) (trace (snd r)))
   /\ (let r := apba_log_show demo_headers demo_env [] demo_world in
       fst r = (0, [])
       /\ In (EvWait COMP 1000) (trace (snd r))))
  /\ ((let r := apba_mode_store demo_headers demo_env "3" 2 []
                  demo_world_late_replies in
       fst r = 2
       /\ mode (ctrl (snd r)) = wrap_u8 3
       /\ done MODE_COMP (ctrl (snd r))
          = done MODE_COMP (ctrl demo_world_late_replies) - 1
       /\ In (EvWait MODE_COMP 1000) (trace (snd r)))
      /\ (let r := apba_baud_store demo_headers demo_env "3" 2 []
                     demo_world_late_replies in
          fst r = 2
          /\ uart_baud (snd r) = uart_baud demo_world_late_replies
          /\ done BAUD_COMP (ctrl (snd r))
             = done BAUD_COMP (ctrl demo_world_late_replies) - 1
          /\ In (EvWait BAUD_COMP 1000) (trace (snd r)))
      /\ (let r := apba_log_show demo_headers demo_env []
                     demo_world_late_replies in
          fst r = fst (kfifo_out (apba_log_fifo demo_world_late_replies)
                         (PAGE_SIZE - 1))
          /\ apba_log_fifo (snd r)
             = snd (kfifo_out (apba_log_fifo demo_world_late_replies)
                      (PAGE_SIZE - 1))
          /\ done COMP (ctrl (snd r))
             = done COMP (ctrl demo_world_late_replies) - 1
          /\ In (EvWait COMP 1000) (trace (snd r)))).
Proof.
  destruct (requests_time_out demo_headers demo_env demo_world "3" 2 [] 3
              eq_refl eq_refl eq_refl (fun _ => eq_refl))
    as (Hmode & Hbaud & Hlog & _).
  destruct (requests_time_out demo_headers demo_env demo_world_late_replies
              "3" 2 [] 3 eq_refl eq_refl eq_refl (fun _ => eq_refl))
    as (_ & _ & _ & Hmode' & Hbaud' & Hlog').
  split; [split; [|split] | split; [|split]].
  - apply Hmode. split; reflexivity.
  - apply Hbaud. split; reflexivity.
  - apply Hlog. split; reflexivity.
  - apply Hmode'. vm_compute. reflexivity.
  - apply Hbaud'. vm_compute. reflexivity.
  - apply Hlog'. vm_compute. reflexivity.
Defined.

(** C4 as it is written does not hold: the mode request that times out
    hands its caller the byte count, which is what the acknowledged
    request returns, and no failure value. *)
Lemma mode_request_timeout_not_reported :
  not_signaled demo_headers MODE_COMP [] demo_world
  /\ ~ reports_failure
         (fst (apba_mode_store demo_headers demo_env "3" 2 [] demo_world))
  /\ fst (apba_mode_store demo_headers demo_env "3" 2 [] demo_world)
     = fst (apba_mode_store demo_headers demo_env "3" 2 [demo_msg 7 [3]]
              demo_world)
  /\ mode (ctrl (snd (apba_mode_store demo_headers demo_env "3" 2 []
                        demo_world))) = 0
  /\ mode (ctrl (snd (apba_mode_store demo_headers demo_env "3" 2
                        [demo_msg 7 [3]] demo_world))) = 3.
Proof.
  split; [split; reflexivity|].
  split; [vm_compute; discriminate|].
  repeat split; vm_compute; reflexivity.
Qed.

Lemma apba_disable_when_off_is_noop_witness :
  apba_disable demo_headers demo_world_off = (tt, demo_world_off).
Proof.
  apply (proj1 (apba_disable_when_off_is_noop demo_headers demo_world_off)).
  reflexivity.
Defined.

Lemma apba_seq_visits_in_order_witness :
  apba_seq demo_headers (seq_of_triples demo_triples) demo_world
  = (tt,
     with_trace
       (trace demo_world
        ++ runSequence_spec demo_headers (ctrl demo_world) demo_triples)
       demo_world)
  /\ exec (apba_seq demo_headers (seq_of_triples demo_triples)) demo_world
     = with_trace
         (trace demo_world
          ++ runSequence_spec demo_headers (ctrl demo_world) [(0, 1, 5)]
          ++ pause 2
          ++ runSequence_spec demo_headers (ctrl demo_world) [(1, 0, 0)])
         demo_world.
Proof.
  destruct (apba_seq_visits_in_order demo_headers demo_triples demo_world)
    as (Hrun & _ & Hskip).
  - exact demo_triples_u32.
  - cbn. lia.
  - split; [exact Hrun|].
    apply (Hskip [(0, 1, 5)] [(1, 0, 0)] 9 1 2); [reflexivity|].
    vm_compute. discriminate.
Defined.

Lemma short_or_unknown_message_discarded_witness :
  apba_handle_message demo_headers demo_env (demo_msg 99 [1; 2]) demo_world
  = (tt, demo_world).
Proof.
  apply (short_or_unknown_message_discarded demo_headers demo_env).
  right. split.
  - vm_compute. discriminate.
  - vm_compute. intuition discriminate.
Defined.

Lemma int_reason_reset_and_unknown_witness :
  apba_action_on_int_reason demo_headers demo_env APBA_INT_APBE_RESET demo_world
  = (tt,
     with_trace
       (trace demo_world ++
        [EvSlaveCtrlPower 1 2 1; EvMsleep 250; EvSlaveCtrlPower 1 1 1])
       demo_world)
  /\ apba_action_on_int_reason demo_headers demo_env 77 demo_world
     = (tt, demo_world).
Proof.
  destruct (int_reason_reset_and_unknown demo_headers demo_env demo_world)
    as (Hreset & Hunknown).
  - reflexivity.
  - vm_compute. discriminate.
  - split; [exact Hreset|].
    apply Hunknown; vm_compute; discriminate.
Defined.

Lemma baud_ack_read_without_length_check_witness :
  let w' := exec (apba_handle_message demo_headers demo_env
                    demo_baud_ack_header_only) demo_world in
  baud_comp (ctrl w') = baud_comp (ctrl demo_world) + 1
  /\ uart_baud w' = le32_at demo_baud_ack_header_only 4
  /\ In (EvOutOfBounds BUF_PAYLOAD 8) (trace w').
Proof.
  destruct (proj1 baud_ack_read_without_length_check demo_headers demo_env
              demo_baud_ack_header_only demo_world)
    as (Hcomp & Hbaud & _ & Hoob).
  - exact demo_handled_types_distinct.
  - reflexivity.
  - vm_compute. discriminate.
  - reflexivity.
  - split; [exact Hcomp|]. split.
    + apply Hbaud; [vm_compute; discriminate | reflexivity].
    + apply Hoob. reflexivity.
Defined.

Lemma compare_reads_a_full_page_of_any_image_witness :
  eval (apba_compare_partition demo_env demo_mtd demo_fw_short) demo_world = 0
  /\ In (EvOutOfBounds BUF_FW_DATA (cb_len demo_fw_short))
       (trace (exec (apba_compare_partition demo_env demo_mtd demo_fw_short)
                 demo_world)).
Proof.
  destruct (proj1 compare_reads_a_full_page_of_any_image demo_env demo_mtd
              demo_fw_short demo_world)
    as (Hiff & Hoob).
  - reflexivity.
  - vm_compute. discriminate.
  - vm_compute. discriminate.
  - assert (Hz : eval (apba_compare_partition demo_env demo_mtd demo_fw_short)
                   demo_world = 0) by (vm_compute; reflexivity).
    split; [exact Hz|].
    apply Hoob; [exact Hz | reflexivity].
Defined.

(** With a maximum message size above the log capacity the eviction of C3
    is no longer the stated minimum: a 17000-byte LOG_IND on a fifo of 100
    bytes drops the 100 bytes (not 716) and queues only 16384 bytes. *)
Example log_ind_oversized_message :
  let payload := demo_msg 5 (repeat 1 (Z.to_nat 17000)) in
  let w := with_fifo (repeat 65 100) demo_world in
  hdr_size payload <= APBA_MSG_SIZE_MAX big_message_headers
  /\ apba_log_fifo (exec (apba_handle_message big_message_headers demo_env
                            payload) w)
     = repeat 1 (Z.to_nat 16384).
Proof. split; vm_compute; [discriminate | reflexivity]. Qed.

(** setMode(3) answered by the echoed mode request stores mode 3. *)
Example set_mode_end_to_end :
  let r := apba_mode_store demo_headers demo_env "3" 2 [demo_msg 7 [3]]
             demo_world in
  fst r = 2
  /\ mode (ctrl (snd r)) = 3
  /\ hd_error (trace (snd r)) = Some (EvUartSend [7; 0; 1; 0; 3]).
Proof. repeat split; vm_compute; reflexivity. Qed.

(** 20000 bytes of log indications into the 16384-byte fifo: the fifo ends
    up full and holds the most recent 16384 bytes. *)
Example log_fifo_keeps_most_recent :
  kfifo_len (apba_log_fifo (feed_log demo_world demo_log_chunks)) = 16384
  /\ apba_log_fifo (feed_log demo_world demo_log_chunks)
     = skipn 3616 (concat demo_log_chunks).
Proof. split; vm_compute; reflexivity. Qed.

(** ** More on the partition operations *)

Lemma filter_none (Q : event -> bool) (evs : list event) :
  forallb (fun e => negb (Q e)) evs = true -> filter Q evs = [].
Proof.
  induction evs as [|e evs IH]; [reflexivity|].
  cbn [forallb filter]. intros Hall. apply andb_true_iff in Hall.
  destruct Hall as [He Hrest]. apply negb_true_iff in He. rewrite He.
  apply IH, Hrest.
Qed.

Lemma adds_refl (Q : event -> bool) (w : world) : adds Q [] w w.
Proof. exists []. rewrite app_nil_r. split; reflexivity. Qed.

Lemma adds_trans (Q : event -> bool) (l1 l2 : list event) (w1 w2 w3 : world) :
  adds Q l1 w1 w2 -> adds Q l2 w2 w3 -> adds Q (l1 ++ l2) w1 w3.
Proof.
  intros (evs1 & Ht1 & Hf1) (evs2 & Ht2 & Hf2).
  exists (evs1 ++ evs2). split.
  - rewrite Ht2, Ht1, app_assoc. reflexivity.
  - rewrite filter_app, Hf1, Hf2. reflexivity.
Qed.

Lemma adds_follows (Q : event -> bool) (w w' : world) :
  follows (fun e => negb (Q e)) w w' -> adds Q [] w w'.
Proof.
  intros (_ & _ & evs & Ht & Hp). exists evs. split; [exact Ht|].
  apply filter_none, Hp.
Qed.

Lemma adds_emit (Q : event -> bool) (e : event) (w : world) :
  adds Q (if Q e then [e] else []) w (exec (emit e) w).
Proof.
  exists [e]. split; [reflexivity|]. cbn [filter].
  destruct (Q e); reflexivity.
Qed.

Lemma slots_succ (num : Z) (n : nat) :
  slots num (S n) = num :: slots (num + 1) n.
Proof.
  unfold slots. cbn [seq map]. rewrite Z.add_0_r. f_equal.
  rewrite <- seq_shift, map_map. apply map_ext. intros i. lia.
Qed.

Section MtdLookup.

Variable E : env.

(** apba_init_mtd_module from slot [num] on, for [n] slots: the run as
    a whole. *)
Lemma apba_init_mtd_module_from_run (name : string) (n : nat) :
  forall (num : Z) (w : world),
    (exists k m,
        (k < n)%nat
        /\ get_mtd_device E (num + Z.of_nat k) = Some m
        /\ mtd_matches E name (num + Z.of_nat k) = true
        /\ (forall j, (j < k)%nat ->
                      mtd_matches E name (num + Z.of_nat j) = false)
        /\ apba_init_mtd_module_from E n num name w
           = (Some m,
              with_trace
                (trace w
                 ++ flat_map (mtd_probe_rejected E) (slots num k)
                 ++ [EvGetMtdDevice (num + Z.of_nat k)]) w))
    \/ ((forall j, (j < n)%nat ->
                   mtd_matches E name (num + Z.of_nat j) = false)
        /\ apba_init_mtd_module_from E n num name w
           = (None,
              with_trace
                (trace w ++ flat_map (mtd_probe_rejected E) (slots num n))
                w)).
Proof.
  induction n as [|n IH]; intros num w.
  - right. split; [intros j Hj; lia|].
    cbn [apba_init_mtd_module_from slots seq map flat_map].
    rewrite app_nil_r, with_trace_same. reflexivity.
  - cbn [apba_init_mtd_module_from]. unfold bind at 1.
    set (w1 := snd (emit (EvGetMtdDevice num) w)).
    assert (Hrej : forall ev,
               mtd_matches E name num = false ->
               mtd_probe_rejected E num = EvGetMtdDevice num :: ev ->
               forall w2, trace w2 = trace w1 ++ ev ->
                          ctrl w2 = ctrl w -> g_ctrl w2 = g_ctrl w ->
                          apba_log_fifo w2 = apba_log_fifo w ->
                          uart_baud w2 = uart_baud w ->
               (exists k m,
                   (k < S n)%nat
                   /\ get_mtd_device E (num + Z.of_nat k) = Some m
                   /\ mtd_matches E name (num + Z.of_nat k) = true
                   /\ (forall j, (j < k)%nat ->
                          mtd_matches E name (num + Z.of_nat j) = false)
                   /\ apba_init_mtd_module_from E n (num + 1) name w2
                      = (Some m,
                         with_trace
                           (trace w
                            ++ flat_map (mtd_probe_rejected E) (slots num k)
                            ++ [EvGetMtdDevice (num + Z.of_nat k)]) w))
               \/ ((forall j, (j < S n)%nat ->
                       mtd_matches E name (num + Z.of_nat j) = false)
                   /\ apba_init_mtd_module_from E n (num + 1) name w2
                      = (None,
                         with_trace
                           (trace w
                            ++ flat_map (mtd_probe_rejected E)
                                 (slots num (S n))) w))).
    { intros ev Hno Hprobe w2 Ht2 Hc2 Hg2 Hf2 Hb2.
      assert (Hw2 : forall t, with_trace t w2 = with_trace t w)
        by (intros t; unfold with_trace; rewrite Hc2, Hg2, Hf2, Hb2;
            reflexivity).
      assert (Htr : trace w2 = trace w ++ mtd_probe_rejected E num).
      { rewrite Ht2, Hprobe. subst w1. cbn [emit modify snd trace with_trace].
        rewrite <- app_assoc. reflexivity. }
      destruct (IH (num + 1) w2)
        as [(k & m & Hk & Hget & Hm & Hbefore & Hrun) | (Hnone & Hrun)].
      - left. exists (S k), m.
        replace (num + Z.of_nat (S k)) with (num + 1 + Z.of_nat k) by lia.
        split; [lia|]. split; [exact Hget|]. split; [exact Hm|]. split.
        + intros [|j] Hj; [rewrite Z.add_0_r; exact Hno|].
          replace (num + Z.of_nat (S j)) with (num + 1 + Z.of_nat j) by lia.
          apply Hbefore. lia.
        + rewrite Hrun, Hw2, Htr, slots_succ. cbn [flat_map].
          rewrite <- !app_assoc. reflexivity.
      - right. split.
        + intros [|j] Hj; [rewrite Z.add_0_r; exact Hno|].
          replace (num + Z.of_nat (S j)) with (num + 1 + Z.of_nat j) by lia.
          apply Hnone. lia.
        + rewrite Hrun, Hw2, Htr, slots_succ. cbn [flat_map].
          rewrite <- !app_assoc. reflexivity. }
    unfold mtd_matches in *. unfold mtd_probe_rejected in Hrej.
    destruct (get_mtd_device E num) as [m|] eqn:Hget.
    + destruct (mtd_type m =? MTD_ABSENT) eqn:Habs.
      * unfold bind at 1.
        apply (Hrej [EvPutMtdDevice (mtd_name m)]); reflexivity.
      * destruct (String.eqb (mtd_name m) name) eqn:Hname; cbn [negb].
        -- left. exists 0%nat, m. rewrite Z.add_0_r, Hget, Habs, Hname.
           split; [lia|]. split; [reflexivity|]. split; [reflexivity|].
           split; [intros j Hj; lia|].
           cbn [slots seq map flat_map app]. reflexivity.
        -- unfold bind at 1.
           apply (Hrej [EvPutMtdDevice (mtd_name m)]); reflexivity.
    + apply (Hrej []); try reflexivity.
      subst w1. rewrite app_nil_r. reflexivity.
Qed.

(** X1: apba_init_mtd_module returns the device of the first slot among
    0..15 that holds a present device named like the partition, and NULL
    exactly when no slot does; the reference of every device it passed
    over is given back, the one of the device returned is kept. *)
Theorem apba_init_mtd_module_first_match (name : string) (w : world) :
  let r := apba_init_mtd_module E name w in
  match fst r with
  | Some m =>
      exists num,
        0 <= num < 16
        /\ get_mtd_device E num = Some m
        /\ mtd_name m = name
        /\ mtd_type m <> MTD_ABSENT
        /\ (forall k, 0 <= k < num -> mtd_matches E name k = false)
        /\ snd r
           = with_trace
               (trace w
                ++ flat_map (mtd_probe_rejected E) (slots 0 (Z.to_nat num))
                ++ [EvGetMtdDevice num]) w
  | None =>
      (forall k, 0 <= k < 16 -> mtd_matches E name k = false)
      /\ snd r
         = with_trace
             (trace w ++ flat_map (mtd_probe_rejected E) (slots 0 16)) w
  end.
Proof.
  cbv zeta. unfold apba_init_mtd_module.
  destruct (apba_init_mtd_module_from_run name 16 0 w)
    as [(k & m & Hk & Hget & Hm & Hbefore & Hrun) | (Hnone & Hrun)];
    rewrite Hrun; cbn [fst snd].
  - exists (Z.of_nat k). cbn [Z.add] in *.
    split; [lia|]. split; [exact Hget|].
    unfold mtd_matches in Hm. rewrite Hget in Hm.
    apply andb_true_iff in Hm. destruct Hm as [Hty Hnm].
    split; [apply String.eqb_eq; exact Hnm|].
    split; [apply negb_true_iff in Hty; apply Z.eqb_neq; exact Hty|].
    split.
    + intros j Hj. replace j with (0 + Z.of_nat (Z.to_nat j)) by lia.
      apply Hbefore. lia.
    + rewrite Nat2Z.id. reflexivity.
  - split; [|reflexivity].
    intros j Hj. replace j with (0 + Z.of_nat (Z.to_nat j)) by lia.
    apply Hnone. lia.
Qed.

(** The device found does not depend on the state of the driver. *)
Lemma apba_init_mtd_module_from_eval (name : string) (n : nat) :
  forall num w w',
    eval (apba_init_mtd_module_from E n num name) w
    = eval (apba_init_mtd_module_from E n num name) w'.
Proof.
  induction n as [|n IH]; intros num w w'; [reflexivity|].
  cbn [apba_init_mtd_module_from]. rewrite !eval_bind. cbv beta.
  destruct (get_mtd_device E num) as [m|]; [|apply IH].
  destruct (mtd_type m =? MTD_ABSENT);
    [|destruct (negb (String.eqb (mtd_name m) name))];
    rewrite ?eval_bind; cbv beta; try apply IH.
  reflexivity.
Qed.

Lemma apba_init_mtd_module_eval (name : string) (w w' : world) :
  eval (apba_init_mtd_module E name) w = eval (apba_init_mtd_module E name) w'.
Proof. apply apba_init_mtd_module_from_eval. Qed.

End MtdLookup.

Section PartitionResults.

Variable H : headers.
Variable E : env.

Lemma apba_compare_partition_eval (m : mtd_info) (fw : cbuf) (w w' : world) :
  eval (apba_compare_partition E m fw) w
  = eval (apba_compare_partition E m fw) w'.
Proof.
  unfold apba_compare_partition.
  destruct (kmalloc_page E); cbn [negb]; [|reflexivity].
  rewrite !eval_bind. cbv beta zeta.
  destruct (rd_err (_read m 0 PAGE_SIZE) <? 0); [reflexivity|].
  destruct (_ <? PAGE_SIZE); reflexivity.
Qed.

Lemma adds_no_erase {A} (m : M A) (w : world) :
  keeps no_erase_or_write m -> adds is_erase_or_write [] w (exec m w).
Proof. intros Hk. apply adds_follows. exact (Hk w). Qed.

(** X2: apba_erase_partition on a partition that does not resolve
    returns -ENODEV without any erase; on one that resolves it issues
    exactly one erase, from offset 0 over the partition size cut to 32
    bits, and returns what that erase returned. *)
Theorem apba_erase_partition_result (w : world) (partition : string) :
  let r := apba_erase_partition H E true partition w in
  match eval (apba_init_mtd_module E partition) w with
  | None =>
      fst r = - ENODEV
      /\ adds is_erase_or_write [] w (snd r)
  | Some m =>
      fst r = _erase m 0 (mtd_size m mod 4294967296)
      /\ adds is_erase_or_write
           [EvMtdErase (mtd_name m) 0 (mtd_size m mod 4294967296)]
           w (snd r)
  end.
Proof.
  cbv zeta. unfold apba_erase_partition. cbn [negb].
  rewrite (run_eta _ w). cbn [fst snd].
  rewrite !eval_bind, !exec_bind. cbv beta.
  set (w1 := exec (apba_on H false) w).
  set (w2 := exec (apba_flash_on H E true) w1).
  rewrite (apba_init_mtd_module_eval E partition w w2).
  assert (H12 : adds is_erase_or_write [] w w2).
  { apply (adds_trans _ [] [] w w1 w2).
    - apply adds_no_erase, apba_on_no_erase.
    - apply adds_no_erase, apba_flash_on_no_erase. }
  assert (H23 : adds is_erase_or_write [] w2
                  (exec (apba_init_mtd_module E partition) w2)).
  { apply adds_no_erase, keeps_apba_init_mtd_module; intros; reflexivity. }
  set (w3 := exec (apba_init_mtd_module E partition) w2) in *.
  destruct (eval (apba_init_mtd_module E partition) w2) as [m|].
  - rewrite !eval_bind, !exec_bind. cbv beta.
    change (eval (apba_mtd_erase m 0 (mtd_size m)) w3)
      with (_erase m 0 (mtd_size m mod 4294967296)).
    split; [apply eval_cleanup|].
    apply (adds_trans _ [] [_] w w2); [exact H12|].
    apply (adds_trans _ [] [_] w2 w3); [exact H23|].
    apply (adds_trans _ [_] [] w3 (exec (apba_mtd_erase m 0 (mtd_size m)) w3)).
    + apply (adds_emit is_erase_or_write
               (EvMtdErase (mtd_name m) 0 (mtd_size m mod 4294967296)) w3).
    + apply adds_no_erase, cleanup_no_erase.
  - split; [reflexivity|].
    apply (adds_trans _ [] [] w w2); [exact H12|].
    apply (adds_trans _ [] [] w2 w3); [exact H23|].
    apply adds_no_erase.
    unfold no_mtd. repeat keeps_step.
    + apply apba_flash_on_no_erase.
    + apply apba_on_no_erase.
Qed.

Lemma flash_partition_not_equal_run
  (w : world) (partition : string) (fw : cbuf) (m : mtd_info) :
  eval (apba_init_mtd_module E partition) w = Some m ->
  eval (apba_compare_partition E m fw) w <> 0 ->
  let r := apba_flash_partition H E true partition (Some fw) w in
  let e_erase := EvMtdErase (mtd_name m) 0 (mtd_size m mod 4294967296) in
  let e_write := EvMtdWrite (mtd_name m) 0 (cb_len fw) (cb_bytes fw) in
  let err := _erase m 0 (mtd_size m mod 4294967296) in
  (err < 0 ->
   fst r = err /\ adds is_erase_or_write [e_erase] w (snd r))
  /\ (0 <= err ->
      fst r = _write m 0 (cb_len fw) (cb_bytes fw)
      /\ adds is_erase_or_write [e_erase; e_write] w (snd r)).
Proof.
  intros Hres Hcmp. cbv zeta. unfold apba_flash_partition. cbn [negb].
  rewrite (run_eta _ w). cbn [fst snd].
  rewrite !eval_bind, !exec_bind. cbv beta.
  set (w1 := exec (apba_on H false) w).
  set (w2 := exec (apba_flash_on H E true) w1).
  rewrite (apba_init_mtd_module_eval E partition w2 w), Hres.
  assert (H12 : adds is_erase_or_write [] w w2).
  { apply (adds_trans _ [] [] w w1 w2).
    - apply adds_no_erase, apba_on_no_erase.
    - apply adds_no_erase, apba_flash_on_no_erase. }
  assert (H23 : adds is_erase_or_write [] w2
                  (exec (apba_init_mtd_module E partition) w2)).
  { apply adds_no_erase, keeps_apba_init_mtd_module; intros; reflexivity. }
  set (w3 := exec (apba_init_mtd_module E partition) w2) in *.
  rewrite !eval_bind, !exec_bind. cbv beta.
  rewrite (apba_compare_partition_eval m fw w3 w).
  apply Z.eqb_neq in Hcmp. rewrite Hcmp.
  assert (H34 : adds is_erase_or_write [] w3
                  (exec (apba_compare_partition E m fw) w3))
    by apply adds_no_erase, apba_compare_partition_no_erase.
  set (w4 := exec (apba_compare_partition E m fw) w3) in *.
  rewrite !eval_bind, !exec_bind. cbv beta.
  change (eval (apba_mtd_erase m 0 (mtd_size m)) w4)
    with (_erase m 0 (mtd_size m mod 4294967296)).
  assert (H45 : adds is_erase_or_write
                  [EvMtdErase (mtd_name m) 0 (mtd_size m mod 4294967296)]
                  w4 (exec (apba_mtd_erase m 0 (mtd_size m)) w4))
    by apply (adds_emit is_erase_or_write
                (EvMtdErase (mtd_name m) 0 (mtd_size m mod 4294967296)) w4).
  set (w5 := exec (apba_mtd_erase m 0 (mtd_size m)) w4) in *.
  assert (H05 : adds is_erase_or_write
                  [EvMtdErase (mtd_name m) 0 (mtd_size m mod 4294967296)]
                  w w5).
  { apply (adds_trans _ [] [_] w w2); [exact H12|].
    apply (adds_trans _ [] [_] w2 w3); [exact H23|].
    apply (adds_trans _ [] [_] w3 w4); [exact H34 | exact H45]. }
  split; intros Herr.
  - replace (_erase m 0 (mtd_size m mod 4294967296) <? 0) with true
      by (symmetry; apply Z.ltb_lt; exact Herr).
    split; [apply eval_cleanup|].
    apply (adds_trans _ [_] [] w w5); [exact H05|].
    apply adds_no_erase, cleanup_no_erase.
  - replace (_erase m 0 (mtd_size m mod 4294967296) <? 0) with false
      by (symmetry; apply Z.ltb_ge; exact Herr).
    rewrite !eval_bind, !exec_bind. cbv beta.
    split; [apply eval_cleanup|].
    apply (adds_trans _ [_] [_] w w5); [exact H05|].
    apply (adds_trans _ [_] [] w5
             (exec (emit (EvMtdWrite (mtd_name m) 0 (cb_len fw) (cb_bytes fw)))
                w5)).
    + apply (adds_emit is_erase_or_write
               (EvMtdWrite (mtd_name m) 0 (cb_len fw) (cb_bytes fw)) w5).
    + apply adds_no_erase, cleanup_no_erase.
Qed.

(** X3: when the partition resolves and the compare step does not report
    "equal", apba_flash_partition erases the partition from offset 0 over
    its size (cut to 32 bits) and only then writes the whole image at
    offset 0, returning the result of the write; if the erase fails
    nothing is written and the error of the erase is returned. *)
Theorem apba_flash_partition_erases_then_writes
  (w : world) (partition : string) (fw : cbuf) (m : mtd_info) :
  eval (apba_init_mtd_module E partition) w = Some m ->
  eval (apba_compare_partition E m fw) w <> 0 ->
  let r := apba_flash_partition H E true partition (Some fw) w in
  let e_erase := EvMtdErase (mtd_name m) 0 (mtd_size m mod 4294967296) in
  let e_write := EvMtdWrite (mtd_name m) 0 (cb_len fw) (cb_bytes fw) in
  let err := _erase m 0 (mtd_size m mod 4294967296) in
  (err < 0 ->
   fst r = err /\ adds is_erase_or_write [e_erase] w (snd r))
  /\ (0 <= err ->
      fst r = _write m 0 (cb_len fw) (cb_bytes fw)
      /\ adds is_erase_or_write [e_erase; e_write] w (snd r)).
Proof. apply flash_partition_not_equal_run. Qed.


End PartitionResults.

(** ** Enabling and disabling the controller *)

Section Power.

Variable H : headers.

Lemma apba_seq_body_run (s : apba_seq_t) (i : Z) (w : world) :
  exists evs,
    forallb is_seq_event evs = true
    /\ apba_seq_body H s i w = (tt, with_trace (trace w ++ evs) w).
Proof.
  unfold apba_seq_body, array_read, bind, gets, when.
  cbn [fst snd].
  repeat match goal with
         | |- context [if ?c then _ else _] => destruct c eqn:?
         end;
    unfold emit, modify, ret, with_trace;
    cbn [fst snd trace ctrl g_ctrl apba_log_fifo uart_baud];
    rewrite <- ?app_assoc; cbn [app];
    (eexists; split; [|reflexivity]; reflexivity)
    || (exists []; split; [reflexivity|];
        rewrite app_nil_r; destruct w; reflexivity).
Qed.

Lemma apba_seq_loop_run (fuel : nat) (s : apba_seq_t) :
  forall (i : Z) (w : world),
  exists evs,
    forallb is_seq_event evs = true
    /\ apba_seq_loop H fuel s i w = (tt, with_trace (trace w ++ evs) w).
Proof.
  induction fuel as [|fuel IH]; intros i w; cbn [apba_seq_loop].
  - exists []. rewrite app_nil_r, with_trace_same. split; reflexivity.
  - destruct (i <? len s).
    + unfold bind.
      destruct (apba_seq_body_run s i w) as (evs1 & Hp1 & Hrun1).
      rewrite Hrun1. cbn [fst snd].
      destruct (IH (i + 3) (with_trace (trace w ++ evs1) w))
        as (evs2 & Hp2 & Hrun2).
      rewrite Hrun2. exists (evs1 ++ evs2). split.
      * rewrite forallb_app, Hp1, Hp2. reflexivity.
      * cbn [trace with_trace]. rewrite with_trace_twice, app_assoc.
        reflexivity.
    + exists []. rewrite app_nil_r, with_trace_same. split; reflexivity.
Qed.

(** Running a sequence only adds GPIO writes, sleeps and (for a
    malformed table) out-of-bounds marks to the trace. *)
Lemma apba_seq_run (s : apba_seq_t) (w : world) :
  exists evs,
    forallb is_seq_event evs = true
    /\ apba_seq H s w = (tt, with_trace (trace w ++ evs) w).
Proof. apply apba_seq_loop_run. Qed.

Lemma apba_on_run (on : bool) (w : world) :
  exists evs,
    forallb is_seq_event evs = true
    /\ apba_on H on w
       = (tt,
          if on then
            with_trace
              (trace w
               ++ EvBusVote true
                  :: uart_calls (mods_uart (ctrl w)) [EvUartOpen]
                  ++ evs
                  ++ uart_calls (mods_uart (ctrl w)) [EvUartPmOn true]) w
          else
            with_trace
              (trace w
               ++ EvBusVote false
                  :: evs
                  ++ uart_calls (mods_uart (ctrl w))
                       [EvUartPmOn false; EvUartClose])
              (with_ctrl (set_mode 0 (ctrl w)) w)).
Proof.
  unfold apba_on, bind, gets. cbn [fst snd]. destruct on.
  - change (ctrl (snd (emit (EvBusVote true) w))) with (ctrl w).
    destruct (mods_uart (ctrl w)) eqn:Hu; cbn [when uart_calls].
    + match goal with
      | |- context [apba_seq H ?s ?w0] =>
          destruct (apba_seq_run s w0) as (evs & Hp & Hrun)
      end.
      exists evs. split; [exact Hp|]. rewrite Hrun. cbn [fst snd].
      unfold emit, modify, ret, with_trace.
      cbn [fst snd trace ctrl g_ctrl apba_log_fifo uart_baud].
      rewrite <- !app_assoc. reflexivity.
    + match goal with
      | |- context [apba_seq H ?s ?w0] =>
          destruct (apba_seq_run s w0) as (evs & Hp & Hrun)
      end.
      exists evs. split; [exact Hp|]. rewrite Hrun. cbn [fst snd].
      unfold emit, modify, ret, with_trace.
      cbn [fst snd trace ctrl g_ctrl apba_log_fifo uart_baud app].
      rewrite app_nil_r, <- !app_assoc. reflexivity.
  - change (ctrl (snd (upd_ctrl (set_mode 0) (snd (emit (EvBusVote false) w)))))
      with (set_mode 0 (ctrl w)).
    change (mods_uart (set_mode 0 (ctrl w))) with (mods_uart (ctrl w)).
    destruct (mods_uart (ctrl w)) eqn:Hu; cbn [when uart_calls].
    + match goal with
      | |- context [apba_seq H ?s ?w0] =>
          destruct (apba_seq_run s w0) as (evs & Hp & Hrun)
      end.
      exists evs. split; [exact Hp|]. rewrite Hrun. cbn [fst snd].
      unfold bind, upd_ctrl, emit, modify, ret, with_trace, with_ctrl.
      cbn [fst snd trace ctrl g_ctrl apba_log_fifo uart_baud].
      rewrite <- !app_assoc. reflexivity.
    + match goal with
      | |- context [apba_seq H ?s ?w0] =>
          destruct (apba_seq_run s w0) as (evs & Hp & Hrun)
      end.
      exists evs. split; [exact Hp|]. rewrite Hrun. cbn [fst snd].
      unfold bind, upd_ctrl, emit, modify, ret, with_trace, with_ctrl.
      cbn [fst snd trace ctrl g_ctrl apba_log_fifo uart_baud app].
      rewrite app_nil_r, <- !app_assoc. reflexivity.
Qed.

End Power.

Lemma forallb_weaken {A} (P Q : A -> bool) (l : list A) :
  (forall a, P a = true -> Q a = true) ->
  forallb P l = true -> forallb Q l = true.
Proof.
  intros HPQ. induction l as [|a l IH]; [reflexivity|].
  cbn [forallb]. intros Hl. apply andb_true_iff in Hl. destruct Hl as [Ha Hl].
  rewrite (HPQ a Ha), (IH Hl). reflexivity.
Qed.

Lemma filter_seq_events (Q : event -> bool) (evs : list event) :
  (forall e, is_seq_event e = true -> Q e = false) ->
  forallb is_seq_event evs = true -> filter Q evs = [].
Proof.
  intros HQ Hp. apply filter_none.
  apply (forallb_weaken is_seq_event); [|exact Hp].
  intros e He. rewrite (HQ e He). reflexivity.
Qed.

Lemma power_of_after_vote (pre rest : list event) (on : bool) :
  forallb no_bus_vote rest = true ->
  power_of (pre ++ EvBusVote on :: rest) = Some on.
Proof.
  intros Hrest. unfold power_of. rewrite fold_left_app. cbn [fold_left].
  apply (fold_left_unchanged _ no_bus_vote); [|exact Hrest].
  intros a [] Hb; try reflexivity; discriminate.
Qed.

Section EnableDisable.

Variable H : headers.
Variable E : env.

Lemma apba_enable_run (w : world) :
  g_ctrl w = true ->
  clk_prepare_enable E = 0 ->
  exists evs,
    forallb is_seq_event evs = true
    /\ apba_enable H E w
       = (0,
          with_trace
            (trace w
             ++ EvClkPrepareEnable :: EvBusVote true
                :: uart_calls (mods_uart (ctrl w)) [EvUartOpen]
                ++ evs
                ++ uart_calls (mods_uart (ctrl w)) [EvUartPmOn true])
            (with_ctrl (set_desired_on 1 (ctrl w)) w)).
Proof.
  intros Hg Hclk. unfold apba_enable, bind, gets. cbn [fst snd].
  rewrite Hg, Hclk. cbn [negb Z.eqb].
  match goal with
  | |- context [apba_on H true ?w0] =>
      destruct (apba_on_run H true w0) as (evs & Hp & Hrun)
  end.
  exists evs. split; [exact Hp|]. rewrite Hrun. cbn [fst snd ret].
  unfold upd_ctrl, emit, modify, with_trace, with_ctrl.
  cbn [fst snd trace ctrl g_ctrl apba_log_fifo uart_baud mods_uart
       set_desired_on].
  rewrite <- !app_assoc. reflexivity.
Qed.

Lemma apba_disable_run (w : world) :
  g_ctrl w = true ->
  desired_on (ctrl w) <> 0 ->
  exists evs,
    forallb is_seq_event evs = true
    /\ apba_disable H w
       = (tt,
          with_trace
            (trace w
             ++ EvSlaveCtrlPower (master_intf (ctrl w))
                  (MB_CONTROL_SLAVE_POWER_OFF H) (MB_CONTROL_SLAVE_MASK_APBE H)
                :: uart_calls (mods_uart (ctrl w)) [EvModAttach 0]
                ++ EvClkDisableUnprepare :: EvBusVote false
                :: evs
                ++ uart_calls (mods_uart (ctrl w))
                     [EvUartPmOn false; EvUartClose])
            (with_ctrl (set_mode 0 (set_desired_on 0 (ctrl w))) w)).
Proof.
  intros Hg Hd. apply Z.eqb_neq in Hd.
  unfold apba_disable, bind, gets. cbn [fst snd].
  rewrite Hg, Hd. cbn [negb orb].
  match goal with
  | |- context [apba_on H false ?w0] =>
      destruct (apba_on_run H false w0) as (evs & Hp & Hrun)
  end.
  exists evs. split; [exact Hp|]. rewrite Hrun. cbn [fst snd].
  unfold uart_calls, when, upd_ctrl, emit, modify, ret, with_trace, with_ctrl.
  destruct (mods_uart (ctrl w)) eqn:Hu;
    cbn [fst snd trace ctrl g_ctrl apba_log_fifo uart_baud mods_uart
         set_desired_on set_mode];
    rewrite ?Hu; rewrite <- ?app_assoc; cbn [app]; reflexivity.
Qed.



Lemma filter_clk_uart_calls (u : bool) (calls : list event) :
  forallb (fun e => negb (is_clk_event e)) calls = true ->
  filter is_clk_event (uart_calls u calls) = [].
Proof. intros Hc. destruct u; [apply filter_none, Hc | reflexivity]. Qed.

Lemma seq_events_no_bus_vote (evs : list event) :
  forallb is_seq_event evs = true -> forallb no_bus_vote evs = true.
Proof.
  apply forallb_weaken. intros [] He; try reflexivity; discriminate.
Qed.

Lemma seq_events_no_clk (evs : list event) :
  forallb is_seq_event evs = true -> filter is_clk_event evs = [].
Proof.
  apply filter_seq_events. intros [] He; try reflexivity; discriminate.
Qed.

(** X7: apba_enable followed by apba_disable leaves the controller off
    with desired-on clear and the clock started once and stopped once.
    apba_enable has no guard like the one of apba_disable: called twice
    it starts the clock twice, and the one apba_disable that follows
    stops it once. *)
Theorem apba_enable_then_disable (w : world) :
  g_ctrl w = true ->
  clk_prepare_enable E = 0 ->
  let w1 := exec (apba_enable H E) w in
  let w2 := exec (apba_disable H) w1 in
  let w2' := exec (apba_disable H) (exec (apba_enable H E) w1) in
  (desired_on (ctrl w2) = 0
   /\ power_state w2 = Some false
   /\ adds is_clk_event [EvClkPrepareEnable; EvClkDisableUnprepare] w w2)
  /\ (desired_on (ctrl w2') = 0
      /\ power_state w2' = Some false
      /\ adds is_clk_event
           [EvClkPrepareEnable; EvClkPrepareEnable; EvClkDisableUnprepare]
           w w2').
Proof.
  intros Hg Hclk. cbv zeta. unfold exec.
  destruct (apba_enable_run w Hg Hclk) as (evs1 & Hp1 & Hrun1).
  rewrite Hrun1. cbn [snd].
  set (w1 := with_trace _ (with_ctrl (set_desired_on 1 (ctrl w)) w)) in *.
  assert (Hg1 : g_ctrl w1 = true) by exact Hg.
  assert (Hd1 : desired_on (ctrl w1) <> 0) by (cbn; discriminate).
  split.
  - destruct (apba_disable_run w1 Hg1 Hd1) as (evs2 & Hp2 & Hrun2).
    rewrite Hrun2. cbn [snd].
    split; [reflexivity|]. split.
    + unfold power_state. cbn [trace with_trace].
      match goal with
      | |- power_of (?A ++ ?x :: ?U ++ ?c :: EvBusVote false :: ?R) = _ =>
          replace (A ++ x :: U ++ c :: EvBusVote false :: R)
            with ((A ++ x :: U ++ [c]) ++ EvBusVote false :: R)
            by (rewrite <- app_assoc; cbn [app]; rewrite <- app_assoc;
                reflexivity)
      end.
      apply power_of_after_vote. rewrite forallb_app.
      rewrite (seq_events_no_bus_vote _ Hp2).
      unfold uart_calls. destruct (mods_uart (ctrl w1)); reflexivity.
    + eexists. split.
      * cbn [trace with_trace]. subst w1. cbn [trace with_trace].
        rewrite <- app_assoc. reflexivity.
      * repeat first [rewrite filter_app | progress cbn [filter is_clk_event]].
        rewrite (seq_events_no_clk _ Hp1), (seq_events_no_clk _ Hp2).
        rewrite !filter_clk_uart_calls by reflexivity. reflexivity.
  - destruct (apba_enable_run w1 Hg1 Hclk) as (evs2 & Hp2 & Hrun2).
    rewrite Hrun2. cbn [snd].
    set (w1' := with_trace _ (with_ctrl (set_desired_on 1 (ctrl w1)) w1)) in *.
    assert (Hg1' : g_ctrl w1' = true) by exact Hg.
    assert (Hd1' : desired_on (ctrl w1') <> 0) by (cbn; discriminate).
    destruct (apba_disable_run w1' Hg1' Hd1') as (evs3 & Hp3 & Hrun3).
    rewrite Hrun3. cbn [snd].
    split; [reflexivity|]. split.
    + unfold power_state. cbn [trace with_trace].
      match goal with
      | |- power_of (?A ++ ?x :: ?U ++ ?c :: EvBusVote false :: ?R) = _ =>
          replace (A ++ x :: U ++ c :: EvBusVote false :: R)
            with ((A ++ x :: U ++ [c]) ++ EvBusVote false :: R)
            by (rewrite <- app_assoc; cbn [app]; rewrite <- app_assoc;
                reflexivity)
      end.
      apply power_of_after_vote. rewrite forallb_app.
      rewrite (seq_events_no_bus_vote _ Hp3).
      unfold uart_calls. destruct (mods_uart (ctrl w1')); reflexivity.
    + eexists. split.
      * cbn [trace with_trace]. subst w1' w1. cbn [trace with_trace].
        rewrite <- !app_assoc. reflexivity.
      * repeat first [rewrite filter_app | progress cbn [filter is_clk_event]].
        rewrite (seq_events_no_clk _ Hp1), (seq_events_no_clk _ Hp2),
          (seq_events_no_clk _ Hp3).
        rewrite !filter_clk_uart_calls by reflexivity. reflexivity.
Qed.

End EnableDisable.

(** ** More on requests and their acknowledgements *)

Lemma handled_types_distinct_replies (H : headers) :
  NoDup (handled_types H) ->
  ((APBA_CTRL_LOG_REQUEST H =? APBA_CTRL_INT_REASON H) = false
   /\ (APBA_CTRL_LOG_REQUEST H =? APBA_CTRL_PM_WAKE_ACK H) = false
   /\ (APBA_CTRL_LOG_REQUEST H =? APBA_CTRL_PM_SLEEP_ACK H) = false
   /\ (APBA_CTRL_LOG_REQUEST H =? APBA_CTRL_PM_SLEEP_IND H) = false
   /\ (APBA_CTRL_LOG_REQUEST H =? APBA_CTRL_LOG_IND H) = false)
  /\ ((APBA_CTRL_MODE_REQUEST H =? APBA_CTRL_INT_REASON H) = false
      /\ (APBA_CTRL_MODE_REQUEST H =? APBA_CTRL_PM_WAKE_ACK H) = false
      /\ (APBA_CTRL_MODE_REQUEST H =? APBA_CTRL_PM_SLEEP_ACK H) = false
      /\ (APBA_CTRL_MODE_REQUEST H =? APBA_CTRL_PM_SLEEP_IND H) = false
      /\ (APBA_CTRL_MODE_REQUEST H =? APBA_CTRL_LOG_IND H) = false
      /\ (APBA_CTRL_MODE_REQUEST H =? APBA_CTRL_LOG_REQUEST H) = false
      /\ (APBA_CTRL_MODE_REQUEST H =? APBA_CTRL_BAUD_ACK H) = false).
Proof.
  unfold handled_types. intros Hnd.
  repeat match goal with
         | Hn : NoDup (_ :: _) |- _ =>
             let Hin := fresh "Hin" in
             let Hrest := fresh "Hrest" in
             apply NoDup_cons_iff in Hn; destruct Hn as [Hin Hrest];
             cbn [In] in Hin
         end.
  repeat split; apply Z.eqb_neq; intros Heq; rewrite ?Heq in *; tauto.
Qed.

Section RequestsMore.

Variable H : headers.
Variable E : env.

Section HandlerEvents.

Variable P : event -> bool.
Hypothesis P_handler : forall e, is_handler_event e = true -> P e = true.

Ltac handler_step :=
  match goal with
  | |- keeps _ (ret _) => apply keeps_ret
  | |- keeps _ (gets _) => apply keeps_gets
  | |- keeps _ (emit _) => apply keeps_emit, P_handler; reflexivity
  | |- keeps _ (bind _ _) => apply keeps_bind; [|intros ?]
  | |- keeps _ (when _ _) => apply keeps_when
  | |- keeps _ (upd_ctrl _) => apply keeps_upd_ctrl; intros ?; reflexivity
  | |- keeps _ (modify (with_fifo _)) => apply keeps_with_fifo
  | |- keeps _ (modify (with_baud _)) => apply keeps_with_baud
  | |- keeps _ (touch _ _ _ _) =>
      apply keeps_touch; intros ? ?; apply P_handler; reflexivity
  | |- keeps _ (if ?c then _ else _) => destruct c
  end.

(** An inbound message makes the driver call nothing but slave power,
    msleep, the attach work, transport power management and baud
    update. *)
Lemma apba_handle_message_keeps (b : cbuf) :
  keeps P (apba_handle_message H E b).
Proof.
  unfold apba_handle_message, log_ind, baud_ack, apba_action_on_int_reason,
    apba_notify_abpe_attach, complete.
  cbv zeta. repeat handler_step.
Qed.

Lemma wait_loop_keeps (id : completion_id) (arrivals : list cbuf) :
  keeps P (wait_loop H E id arrivals).
Proof.
  induction arrivals as [|b rest IH]; cbn [wait_loop].
  - repeat handler_step.
  - apply keeps_bind; [apply keeps_gets|]. intros c.
    destruct (0 <? done id c); [repeat handler_step|].
    apply keeps_bind; [apply apba_handle_message_keeps|].
    intros _. exact IH.
Qed.

End HandlerEvents.

(** A reply to a log or mode request does nothing but wake the
    completion. *)
Lemma apba_handle_message_reply (id : completion_id) (b : cbuf) (w : world) :
  NoDup (handled_types H) ->
  id <> BAUD_COMP ->
  g_ctrl w = true ->
  signals H id b = true ->
  apba_handle_message H E b w = complete id w.
Proof.
  intros Hnd Hid Hg Hs.
  destruct (handled_types_distinct_replies H Hnd)
    as ((L1 & L2 & L3 & L4 & L5) & (M1 & M2 & M3 & M4 & M5 & M6 & M7)).
  unfold signals in Hs. apply andb_true_iff in Hs. destruct Hs as [Hlen Ht].
  apply Z.leb_le in Hlen. apply Z.eqb_eq in Ht.
  unfold apba_handle_message, bind, gets. cbn [fst snd].
  rewrite Hg. cbn [negb].
  replace (cb_len b <? sizeof_hdr) with false
    by (symmetry; apply Z.ltb_ge; exact Hlen).
  rewrite Ht. destruct id; [|contradiction|]; cbn [completion_type].
  - rewrite L1, L2, L3, L4, L5, Z.eqb_refl. reflexivity.
  - rewrite M1, M2, M3, M4, M5, M6, M7, Z.eqb_refl. reflexivity.
Qed.

Lemma handle_all_app (msgs1 msgs2 : list cbuf) (w : world) :
  handle_all H E (msgs1 ++ msgs2) w
  = handle_all H E msgs2 (handle_all H E msgs1 w).
Proof. apply fold_left_app. Qed.

Lemma handle_all_quiet (id : completion_id) (msgs : list cbuf) :
  forall w,
    forallb (fun b => negb (signals H id b)) msgs = true ->
    done id (ctrl (handle_all H E msgs w)) = done id (ctrl w)
    /\ g_ctrl (handle_all H E msgs w) = g_ctrl w.
Proof.
  induction msgs as [|b rest IH]; intros w Hall; [split; reflexivity|].
  cbn [forallb] in Hall. apply andb_true_iff in Hall.
  destruct Hall as [Hb Hrest]. apply negb_true_iff in Hb.
  cbn [handle_all fold_left].
  fold (handle_all H E rest (exec (apba_handle_message H E b) w)).
  destruct (IH (exec (apba_handle_message H E b) w) Hrest) as [Hd Hg].
  rewrite Hd, Hg. split.
  - apply (apba_handle_message_done H E id b Hb w).
  - destruct (apba_handle_message_follows H E b w) as (_ & Hg' & _).
    exact Hg'.
Qed.

Lemma wait_loop_step (id : completion_id) (b : cbuf) (rest : list cbuf)
  (w : world) :
  done id (ctrl w) = 0 ->
  wait_loop H E id (b :: rest) w
  = wait_loop H E id rest (exec (apba_handle_message H E b) w).
Proof.
  intros Hd. cbn [wait_loop]. unfold bind at 1, gets. cbn [fst snd].
  rewrite Hd. reflexivity.
Qed.

Lemma done_after_complete (id : completion_id) (w : world) :
  done id (ctrl (exec (complete id) w)) = done id (ctrl w) + 1.
Proof. destruct id; reflexivity. Qed.

(** The wait when the reply is among the arrivals: the messages up to
    and including the reply are handled, the wake-up is consumed, and
    what arrives later is left for later. *)
Lemma wait_loop_signaled (id : completion_id) (pre post : list cbuf)
  (b : cbuf) :
  NoDup (handled_types H) ->
  id <> BAUD_COMP ->
  forall w,
    g_ctrl w = true ->
    done id (ctrl w) = 0 ->
    forallb (fun m => negb (signals H id m)) pre = true ->
    signals H id b = true ->
    wait_loop H E id (pre ++ b :: post) w
    = (1, with_ctrl (set_done id 0 (ctrl (handle_all H E (pre ++ [b]) w)))
            (handle_all H E (pre ++ [b]) w)).
Proof.
  intros Hnd Hid. induction pre as [|m pre IH]; intros w Hg Hd Hpre Hb.
  - cbn [app handle_all fold_left].
    rewrite (wait_loop_step id b post w Hd).
    assert (Hone : done id (ctrl (exec (apba_handle_message H E b) w)) = 1).
    { unfold exec. rewrite (apba_handle_message_reply id b w Hnd Hid Hg Hb).
      fold (exec (complete id) w). rewrite done_after_complete, Hd.
      reflexivity. }
    rewrite wait_loop_pending by (rewrite Hone; lia).
    rewrite Hone. reflexivity.
  - cbn [forallb] in Hpre. apply andb_true_iff in Hpre.
    destruct Hpre as [Hm Hpre]. apply negb_true_iff in Hm.
    cbn [app]. rewrite (wait_loop_step id m _ w Hd).
    rewrite IH.
    + reflexivity.
    + destruct (apba_handle_message_follows H E m w) as (_ & Hg' & _).
      rewrite Hg'. exact Hg.
    + rewrite (apba_handle_message_done H E id m Hm w). exact Hd.
    + exact Hpre.
    + exact Hb.
Qed.

Lemma mode_store_acknowledged_run (w : world) (buf : string) (count : Z)
  (pre post : list cbuf) (b : cbuf) (v : Z) :
  NoDup (handled_types H) ->
  g_ctrl w = true ->
  mods_uart (ctrl w) = true ->
  kstrtoul E buf = Some v ->
  mods_uart_apba_send E (mode_req_bytes H v) = 0 ->
  mode_comp (ctrl w) = 0 ->
  forallb (fun m => negb (signals H MODE_COMP m)) pre = true ->
  signals H MODE_COMP b = true ->
  let w0 := with_trace
              (trace w ++ [EvUartSend (mode_req_bytes H v);
                           EvWait MODE_COMP 1000]) w in
  let w1 := handle_all H E (pre ++ [b]) w0 in
  apba_mode_store H E buf count (pre ++ b :: post) w
  = (count,
     with_ctrl (set_mode (v mod 256) (set_done MODE_COMP 0 (ctrl w1))) w1).
Proof.
  intros Hnd Hg Hu Hk Hsend Hd Hpre Hb. cbv zeta.
  unfold mode_req_bytes in *.
  unfold apba_mode_store, bind, gets. cbn [fst snd].
  rewrite Hg, Hu, Hk. cbn [negb orb]. rewrite Hsend. cbn [Z.eqb negb].
  unfold wait_for_completion_timeout, bind. cbn [fst snd].
  match goal with
  | |- context [wait_loop H E MODE_COMP (pre ++ b :: post) ?w0] =>
      rewrite (wait_loop_signaled MODE_COMP pre post b Hnd
                 ltac:(discriminate) w0 Hg Hd Hpre Hb);
      replace w0
        with (with_trace
                (trace w
                 ++ [EvUartSend
                       (cpu_to_le16 (APBA_CTRL_MODE_REQUEST H)
                        ++ cpu_to_le16 1 ++ [wrap_u8 v]);
                     EvWait MODE_COMP 1000]) w)
        by (unfold emit, modify, with_trace;
            cbn [fst snd trace ctrl g_ctrl apba_log_fifo uart_baud];
            rewrite <- app_assoc; reflexivity)
  end.
  reflexivity.
Qed.

(** X8: a mode request whose echo is among the messages arriving during
    the wait returns the byte count and stores the requested mode, cut
    to 8 bits; the messages up to the echo have been handled, the
    wake-up is consumed, and later arrivals are not touched. *)
Theorem apba_mode_store_acknowledged (w : world) (buf : string) (count : Z)
  (pre post : list cbuf) (b : cbuf) (v : Z) :
  NoDup (handled_types H) ->
  g_ctrl w = true ->
  mods_uart (ctrl w) = true ->
  kstrtoul E buf = Some v ->
  mods_uart_apba_send E (mode_req_bytes H v) = 0 ->
  mode_comp (ctrl w) = 0 ->
  forallb (fun m => negb (signals H MODE_COMP m)) pre = true ->
  signals H MODE_COMP b = true ->
  let w0 := with_trace
              (trace w ++ [EvUartSend (mode_req_bytes H v);
                           EvWait MODE_COMP 1000]) w in
  let w1 := handle_all H E (pre ++ [b]) w0 in
  apba_mode_store H E buf count (pre ++ b :: post) w
  = (count,
     with_ctrl (set_mode (v mod 256) (set_done MODE_COMP 0 (ctrl w1))) w1).
Proof. apply mode_store_acknowledged_run. Qed.

(** X9: the completion is never re-armed.  After a mode request has
    timed out, a reply that arrives late stays pending, and the next
    mode request then succeeds at once: it stores its mode and returns
    the byte count although no reply to it arrived, and it handles none
    of the messages arriving during its wait. *)
Theorem late_reply_completes_next_mode_request
  (w : world) (buf1 buf2 : string) (count1 count2 v1 v2 : Z)
  (late : cbuf) (arrivals : list cbuf) :
  NoDup (handled_types H) ->
  g_ctrl w = true ->
  mods_uart (ctrl w) = true ->
  kstrtoul E buf1 = Some v1 ->
  kstrtoul E buf2 = Some v2 ->
  (forall msg, mods_uart_apba_send E msg = 0) ->
  mode_comp (ctrl w) = 0 ->
  signals H MODE_COMP late = true ->
  let r1 := apba_mode_store H E buf1 count1 [] w in
  let w1 := exec (apba_handle_message H E late) (snd r1) in
  let r2 := apba_mode_store H E buf2 count2 arrivals w1 in
  mode (ctrl (snd r1)) = mode (ctrl w)
  /\ mode_comp (ctrl w1) = 1
  /\ fst r2 = count2
  /\ mode (ctrl (snd r2)) = v2 mod 256
  /\ mode_comp (ctrl (snd r2)) = 0
  /\ trace (snd r2)
     = trace w1 ++ [EvUartSend (mode_req_bytes H v2); EvWait MODE_COMP 1000].
Proof.
  intros Hnd Hg Hu Hk1 Hk2 Hsend Hd Hlate. cbv zeta.
  assert (Hr1 : apba_mode_store H E buf1 count1 [] w
                = (count1,
                   with_trace
                     (trace w ++ [EvUartSend (mode_req_bytes H v1);
                                  EvWait MODE_COMP 1000]) w)).
  { unfold apba_mode_store, bind, gets. cbn [fst snd].
    rewrite Hg, Hu, Hk1. cbn [negb orb]. rewrite Hsend. cbn [Z.eqb negb].
    unfold wait_for_completion_timeout, bind. cbn [fst snd wait_loop].
    unfold bind, gets. cbn [fst snd done ctrl emit modify with_trace].
    rewrite Hd. cbn [Z.ltb Z.compare ret fst snd Z.eqb].
    unfold mode_req_bytes, ret, with_trace.
    cbn [trace ctrl g_ctrl apba_log_fifo uart_baud].
    rewrite <- app_assoc. reflexivity. }
  rewrite Hr1. cbn [fst snd].
  set (w0 := with_trace _ w) in *.
  assert (Hw1 : exec (apba_handle_message H E late) w0
                = exec (complete MODE_COMP) w0).
  { unfold exec.
    rewrite (apba_handle_message_reply MODE_COMP late w0 Hnd
               ltac:(discriminate) Hg Hlate).
    reflexivity. }
  rewrite Hw1. set (w1 := exec (complete MODE_COMP) w0) in *.
  assert (Hd1 : mode_comp (ctrl w1) = 1)
    by (subst w1 w0; cbn; rewrite Hd; reflexivity).
  split; [reflexivity|]. split; [exact Hd1|].
  assert (Hr2 : apba_mode_store H E buf2 count2 arrivals w1
                = (count2,
                   with_ctrl
                     (set_mode (v2 mod 256) (set_done MODE_COMP 0 (ctrl w1)))
                     (with_trace
                        (trace w1 ++ [EvUartSend (mode_req_bytes H v2);
                                      EvWait MODE_COMP 1000]) w1))).
  { unfold apba_mode_store, bind, gets. cbn [fst snd].
    change (g_ctrl w1) with (g_ctrl w).
    change (mods_uart (ctrl w1)) with (mods_uart (ctrl w)).
    rewrite Hg, Hu, Hk2. cbn [negb orb]. rewrite Hsend. cbn [Z.eqb negb].
    unfold wait_for_completion_timeout, bind. cbn [fst snd].
    rewrite wait_loop_pending
      by (cbn [done ctrl emit modify with_trace snd]; rewrite Hd1; lia).
    cbn [fst snd Z.eqb]. unfold upd_ctrl, emit, modify, ret, with_ctrl,
      with_trace.
    cbn [fst snd trace ctrl g_ctrl apba_log_fifo uart_baud done].
    rewrite Hd1. unfold mode_req_bytes, wrap_u8.
    rewrite <- app_assoc. reflexivity. }
  rewrite Hr2. cbn [fst snd]. repeat split; reflexivity.
Qed.

(** X10: apba_baud_store never leaves the transmit path locked.  When
    the request was sent it locks the path once and unlocks it once,
    whether the acknowledgement arrives or the wait times out, and
    whatever is received meanwhile; when nothing was sent it does not
    touch the lock. *)
Theorem apba_baud_store_releases_tx_lock
  (w : world) (buf : string) (count : Z) (arrivals : list cbuf) :
  let sent :=
    g_ctrl w && mods_uart (ctrl w)
    && match kstrtoul E buf with
       | Some v => mods_uart_apba_send E (baud_req_bytes H v) =? 0
       | None => false
       end in
  adds is_lock_tx
    (if sent then [EvUartLockTx true; EvUartLockTx false] else []) w
    (snd (apba_baud_store H E buf count arrivals w)).
Proof.
  cbv zeta. unfold baud_req_bytes, apba_baud_store.
  unfold bind at 1 2, gets. cbn [fst snd].
  destruct (g_ctrl w); cbn [negb orb andb]; [|apply adds_refl].
  destruct (mods_uart (ctrl w)); cbn [negb orb andb]; [|apply adds_refl].
  destruct (kstrtoul E buf) as [v|]; [|apply adds_refl].
  unfold bind at 1.
  set (w1 := snd (emit (EvUartSend _) w)).
  assert (H01 : adds is_lock_tx [] w w1)
    by apply (adds_emit is_lock_tx (EvUartSend _) w).
  destruct (mods_uart_apba_send E _ =? 0); cbn [negb].
  2:{ exact H01. }
  unfold bind at 1.
  set (w2 := snd (emit (EvUartLockTx true) w1)).
  assert (H12 : adds is_lock_tx [EvUartLockTx true] w1 w2)
    by apply (adds_emit is_lock_tx (EvUartLockTx true) w1).
  unfold bind at 1.
  assert (H23 : adds is_lock_tx [] w2
                  (snd (wait_for_completion_timeout H E BAUD_COMP
                          APBA_BAUD_REQ_TIMEOUT arrivals w2))).
  { apply adds_follows.
    apply (keeps_bind (fun e => negb (is_lock_tx e))).
    - apply keeps_emit. reflexivity.
    - intros _. apply wait_loop_keeps.
      intros [] He; try reflexivity; discriminate. }
  set (w3 := snd (wait_for_completion_timeout H E BAUD_COMP
                    APBA_BAUD_REQ_TIMEOUT arrivals w2)) in *.
  assert (H34 : adds is_lock_tx [EvUartLockTx false] w3
                  (snd (emit (EvUartLockTx false) w3)))
    by apply (adds_emit is_lock_tx (EvUartLockTx false) w3).
  assert (Hall : adds is_lock_tx [EvUartLockTx true; EvUartLockTx false] w
                   (snd (emit (EvUartLockTx false) w3))).
  { apply (adds_trans _ [] [_; _] w w1); [exact H01|].
    apply (adds_trans _ [_] [_] w1 w2); [exact H12|].
    apply (adds_trans _ [] [_] w2 w3); [exact H23 | exact H34]. }
  destruct (fst _ =? 0); unfold bind, ret; cbn [fst snd]; exact Hall.
Qed.

Lemma log_show_acknowledged_run (w : world) (pre post : list cbuf) (b : cbuf) :
  NoDup (handled_types H) ->
  g_ctrl w = true ->
  mods_uart_apba_send E (log_req_bytes H) = 0 ->
  comp (ctrl w) = 0 ->
  forallb (fun m => negb (signals H COMP m)) pre = true ->
  signals H COMP b = true ->
  let w0 := with_trace
              (trace w ++ [EvUartSend (log_req_bytes H);
                           EvWait COMP 1000]) w in
  let w1 := handle_all H E (pre ++ [b]) w0 in
  let f := apba_log_fifo w1 in
  let k := Z.to_nat (Z.min (PAGE_SIZE - 1) (kfifo_len f)) in
  apba_log_show H E (pre ++ b :: post) w
  = ((Z.of_nat k, firstn k f),
     with_fifo (skipn k f) (with_ctrl (set_done COMP 0 (ctrl w1)) w1)).
Proof.
  intros Hnd Hg Hsend Hd Hpre Hb. cbv zeta.
  unfold log_req_bytes in *.
  unfold apba_log_show, bind, gets. cbn [fst snd].
  rewrite Hg. cbn [negb]. rewrite Hsend. cbn [Z.eqb negb].
  unfold wait_for_completion_timeout, bind. cbn [fst snd].
  match goal with
  | |- context [wait_loop H E COMP (pre ++ b :: post) ?w0] =>
      rewrite (wait_loop_signaled COMP pre post b Hnd
                 ltac:(discriminate) w0 Hg Hd Hpre Hb);
      replace w0
        with (with_trace
                (trace w
                 ++ [EvUartSend
                       (cpu_to_le16 (APBA_CTRL_LOG_REQUEST H)
                        ++ cpu_to_le16 0);
                     EvWait COMP 1000]) w)
        by (unfold emit, modify, with_trace;
            cbn [fst snd trace ctrl g_ctrl apba_log_fifo uart_baud];
            rewrite <- app_assoc; reflexivity)
  end.
  cbn [fst snd Z.eqb]. unfold kfifo_out. rewrite MIN_is_min. reflexivity.
Qed.

(** X11: a log request that is acknowledged hands out the oldest bytes
    of the log fifo, in order and never more than PAGE_SIZE - 1 of them,
    returns their number, and leaves the rest in the fifo. *)
Theorem apba_log_show_drains_oldest
  (w : world) (pre post : list cbuf) (b : cbuf) :
  NoDup (handled_types H) ->
  g_ctrl w = true ->
  mods_uart_apba_send E (log_req_bytes H) = 0 ->
  comp (ctrl w) = 0 ->
  forallb (fun m => negb (signals H COMP m)) pre = true ->
  signals H COMP b = true ->
  let w0 := with_trace
              (trace w ++ [EvUartSend (log_req_bytes H);
                           EvWait COMP 1000]) w in
  let f := apba_log_fifo (handle_all H E (pre ++ [b]) w0) in
  let r := apba_log_show H E (pre ++ b :: post) w in
  fst (fst r) = Z.min 4095 (kfifo_len f)
  /\ snd (fst r) = firstn (Z.to_nat (fst (fst r))) f
  /\ apba_log_fifo (snd r) = skipn (Z.to_nat (fst (fst r))) f
  /\ snd (fst r) ++ apba_log_fifo (snd r) = f.
Proof.
  intros Hnd Hg Hsend Hd Hpre Hb. cbv zeta.
  rewrite (log_show_acknowledged_run w pre post b Hnd Hg Hsend Hd Hpre Hb).
  cbn [fst snd apba_log_fifo with_fifo].
  change (PAGE_SIZE - 1) with 4095.
  assert (Hk : Z.of_nat (Z.to_nat (Z.min 4095 (kfifo_len
                 (apba_log_fifo
                    (handle_all H E (pre ++ [b])
                       (with_trace
                          (trace w ++ [EvUartSend (log_req_bytes H);
                                       EvWait COMP 1000]) w))))))
               = Z.min 4095 (kfifo_len
                 (apba_log_fifo
                    (handle_all H E (pre ++ [b])
                       (with_trace
                          (trace w ++ [EvUartSend (log_req_bytes H);
                                       EvWait COMP 1000]) w)))))
    by (unfold kfifo_len; lia).
  rewrite Hk. repeat split; try reflexivity. apply firstn_skipn.
Qed.

Lemma le16_split (a : Z) : a mod 256 + 256 * (a / 256) = a.
Proof. pose proof (Z.div_mod a 256). lia. Qed.

Lemma le32_split (u : Z) :
  0 <= u < 4294967296 ->
  u mod 256 + 256 * ((u / 256) mod 256) + 65536 * ((u / 65536) mod 256)
  + 16777216 * (u / 16777216) = u.
Proof. intros Hu. Z.div_mod_to_equations. lia. Qed.

(** X12: the requests decode to what was encoded.  Read back with the
    accessors of the receive path, the bytes of a mode, baud or log
    request give the request's type (cut to 16 bits), the size of its
    payload, and the mode cut to 8 bits or the baud rate cut to 32 bits. *)
Theorem request_bytes_round_trip (v : Z) (beyond : nat -> Z) :
  let m := mkCbuf (mode_req_bytes H v) beyond in
  let b := mkCbuf (baud_req_bytes H v) beyond in
  let l := mkCbuf (log_req_bytes H) beyond in
  (cb_len m = sizeof_mode_req
   /\ hdr_type m = APBA_CTRL_MODE_REQUEST H mod 65536
   /\ hdr_size m = 1
   /\ cb_read m 4 = v mod 256)
  /\ (cb_len b = sizeof_baud_req
      /\ hdr_type b = APBA_CTRL_BAUD_REQUEST H mod 65536
      /\ hdr_size b = 4
      /\ le32_at b 4 = v mod 4294967296)
  /\ (cb_len l = sizeof_hdr
      /\ hdr_type l = APBA_CTRL_LOG_REQUEST H mod 65536
      /\ hdr_size l = 0).
Proof.
  cbv zeta.
  unfold mode_req_bytes, baud_req_bytes, log_req_bytes, hdr_type, hdr_size,
    le16_at, le32_at, cb_read, cb_len, cpu_to_le16, cpu_to_le32, wrap_u8,
    wrap_u16, wrap_u32.
  cbn [cb_bytes app nth_error length Nat.add].
  rewrite !le16_split.
  rewrite (le32_split (v mod 4294967296))
    by (apply Z.mod_pos_bound; lia).
  repeat split; reflexivity.
Qed.

(** X13: loop-back.  When the peer echoes the mode request that
    apba_mode_store has sent, the request completes: the byte count is
    returned and the mode, cut to 8 bits, is stored. *)
Theorem apba_mode_store_loopback
  (w : world) (buf : string) (count v : Z) (beyond : nat -> Z) :
  NoDup (handled_types H) ->
  0 <= APBA_CTRL_MODE_REQUEST H < 65536 ->
  g_ctrl w = true ->
  mods_uart (ctrl w) = true ->
  kstrtoul E buf = Some v ->
  mods_uart_apba_send E (mode_req_bytes H v) = 0 ->
  mode_comp (ctrl w) = 0 ->
  let r := apba_mode_store H E buf count
             [mkCbuf (mode_req_bytes H v) beyond] w in
  fst r = count
  /\ mode (ctrl (snd r)) = v mod 256
  /\ mode_comp (ctrl (snd r)) = 0
  /\ apba_log_fifo (snd r) = apba_log_fifo w
  /\ uart_baud (snd r) = uart_baud w.
Proof.
  intros Hnd Hty Hg Hu Hk Hsend Hd. cbv zeta.
  assert (Hsig : signals H MODE_COMP (mkCbuf (mode_req_bytes H v) beyond)
                 = true).
  { unfold signals. apply andb_true_iff. split.
    - reflexivity.
    - apply Z.eqb_eq. cbn [completion_type].
      unfold mode_req_bytes, hdr_type, le16_at, cb_read, cpu_to_le16,
        wrap_u16.
      cbn [cb_bytes app nth_error].
      rewrite le16_split. apply Z.mod_small. exact Hty. }
  pose proof (mode_store_acknowledged_run w buf count [] []
                (mkCbuf (mode_req_bytes H v) beyond) v
                Hnd Hg Hu Hk Hsend Hd eq_refl Hsig) as Hrun.
  cbv zeta in Hrun. cbn [app] in Hrun. rewrite Hrun.
  cbn [fst snd app handle_all fold_left].
  unfold exec.
  match goal with
  | |- context [apba_handle_message H E ?b ?w0] =>
      rewrite (apba_handle_message_reply MODE_COMP b w0 Hnd
                 ltac:(discriminate) Hg Hsig)
  end.
  repeat split; reflexivity.
Qed.

(** X14: whatever bytes come in, apba_handle_message changes nothing of
    the controller structure but the three completion counters (each by
    at most one wake-up), leaves the global pointer alone, and calls
    nothing but slave power control, msleep, the attach work, transport
    power management and baud update: no bus vote, no GPIO, no clock,
    no flash access. *)
Theorem apba_handle_message_frame (payload : cbuf) (w : world) :
  let w' := exec (apba_handle_message H E payload) w in
  set_done COMP (comp (ctrl w))
    (set_done BAUD_COMP (baud_comp (ctrl w))
       (set_done MODE_COMP (mode_comp (ctrl w)) (ctrl w'))) = ctrl w
  /\ g_ctrl w' = g_ctrl w
  /\ (comp (ctrl w) <= comp (ctrl w') <= comp (ctrl w) + 1
      /\ baud_comp (ctrl w) <= baud_comp (ctrl w') <= baud_comp (ctrl w) + 1
      /\ mode_comp (ctrl w) <= mode_comp (ctrl w') <= mode_comp (ctrl w) + 1)
  /\ exists evs,
       trace w' = trace w ++ evs /\ forallb is_handler_event evs = true.
Proof.
  cbv zeta. split; [|split; [|split]].
  - destruct w as [c g f b t]. destruct c.
    unfold exec, apba_handle_message, log_ind, baud_ack,
      apba_action_on_int_reason, apba_notify_abpe_attach, complete, upd_ctrl,
      touch, when, bind, gets.
    cbn [fst snd ctrl g_ctrl].
    repeat match goal with
           | |- context [if ?c then _ else _] => destruct c
           end; reflexivity.
  - destruct (apba_handle_message_follows H E payload w) as (_ & Hg & _).
    exact Hg.
  - destruct w as [c g f b t]. destruct c.
    unfold exec, apba_handle_message, log_ind, baud_ack,
      apba_action_on_int_reason, apba_notify_abpe_attach, complete, upd_ctrl,
      touch, when, bind, gets.
    cbn [fst snd ctrl g_ctrl].
    repeat match goal with
           | |- context [if ?c then _ else _] => destruct c
           end;
      cbn [fst snd ctrl comp baud_comp mode_comp emit modify ret with_trace
           with_ctrl with_fifo with_baud set_done done];
      lia.
  - destruct (apba_handle_message_keeps is_handler_event
                (fun e He => He) payload w) as (_ & _ & evs & Ht & Hp).
    exists evs. split; assumption.
Qed.

(** X15: the interrupt dispatcher and its message.  Without a controller
    or a registered master interface no reason has any effect.  With
    them, APBE_ON powers the companion chip on, APBE_CONNECTED queues the
    attach work with present = 1, APBE_DISCONNECTED powers the chip off
    and queues the attach work with present = 0; when the work item
    cannot be allocated the notification is dropped.  An INT_REASON
    message shorter than 6 bytes is ignored, a longer one dispatches the
    reason at offset 4. *)
Theorem int_reason_actions (w : world) :
  (g_ctrl w = false \/ master_intf (ctrl w) = 0 ->
   forall reason, apba_action_on_int_reason H E reason w = (tt, w))
  /\ (g_ctrl w = true -> master_intf (ctrl w) <> 0 ->
      let on := EvSlaveCtrlPower (master_intf (ctrl w))
                  (MB_CONTROL_SLAVE_POWER_ON H)
                  (MB_CONTROL_SLAVE_MASK_APBE H) in
      let off := EvSlaveCtrlPower (master_intf (ctrl w))
                   (MB_CONTROL_SLAVE_POWER_OFF H)
                   (MB_CONTROL_SLAVE_MASK_APBE H) in
      let attach p :=
        if kzalloc_attach_work E then [EvScheduleAttachWork p] else [] in
      apba_action_on_int_reason H E APBA_INT_APBE_ON w
      = (tt, with_trace (trace w ++ [on]) w)
      /\ apba_action_on_int_reason H E APBA_INT_APBE_CONNECTED w
         = (tt, with_trace (trace w ++ attach 1) w)
      /\ apba_action_on_int_reason H E APBA_INT_APBE_DISCONNECTED w
         = (tt, with_trace (trace w ++ off :: attach 0) w))
  /\ (forall payload,
         g_ctrl w = true ->
         sizeof_hdr <= cb_len payload ->
         hdr_type payload = APBA_CTRL_INT_REASON H ->
         apba_handle_message H E payload w
         = if cb_len payload <? sizeof_int_reason_resp then (tt, w)
           else apba_action_on_int_reason H E (le16_at payload 4) w).
Proof.
  split; [|split].
  - intros Hoff reason. unfold apba_action_on_int_reason, bind, gets.
    cbn [fst snd]. destruct Hoff as [Hg | Hm].
    + rewrite Hg. reflexivity.
    + rewrite Hm. cbn [Z.eqb]. rewrite orb_true_r. reflexivity.
  - intros Hg Hm. cbv zeta. apply Z.eqb_neq in Hm.
    unfold apba_action_on_int_reason, apba_notify_abpe_attach, bind, gets.
    cbn [fst snd]. rewrite Hg, Hm. cbn [negb orb].
    cbn [APBA_INT_APBE_ON APBA_INT_APBE_RESET APBA_INT_APBE_CONNECTED
         APBA_INT_APBE_DISCONNECTED Z.eqb Pos.eqb].
    assert (Hg' : forall t, g_ctrl (with_trace t w) = true)
      by (intros t; exact Hg).
    destruct (kzalloc_attach_work E); cbn [negb];
      repeat split;
      unfold emit, modify; cbn [fst snd]; rewrite ?Hg, ?Hg'; cbn [negb];
      unfold ret, with_trace;
      cbn [fst snd trace ctrl g_ctrl apba_log_fifo uart_baud];
      rewrite <- ?app_assoc; cbn [app]; rewrite ?app_nil_r;
      try reflexivity; destruct w; reflexivity.
  - intros payload Hg Hlen Ht.
    unfold apba_handle_message, bind, gets. cbn [fst snd].
    rewrite Hg. cbn [negb].
    replace (cb_len payload <? sizeof_hdr) with false
      by (symmetry; apply Z.ltb_ge; exact Hlen).
    rewrite Ht, Z.eqb_refl, Z.leb_antisym.
    destruct (cb_len payload <? sizeof_int_reason_resp); reflexivity.
Qed.

End RequestsMore.

(** ** Sequence tables from the device tree *)

Lemma triples_of_flatten (n : nat) :
  forall cells,
    length cells = (3 * n)%nat ->
    flatten_triples (triples_of cells n) = cells
    /\ length (triples_of cells n) = n
    /\ (Forall u32 cells -> Forall triple_u32 (triples_of cells n)).
Proof.
  induction n as [|n IH]; intros cells Hlen.
  - destruct cells; [|cbn [length] in Hlen; lia].
    repeat split. intros _. constructor.
  - destruct cells as [|i [|v [|d rest]]]; cbn [length] in Hlen; try lia.
    destruct (IH rest) as (Hflat & Hn & Hu); [lia|].
    cbn [triples_of flatten_triples flat_map app].
    fold (flatten_triples (triples_of rest n)). rewrite Hflat.
    split; [reflexivity|]. split; [cbn [length]; rewrite Hn; reflexivity|].
    intros Hall.
    inversion Hall as [|? ? Hi Hall1]; subst.
    inversion Hall1 as [|? ? Hv Hall2]; subst.
    inversion Hall2 as [|? ? Hd Hall3]; subst.
    constructor; [exact (conj Hi (conj Hv Hd)) | apply Hu, Hall3].
Qed.

Section Tables.

Variable H : headers.

(** X16: apba_parse_seq accepts a property only when it is present and
    its cell count is positive, a multiple of three and within the
    capacity of the table; every other property, and a failed read,
    leaves the table as it was.  A table it has accepted runs through
    apba_seq triple by triple without any out-of-bounds access. *)
Theorem apba_parse_seq_wellformed
  (pp : option Z) (read : Z -> Z * list Z) (seq : apba_seq_t) (w : world) :
  0 <= len seq <= APBA_MAX_SEQ ->
  let r := apba_parse_seq pp read seq in
  (fst r <> 0 -> snd r = seq)
  /\ (pp = None -> fst r = - EINVAL)
  /\ (fst r = 0 ->
      let cnt := len (snd r) in
      0 < cnt <= len seq
      /\ cnt mod 3 = 0
      /\ val (snd r) = snd (read cnt)
      /\ (Z.of_nat (length (snd (read cnt))) = cnt ->
          Forall u32 (snd (read cnt)) ->
          let ts := triples_of (val (snd r)) (Z.to_nat (cnt / 3)) in
          apba_seq H (snd r) w
          = (tt, with_trace (trace w ++ runSequence_spec H (ctrl w) ts) w)
          /\ forallb (fun e => negb (is_out_of_bounds e))
               (runSequence_spec H (ctrl w) ts) = true)).
Proof.
  intros Hcap. cbv zeta. unfold apba_parse_seq.
  destruct pp as [l|].
  2:{ cbn [fst snd]. split; [intros _; reflexivity|].
      split; [intros _; reflexivity|].
      intros Hz. unfold EINVAL in Hz. discriminate Hz. }
  set (cnt := wrap_int (wrap_ulong l / 4)).
  destruct ((cnt =? 0) || (len seq <? wrap_ulong cnt)
            || negb (Z.rem cnt 3 =? 0)) eqn:Hbad.
  { cbn [fst snd]. split; [intros _; reflexivity|].
    split; [intros Hz; discriminate Hz|].
    intros Hz. unfold EINVAL in Hz. discriminate Hz. }
  apply orb_false_iff in Hbad. destruct Hbad as [Hbad Hrem].
  apply orb_false_iff in Hbad. destruct Hbad as [Hnz Hfit].
  apply Z.eqb_neq in Hnz. apply Z.ltb_ge in Hfit.
  apply negb_false_iff in Hrem. apply Z.eqb_eq in Hrem.
  assert (Hcnt : 0 < cnt <= len seq).
  { unfold wrap_ulong in Hfit. unfold APBA_MAX_SEQ, APBA_NUM_GPIOS in Hcap.
    destruct (Z_lt_le_dec cnt 0) as [Hneg|Hpos].
    - assert (Hint : -2147483648 <= cnt).
      { subst cnt. unfold wrap_int, wrap_u32.
        pose proof (Z.mod_pos_bound (wrap_ulong l / 4) 4294967296).
        destruct (_ <? 2147483648) eqn:Hlt; [lia|].
        apply Z.ltb_ge in Hlt. lia. }
      assert (cnt mod 18446744073709551616 = cnt + 18446744073709551616)
        by (symmetry; apply Z.mod_unique with (q := -1); lia).
      lia.
    - rewrite Z.mod_small in Hfit; [lia|].
      assert (cnt < 2147483648).
      { subst cnt. unfold wrap_int, wrap_u32.
        pose proof (Z.mod_pos_bound (wrap_ulong l / 4) 4294967296).
        destruct (_ <? 2147483648) eqn:Hlt; [|lia].
        apply Z.ltb_lt in Hlt. lia. }
      lia. }
  destruct (fst (read cnt) =? 0) eqn:Hret; cbn [negb fst snd].
  2:{ apply Z.eqb_neq in Hret. split; [intros _; reflexivity|].
      split; [intros Hz; discriminate Hz|].
      intros Hz. contradiction. }
  apply Z.eqb_eq in Hret. split; [intros Hne; contradiction|].
  split; [discriminate|]. intros _. cbn [len val].
  assert (Hmod : cnt mod 3 = 0) by (rewrite <- Z.rem_mod_nonneg; lia).
  split; [exact Hcnt|]. split; [exact Hmod|]. split; [reflexivity|].
  intros Hlen Hu32.
  assert (Hn : length (snd (read cnt)) = (3 * Z.to_nat (cnt / 3))%nat).
  { pose proof (Z.div_mod cnt 3). lia. }
  destruct (triples_of_flatten (Z.to_nat (cnt / 3)) (snd (read cnt)) Hn)
    as (Hflat & Hnts & Hts).
  assert (Hseq : mkSeq (snd (read cnt)) cnt
                 = seq_of_triples
                     (triples_of (snd (read cnt)) (Z.to_nat (cnt / 3)))).
  { unfold seq_of_triples. rewrite Hflat, Hnts. f_equal.
    pose proof (Z.div_mod cnt 3). lia. }
  rewrite Hseq. split.
  - apply apba_seq_spec; [apply Hts, Hu32|].
    rewrite Hnts. unfold APBA_MAX_SEQ, APBA_NUM_GPIOS in Hcap.
    pose proof (Z.div_mod cnt 3). lia.
  - apply runSequence_spec_in_bounds.
Qed.

End Tables.

(** ** The sysfs handlers *)

Lemma string_length_append (s t : string) :
  String.length (s ++ t) = (String.length s + String.length t)%nat.
Proof.
  induction s as [|c s IH]; [reflexivity|].
  cbn [append String.length]. rewrite IH. reflexivity.
Qed.

Lemma string_get_append_end (s : string) (c : ascii) (t : string) :
  String.get (String.length s) (s ++ String c t) = Some c.
Proof. induction s as [|a s IH]; [reflexivity | exact IH]. Qed.

Lemma substring_append_prefix (s t : string) :
  substring 0 (String.length s) (s ++ t) = s.
Proof.
  induction s as [|c s IH].
  - destruct t; reflexivity.
  - cbn [append String.length substring]. rewrite IH. reflexivity.
Qed.

Lemma substring_whole (s : string) : substring 0 (String.length s) s = s.
Proof.
  induction s as [|c s IH]; [reflexivity|].
  cbn [String.length substring]. rewrite IH. reflexivity.
Qed.

Lemma partition_name_sz_newline (name : string) :
  partition_name_sz (name ++ String newline EmptyString) = String.length name.
Proof.
  unfold partition_name_sz. rewrite string_length_append.
  cbn [String.length]. rewrite Nat.add_1_r.
  rewrite string_get_append_end. reflexivity.
Qed.

Lemma partition_name_sz_plain (name : string) :
  String.get (String.length name - 1) name <> Some newline ->
  partition_name_sz name = String.length name.
Proof.
  intros Hlast. unfold partition_name_sz.
  destruct (String.length name) as [|k] eqn:Hlen; [reflexivity|].
  replace (S k - 1)%nat with k in Hlast by lia.
  destruct (String.get k name) as [c|]; [|reflexivity].
  destruct (Ascii.eqb_spec c newline) as [->|]; [|reflexivity].
  contradiction.
Qed.

Lemma store_partition_name_accepts (buf name : string) :
  partition_name_sz buf = String.length name ->
  substring 0 (String.length name) buf = name ->
  (1 <= String.length name <= 16)%nat ->
  c_str name = name ->
  store_partition_name buf = Some name.
Proof.
  intros Hsz Hsub Hlen Hc. unfold store_partition_name. rewrite Hsz.
  replace (String.length name =? 0)%nat with false
    by (symmetry; apply Nat.eqb_neq; lia).
  replace (Z.to_nat (MAX_PARTITION_NAME + 1) <=? String.length name)%nat
    with false
    by (symmetry; apply Nat.leb_gt; unfold MAX_PARTITION_NAME; lia).
  cbn [orb]. rewrite Hsub, Hc. reflexivity.
Qed.

Lemma store_partition_name_refuses (buf : string) :
  partition_name_sz buf = 0%nat \/ (16 < partition_name_sz buf)%nat ->
  store_partition_name buf = None.
Proof.
  intros Hbad. unfold store_partition_name.
  destruct Hbad as [-> | Hlong]; [reflexivity|].
  replace (Z.to_nat (MAX_PARTITION_NAME + 1) <=? partition_name_sz buf)%nat
    with true
    by (symmetry; apply Nat.leb_le; unfold MAX_PARTITION_NAME; lia).
  rewrite orb_true_r. reflexivity.
Qed.

Section Sysfs.

Variable H : headers.
Variable E : env.

(** X17: erase_partition_store drops one trailing newline from what was
    written.  A name that is then empty or longer than 16 characters is
    refused with -EINVAL before the controller is touched.  Any other
    name is erased, with or without the newline, and the handler returns
    the number of bytes written when the erase returned 0 and the
    result of the erase otherwise. *)
Theorem erase_partition_store_name (name : string) (w : world) :
  let nl := String newline EmptyString in
  erase_partition_store H E EmptyString w = (- EINVAL, w)
  /\ (String.length name = 0%nat \/ (16 < String.length name)%nat ->
      erase_partition_store H E (name ++ nl) w = (- EINVAL, w))
  /\ ((1 <= String.length name <= 16)%nat ->
      c_str name = name ->
      let r := apba_erase_partition H E (g_ctrl w) name w in
      erase_partition_store H E (name ++ nl) w
      = ((if fst r =? 0 then Z.of_nat (String.length name) + 1 else fst r),
         snd r)
      /\ (String.get (String.length name - 1) name <> Some newline ->
          erase_partition_store H E name w
          = ((if fst r =? 0 then Z.of_nat (String.length name) else fst r),
             snd r))).
Proof.
  cbv zeta. split; [reflexivity|]. split.
  - intros Hbad. unfold erase_partition_store.
    rewrite store_partition_name_refuses; [reflexivity|].
    rewrite partition_name_sz_newline. exact Hbad.
  - intros Hlen Hc. split.
    + unfold erase_partition_store.
      rewrite (store_partition_name_accepts _ name
                 (partition_name_sz_newline name)
                 (substring_append_prefix name _) Hlen Hc).
      unfold bind, gets, ret. cbn [fst snd].
      rewrite string_length_append. cbn [String.length].
      replace (Z.of_nat (String.length name + 1))
        with (Z.of_nat (String.length name) + 1) by lia.
      reflexivity.
    + intros Hlast. unfold erase_partition_store.
      rewrite (store_partition_name_accepts _ name
                 (partition_name_sz_plain name Hlast)
                 (substring_whole name) Hlen Hc).
      reflexivity.
Qed.

(** X18: apbe_power_store issues no power command unless there is a
    controller, a registered master interface and the value written
    parses to 0 or 1: otherwise it returns -EINVAL and nothing happens.
    With all this given it issues exactly one slave power command, whose
    mode argument is the value written, and returns the byte count. *)
Theorem apbe_power_store_result (buf : string) (count : Z) (w : world) :
  let valid v := (v =? 0) || (v =? 1) in
  let ok :=
    g_ctrl w && negb (master_intf (ctrl w) =? 0)
    && match kstrtoul E buf with Some v => valid v | None => false end in
  apbe_power_store H E buf count w
  = if ok then
      match kstrtoul E buf with
      | Some v =>
          (count,
           with_trace
             (trace w ++ [EvSlaveCtrlPower (master_intf (ctrl w)) v
                            (MB_CONTROL_SLAVE_MASK_APBE H)]) w)
      | None => (- EINVAL, w)
      end
    else (- EINVAL, w).
Proof.
  cbv zeta. unfold apbe_power_store, bind, gets. cbn [fst snd].
  destruct (g_ctrl w); cbn [negb andb]; [|reflexivity].
  destruct (master_intf (ctrl w) =? 0); cbn [negb andb]; [reflexivity|].
  destruct (kstrtoul E buf) as [v|]; [|reflexivity].
  destruct (v =? 0), (v =? 1); reflexivity.
Qed.

(** X19: apba_enable_store refuses what does not parse to 0 or 1 with
    -EINVAL and without effect.  For 1 it runs apba_enable and for 0
    apba_disable, and returns the byte count whatever they did: a
    failure of apba_enable (no controller, clock not started) is not
    reported to the writer. *)
Theorem apba_enable_store_result (buf : string) (count : Z) (w : world) :
  match kstrtoul E buf with
  | None => apba_enable_store H E buf count w = (- EINVAL, w)
  | Some v =>
      (v <> 0 -> v <> 1 ->
       apba_enable_store H E buf count w = (- EINVAL, w))
      /\ (v = 1 ->
          apba_enable_store H E buf count w
          = (count, exec (apba_enable H E) w)
          /\ (g_ctrl w = true -> clk_prepare_enable E <> 0 ->
              apba_enable_store H E buf count w
              = (count, with_trace (trace w ++ [EvClkPrepareEnable]) w)))
      /\ (v = 0 ->
          apba_enable_store H E buf count w
          = (count, exec (apba_disable H) w))
  end.
Proof.
  unfold apba_enable_store.
  destruct (kstrtoul E buf) as [v|]; [|reflexivity].
  split; [|split].
  - intros H0 H1. apply Z.eqb_neq in H0, H1. rewrite H0, H1. reflexivity.
  - intros ->. change (negb (1 =? 0) && negb (1 =? 1)) with false.
    change (negb (1 =? 0)) with true. cbv iota.
    split; [reflexivity|].
    intros Hg Hclk. apply Z.eqb_neq in Hclk.
    unfold apba_enable, bind, gets, ret. cbn [fst snd].
    rewrite Hg, Hclk. reflexivity.
  - intros ->. reflexivity.
Qed.


End Sysfs.

(** ** What the show handlers print *)

Lemma scnprintf_d_4_u8 (m : Z) :
  0 <= m < 256 ->
  let digits := NilZero.string_of_int (Z.to_int m) in
  (m < 100 ->
   scnprintf_d 4 m
   = (Z.of_nat (String.length digits) + 1,
      (digits ++ String newline EmptyString)%string))
  /\ (100 <= m ->
      String.length digits = 3%nat /\ scnprintf_d 4 m = (3, digits)).
Proof.
  intros Hm. cbv zeta.
  assert (Hall :
    forallb
      (fun n =>
         let m := Z.of_nat n in
         let r := scnprintf_d 4 m in
         let d := NilZero.string_of_int (Z.to_int m) in
         if m <? 100
         then (fst r =? Z.of_nat (String.length d) + 1)
              && String.eqb (snd r) (d ++ String newline EmptyString)
         else (fst r =? 3) && String.eqb (snd r) d
              && (String.length d =? 3)%nat)
      (seq 0 256) = true) by (vm_compute; reflexivity).
  rewrite forallb_forall in Hall.
  specialize (Hall (Z.to_nat m)).
  rewrite Z2Nat.id in Hall by lia. cbv zeta in Hall.
  assert (Hin : In (Z.to_nat m) (seq 0 256)) by (apply in_seq; lia).
  specialize (Hall Hin).
  split.
  - intros Hlt. apply Z.ltb_lt in Hlt. rewrite Hlt in Hall.
    apply andb_true_iff in Hall. destruct Hall as [Hn Hs].
    apply Z.eqb_eq in Hn. apply String.eqb_eq in Hs.
    rewrite <- Hn, <- Hs. destruct (scnprintf_d 4 m); reflexivity.
  - intros Hge. apply Z.ltb_ge in Hge. rewrite Hge in Hall.
    apply andb_true_iff in Hall. destruct Hall as [Hall Hl].
    apply andb_true_iff in Hall. destruct Hall as [Hn Hs].
    apply Z.eqb_eq in Hn. apply String.eqb_eq in Hs.
    apply Nat.eqb_eq in Hl. split; [exact Hl|].
    rewrite <- Hn, <- Hs. destruct (scnprintf_d 4 m); reflexivity.
Qed.

(** X20: apba_mode_show prints the mode byte into four bytes of buffer, so
    at most three characters.  A mode below 100 is shown as its decimal
    digits and a newline; a mode of 100 or more is shown as its three
    digits only, the newline being cut, and 3 is returned.  Without a
    controller nothing is printed. *)
Theorem apba_mode_show_three_characters (w : world) :
  0 <= mode (ctrl w) < 256 ->
  let m := mode (ctrl w) in
  let digits := NilZero.string_of_int (Z.to_int m) in
  (g_ctrl w = false -> apba_mode_show w = ((0, EmptyString), w))
  /\ (g_ctrl w = true -> m < 100 ->
      apba_mode_show w
      = ((Z.of_nat (String.length digits) + 1,
          (digits ++ String newline EmptyString)%string), w))
  /\ (g_ctrl w = true -> 100 <= m ->
      apba_mode_show w = ((3, digits), w)).
Proof.
  intros Hm. cbv zeta.
  destruct (scnprintf_d_4_u8 (mode (ctrl w)) Hm) as [Hlow Hhigh].
  unfold apba_mode_show, bind, gets, ret. cbn [fst snd].
  split; [|split].
  - intros ->. reflexivity.
  - intros -> Hlt. cbn [negb]. rewrite (Hlow Hlt). reflexivity.
  - intros -> Hge. cbn [negb]. destruct (Hhigh Hge) as [_ ->]. reflexivity.
Qed.

(** ** The transport handle, the interrupt and the slave notification *)

Lemma c_str_append (s t : string) :
  c_str s = s -> c_str (s ++ t) = (s ++ c_str t)%string.
Proof.
  induction s as [|c s IH]; [reflexivity|].
  cbn [c_str append]. destruct (Ascii.eqb c Ascii.zero); [discriminate|].
  intros Hs. injection Hs as Hs. rewrite (IH Hs). reflexivity.
Qed.

Section Transport.

Variable H : headers.
Variable E : env.

(** X22: apba_uart_register stores the handle it is given, and refuses
    with -ENODEV when there is no controller.  Once NULL was registered
    the transport is left alone: apba_mode_store returns 0 and
    apba_baud_store -ENODEV without sending, apba_baud_show prints
    nothing and the attach work reports nothing. *)
Theorem without_uart_transport
  (buf : string) (count present : Z) (arrivals : list cbuf) (w : world) :
  (g_ctrl w = false -> apba_uart_register false w = (- ENODEV, w))
  /\ (g_ctrl w = true ->
      let w' := with_ctrl (set_mods_uart false (ctrl w)) w in
      apba_uart_register false w = (0, w')
      /\ apba_mode_store H E buf count arrivals w' = (0, w')
      /\ apba_baud_store H E buf count arrivals w' = (- ENODEV, w')
      /\ apba_baud_show w' = ((0, EmptyString), w')
      /\ apba_apbe_attach_work_func present w' = (tt, w')).
Proof.
  split.
  - intros Hg. unfold apba_uart_register, bind, gets. cbn [fst snd].
    rewrite Hg. reflexivity.
  - intros Hg. cbv zeta.
    unfold apba_uart_register, apba_mode_store, apba_baud_store,
      apba_baud_show, apba_apbe_attach_work_func, bind, gets.
    cbn [fst snd with_ctrl g_ctrl ctrl set_mods_uart mods_uart].
    rewrite Hg. cbn [negb orb andb when]. repeat split.
Qed.

(** X26: apba_isr reads the line of the interrupt pin and hands the wake
    interrupt to the transport only while the controller is desired on
    and a transport is registered.  So between a successful apba_enable
    and the next apba_disable an interrupt is forwarded, and after that
    apba_disable it is ignored; the handler never changes the state. *)
Theorem apba_isr_forwards_while_enabled (w : world) :
  g_ctrl w = true ->
  clk_prepare_enable E = 0 ->
  0 <= int_index (ctrl w) < APBA_NUM_GPIOS ->
  let pin := nth (Z.to_nat (int_index (ctrl w))) (gpios (ctrl w)) 0 in
  let on := exec (apba_enable H E) w in
  let off := exec (apba_disable H) on in
  apba_isr on
  = ((length (trace on), CallGpioGetValue pin)
     :: (if mods_uart (ctrl w)
         then [(length (trace on), CallUartWakeInterrupt)] else []),
     on)
  /\ apba_isr off = ([(length (trace off), CallGpioGetValue pin)], off).
Proof.
  intros Hg Hclk Hidx. cbv zeta.
  destruct (apba_enable_run H E w Hg Hclk) as (evs & _ & Hon).
  set (on := exec (apba_enable H E) w).
  assert (Hw1 : on = snd (apba_enable H E w)) by reflexivity.
  rewrite Hon in Hw1. cbn [snd] in Hw1.
  assert (Hg1 : g_ctrl on = true) by (rewrite Hw1; exact Hg).
  assert (Hd1 : desired_on (ctrl on) = 1) by (rewrite Hw1; reflexivity).
  assert (Hu1 : mods_uart (ctrl on) = mods_uart (ctrl w))
    by (rewrite Hw1; reflexivity).
  assert (Hp1 : gpios (ctrl on) = gpios (ctrl w)
                /\ int_index (ctrl on) = int_index (ctrl w))
    by (rewrite Hw1; split; reflexivity).
  destruct Hp1 as [Hgp1 Hii1].
  destruct (apba_disable_run H on Hg1) as (evs' & _ & Hoff);
    [rewrite Hd1; discriminate|].
  set (off := exec (apba_disable H) on).
  assert (Hw2 : off = snd (apba_disable H on)) by reflexivity.
  rewrite Hoff in Hw2. cbn [snd] in Hw2.
  assert (Hd2 : desired_on (ctrl off) = 0) by (rewrite Hw2; reflexivity).
  assert (Hp2 : gpios (ctrl off) = gpios (ctrl w)
                /\ int_index (ctrl off) = int_index (ctrl w)).
  { rewrite Hw2. cbn [ctrl with_trace with_ctrl gpios int_index set_mode
                      set_desired_on]. split; assumption. }
  destruct Hp2 as [Hgp2 Hii2].
  assert (Hin : (0 <=? int_index (ctrl w))
                && (int_index (ctrl w) <? APBA_NUM_GPIOS) = true)
    by (apply andb_true_iff; split; [apply Z.leb_le | apply Z.ltb_lt]; lia).
  unfold apba_isr, bind, gets, array_read, call, ret. cbn [fst snd].
  rewrite Hii1, Hii2, Hgp1, Hgp2, Hin, Hd1, Hd2, Hu1. cbn [fst snd Z.eqb orb].
  split; [|reflexivity].
  destruct (mods_uart (ctrl w)); reflexivity.
Qed.

Variable SLAVE_STATE_DISABLED : Z.
Variable SLAVE_STATE_ENABLED : Z.

(** X25: apba_slave_notify ignores a notification for another slave and
    does nothing without a controller.  For the APBE it records the
    master interface; state ENABLED enables the controller, state
    DISABLED only queues the disable work, and any other state does
    nothing more.  The power-off command that the queued work sends goes
    to the interface of the latest notification. *)
Theorem apba_slave_notify_targets_latest_interface
  (intf intf' mask state : Z) (w : world) :
  SLAVE_STATE_DISABLED <> SLAVE_STATE_ENABLED ->
  g_ctrl w = true ->
  clk_prepare_enable E = 0 ->
  let notify := apba_slave_notify H E SLAVE_STATE_DISABLED SLAVE_STATE_ENABLED in
  let MASK := MB_CONTROL_SLAVE_MASK_APBE H in
  (mask <> MASK -> notify intf mask state w = ([], w))
  /\ (state <> SLAVE_STATE_DISABLED -> state <> SLAVE_STATE_ENABLED ->
      notify intf MASK state w
      = ([], with_ctrl (set_master_intf intf (ctrl w)) w))
  /\ (let w1 := exec (notify intf MASK SLAVE_STATE_ENABLED) w in
      let w2 := with_ctrl (set_master_intf intf' (ctrl w1)) w1 in
      eval (notify intf MASK SLAVE_STATE_ENABLED) w = []
      /\ w1 = exec (apba_enable H E)
                (with_ctrl (set_master_intf intf (ctrl w)) w)
      /\ desired_on (ctrl w1) = 1
      /\ notify intf' MASK SLAVE_STATE_DISABLED w1
         = ([(length (trace w1), CallScheduleDisableWork)], w2)
      /\ adds is_power_cmd
           [EvSlaveCtrlPower intf' (MB_CONTROL_SLAVE_POWER_OFF H) MASK]
           w2 (exec (apba_disable_work_func H) w2)).
Proof.
  intros Hlabels Hg Hclk. cbv zeta.
  assert (Hde : (SLAVE_STATE_ENABLED =? SLAVE_STATE_DISABLED) = false)
    by (apply Z.eqb_neq; congruence).
  split; [|split].
  - intros Hm. apply Z.eqb_neq in Hm.
    unfold apba_slave_notify, bind, gets. cbn [fst snd].
    rewrite Hg, Hm. reflexivity.
  - intros Hd He. apply Z.eqb_neq in Hd, He.
    unfold apba_slave_notify, bind, gets, upd_ctrl, modify. cbn [fst snd].
    rewrite Hg, Z.eqb_refl, Hd, He. reflexivity.
  - set (w0 := with_ctrl (set_master_intf intf (ctrl w)) w).
    assert (Hg0 : g_ctrl w0 = true) by exact Hg.
    destruct (apba_enable_run H E w0 Hg0 Hclk) as (evs & Hp & Hon).
    assert (Hrun : apba_slave_notify H E SLAVE_STATE_DISABLED
                     SLAVE_STATE_ENABLED intf
                     (MB_CONTROL_SLAVE_MASK_APBE H) SLAVE_STATE_ENABLED w
                   = ([], exec (apba_enable H E) w0)).
    { unfold apba_slave_notify, bind, gets, upd_ctrl, modify.
      cbn [fst snd]. rewrite Hg, !Z.eqb_refl, Hde. reflexivity. }
    assert (Hex : exec (apba_slave_notify H E SLAVE_STATE_DISABLED
                          SLAVE_STATE_ENABLED intf
                          (MB_CONTROL_SLAVE_MASK_APBE H) SLAVE_STATE_ENABLED) w
                  = exec (apba_enable H E) w0)
      by (unfold exec at 1; rewrite Hrun; reflexivity).
    rewrite !Hex. unfold eval. rewrite Hrun. cbn [fst].
    split; [reflexivity|]. split; [reflexivity|].
    set (w1 := exec (apba_enable H E) w0).
    assert (Hw1 : w1 = snd (apba_enable H E w0)) by reflexivity.
    rewrite Hon in Hw1. cbn [snd] in Hw1.
    assert (Hg1 : g_ctrl w1 = true) by (rewrite Hw1; exact Hg).
    assert (Hd1 : desired_on (ctrl w1) = 1) by (rewrite Hw1; reflexivity).
    split; [exact Hd1|]. split.
    + unfold apba_slave_notify, bind, gets, upd_ctrl, modify, call.
      cbn [fst snd]. rewrite Hg1, !Z.eqb_refl. reflexivity.
    + set (w2 := with_ctrl (set_master_intf intf' (ctrl w1)) w1).
      destruct (apba_disable_run H w2) as (evs' & Hp' & Hoff).
      * exact Hg1.
      * change (desired_on (ctrl w2)) with (desired_on (ctrl w1)).
        rewrite Hd1. discriminate.
      * unfold apba_disable_work_func, exec. rewrite Hoff. cbn [snd].
        eexists. split; [reflexivity|].
        change (master_intf (ctrl w2)) with intf'.
        cbn [filter is_power_cmd]. f_equal.
        rewrite filter_app. cbn [filter is_power_cmd].
        rewrite filter_app.
        rewrite (filter_seq_events is_power_cmd evs'); [|
          intros [] He; try reflexivity; discriminate | exact Hp'].
        unfold uart_calls. destruct (mods_uart (ctrl w2)); reflexivity.
Qed.

End Transport.

(** ** Firmware images *)

Section Firmware.

Variable H : headers.
Variable E : env.

Lemma flash_partition_store_run
  (request_firmware : string -> Z * option cbuf) (name : string) (w : world) :
  (1 <= String.length name <= 16)%nat ->
  c_str name = name ->
  g_ctrl w = true ->
  let ffff := (name ++ FFFF_EXT)%string in
  let bin := (name ++ BIN_EXT)%string in
  let failed := fst (request_firmware ffff) <? 0 in
  let got := if failed then request_firmware bin else request_firmware ffff in
  let reqs :=
    (length (trace w), CallRequestFirmware ffff)
    :: (if failed then [(length (trace w), CallRequestFirmware bin)] else []) in
  flash_partition_store H E request_firmware
    (name ++ String newline EmptyString) w
  = if fst got <? 0 then ((Some (fst got), reqs), w)
    else
      match snd got with
      | None => ((Some (- EINVAL), reqs), w)
      | Some fw =>
          if cb_len fw =? 0 then ((Some (- EINVAL), reqs), w)
          else
            let f := apba_flash_partition H E true name (Some fw) w in
            ((Some (if fst f =? 0
                    then Z.of_nat (String.length name) + 1 else fst f),
              reqs ++ [(length (trace (snd f)), CallReleaseFirmware)]),
             snd f)
      end.
Proof.
  intros Hlen Hc Hg. cbv zeta. unfold flash_partition_store.
  rewrite (store_partition_name_accepts _ name
             (partition_name_sz_newline name)
             (substring_append_prefix name _) Hlen Hc).
  rewrite partition_name_sz_newline, substring_append_prefix.
  rewrite !(c_str_append name _ Hc).
  change (c_str FFFF_EXT) with FFFF_EXT.
  change (c_str BIN_EXT) with BIN_EXT.
  rewrite string_length_append. cbn [String.length].
  replace (Z.of_nat (String.length name + 1))
    with (Z.of_nat (String.length name) + 1) by lia.
  unfold bind, gets, call, ret. cbn [fst snd]. rewrite Hg. cbn [negb].
  destruct (fst (request_firmware (name ++ FFFF_EXT)%string) <? 0);
    cbn [fst snd app];
    match goal with
    | |- (if fst ?g <? 0 then _ else _) _ = _ =>
        destruct (fst g <? 0); [reflexivity|];
        destruct (snd g) as [fw|]; [|reflexivity];
        destruct (cb_len fw =? 0); reflexivity
    end.
Qed.

(** X23: flash_partition_store asks for the image [name.ffff] and, only
    when that request fails, for [name.bin].  When both fail it returns
    the second error; when the image handed out is missing or empty it
    returns -EINVAL; in both cases the controller is not touched and
    release_firmware is not called.  Otherwise it flashes the image to
    the partition, releases the image after that, and returns the byte
    count when flashing returned 0 and the flashing result otherwise. *)
Theorem flash_partition_store_firmware
  (request_firmware : string -> Z * option cbuf) (name : string) (w : world) :
  (1 <= String.length name <= 16)%nat ->
  c_str name = name ->
  g_ctrl w = true ->
  let r := flash_partition_store H E request_firmware
             (name ++ String newline EmptyString) w in
  let ffff := (name ++ FFFF_EXT)%string in
  let bin := (name ++ BIN_EXT)%string in
  let failed := fst (request_firmware ffff) <? 0 in
  let got := if failed then request_firmware bin else request_firmware ffff in
  let reqs :=
    (length (trace w), CallRequestFirmware ffff)
    :: (if failed then [(length (trace w), CallRequestFirmware bin)] else []) in
  (fst got < 0 -> r = ((Some (fst got), reqs), w))
  /\ (0 <= fst got ->
      snd got = None \/ (exists fw, snd got = Some fw /\ cb_len fw = 0) ->
      r = ((Some (- EINVAL), reqs), w))
  /\ (forall fw, 0 <= fst got -> snd got = Some fw -> cb_len fw <> 0 ->
      let f := apba_flash_partition H E true name (Some fw) w in
      r = ((Some (if fst f =? 0
                  then Z.of_nat (String.length name) + 1 else fst f),
            reqs ++ [(length (trace (snd f)), CallReleaseFirmware)]),
           snd f)).
Proof.
  intros Hlen Hc Hg. cbv zeta.
  rewrite (flash_partition_store_run request_firmware name w Hlen Hc Hg).
  cbv zeta.
  set (got := if fst (request_firmware (name ++ FFFF_EXT)%string) <? 0
              then request_firmware (name ++ BIN_EXT)%string
              else request_firmware (name ++ FFFF_EXT)%string).
  split; [|split].
  - intros Hneg. apply Z.ltb_lt in Hneg. rewrite Hneg. reflexivity.
  - intros Hpos Hbad. apply Z.ltb_ge in Hpos. rewrite Hpos.
    destruct Hbad as [-> | (fw & -> & Hz)]; [reflexivity|].
    apply Z.eqb_eq in Hz. rewrite Hz. reflexivity.
  - intros fw Hpos Hfw Hnz. apply Z.ltb_ge in Hpos. rewrite Hpos, Hfw.
    apply Z.eqb_neq in Hnz. rewrite Hnz. reflexivity.
Qed.

Lemma release_then_enable_det {A} (m : M A) (w : world) :
  (c1 <- (_ <- m ;; call CallReleaseFirmware) ;;
   c2 <- call CallMucEnableDet ;;
   ret (c1 ++ c2)) w
  = ([(length (trace (exec m w)), CallReleaseFirmware);
      (length (trace (exec m w)), CallMucEnableDet)], exec m w).
Proof. reflexivity. Qed.

Lemma apba_firmware_callback_image_run (f : cbuf) (w : world) :
  apba_firmware_callback H E true (Some f) w
  = ([(length (trace (exec (apba_flash_partition H E true
                              APBA_FIRMWARE_PARTITION (Some f)) w)),
       CallReleaseFirmware);
      (length (trace (exec (apba_flash_partition H E true
                              APBA_FIRMWARE_PARTITION (Some f)) w)),
       CallMucEnableDet)],
     exec (apba_flash_partition H E true APBA_FIRMWARE_PARTITION (Some f)) w).
Proof.
  exact (release_then_enable_det
           (apba_flash_partition H E true APBA_FIRMWARE_PARTITION (Some f)) w).
Qed.

Lemma leave_then_enable_det (m1 m2 : M unit) (w : world) :
  (c1 <- (m1 ;;
          c <- gets ctrl ;;
          when (negb (desired_on c =? 0)) m2 ;;
          ret []) ;;
   c2 <- call CallMucEnableDet ;;
   ret (c1 ++ c2)) w
  = ([(length
         (trace
            (exec (m1 ;;
                   c <- gets ctrl ;;
                   when (negb (desired_on c =? 0)) m2 ;;
                   ret 0) w)),
       CallMucEnableDet)],
     exec (m1 ;;
           c <- gets ctrl ;;
           when (negb (desired_on c =? 0)) m2 ;;
           ret 0) w).
Proof. reflexivity. Qed.

Lemma apba_firmware_callback_no_image_run (w : world) :
  apba_firmware_callback H E true None w
  = ([(length (trace (exec (no_mtd H E 0) w)), CallMucEnableDet)],
     exec (no_mtd H E 0) w).
Proof.
  exact (leave_then_enable_det (apba_flash_on H E false) (apba_on H true) w).
Qed.

(** X24: apba_firmware_callback without a controller does nothing, and
    then does not let the muc core go on either.  With a controller it
    flashes the image to partition apba and releases it, or, without an
    image, leaves flash mode; in both cases flash mode is off
    afterwards, desired-on is as before, a controller that is desired on
    is powered, and the last thing done is the call of
    muc_enable_det. *)
Theorem apba_firmware_callback_finishes (fw : option cbuf) (w : world) :
  apba_firmware_callback H E false fw w = ([], w)
  /\ (let r := apba_firmware_callback H E true fw w in
      let w' := snd r in
      fst r = match fw with
              | None => []
              | Some _ => [(length (trace w'), CallReleaseFirmware)]
              end ++ [(length (trace w'), CallMucEnableDet)]
      /\ w' = match fw with
              | None => exec (no_mtd H E 0) w
              | Some f =>
                  exec (apba_flash_partition H E true
                          APBA_FIRMWARE_PARTITION (Some f)) w
              end
      /\ flash_mode w' = Some false
      /\ desired_on (ctrl w') = desired_on (ctrl w)
      /\ (desired_on (ctrl w) <> 0 -> power_state w' = Some true)
      /\ (desired_on (ctrl w) = 0 ->
          power_state w' = match fw with
                           | None => power_state w
                           | Some _ => Some false
                           end)).
Proof.
  split; [reflexivity|]. cbv zeta.
  destruct fw as [f|].
  - assert (Hr : power_restored H E w
                   (exec (apba_flash_partition H E true
                            APBA_FIRMWARE_PARTITION (Some f)) w))
      by apply (bracketed_restores_power H E _ w
                  (flash_tail_ends_in_no_mtd H E APBA_FIRMWARE_PARTITION f)).
    destruct Hr as (_ & Hp & Hfm & Hd).
    rewrite apba_firmware_callback_image_run.
    set (w1 := exec (apba_flash_partition H E true APBA_FIRMWARE_PARTITION
                       (Some f)) w) in *.
    clearbody w1. cbn [fst snd app].
    split; [reflexivity|]. split; [reflexivity|].
    split; [exact Hfm|]. split; [exact Hd|]. split.
    + intros Hon. apply Z.eqb_neq in Hon. rewrite Hp, Hon. reflexivity.
    + intros Hoff. rewrite Hp, Hoff. reflexivity.
  - rewrite apba_firmware_callback_no_image_run.
    destruct (exec_no_mtd H E 0 w) as [Hex _].
    pose proof (apba_flash_on_no_bus_vote H E false w) as Hfb.
    pose proof (flash_mode_after_flash_off H E w) as Hfm.
    set (w' := exec (no_mtd H E 0) w) in *.
    set (w1 := exec (apba_flash_on H E false) w) in *.
    clearbody w' w1. cbn [fst snd app].
    split; [reflexivity|]. split; [reflexivity|]. subst w'.
    destruct (desired_on (ctrl w) =? 0) eqn:Hd; cbn [negb]; rewrite exec_when.
    + split; [exact Hfm|]. split; [apply Hfb|]. split.
      * intros Hon. apply Z.eqb_eq in Hd. contradiction.
      * intros _. apply (power_state_follows _ _ Hfb).
    + destruct (apba_on_power_state H true w1) as [Hp Hd1].
      split.
      { rewrite (flash_mode_follows _ _ (apba_on_no_spi_flash_reg H true w1)).
        exact Hfm. }
      split; [rewrite Hd1; apply Hfb|]. split.
      * intros _. exact Hp.
      * intros Hoff. apply Z.eqb_neq in Hd. contradiction.
Qed.

End Firmware.

(** ** Pins and interrupt at probe time *)

Lemma list_update_length {A} (l : list A) (i : nat) (v : A) :
  length (list_update l i v) = length l.
Proof.
  revert i. induction l as [|h t IH]; intros [|i]; cbn; try reflexivity.
  rewrite IH. reflexivity.
Qed.

Lemma nth_list_update_eq {A} (l : list A) (i : nat) (v d : A) :
  (i < length l)%nat -> nth i (list_update l i v) d = v.
Proof.
  revert i. induction l as [|h t IH]; intros [|i] Hi; cbn in *; try lia.
  - reflexivity.
  - apply IH. lia.
Qed.

Lemma nth_list_update_neq {A} (l : list A) (i j : nat) (v d : A) :
  i <> j -> nth j (list_update l i v) d = nth j l d.
Proof.
  revert i j. induction l as [|h t IH]; intros [|i] [|j] Hij; cbn;
    try reflexivity; try congruence.
  apply IH. congruence.
Qed.

Lemma with_ctrl_pins_same (w : world) :
  with_ctrl (set_gpio_cnt (gpio_cnt (ctrl w)) (set_gpios (gpios (ctrl w)) (ctrl w)))
    w = w.
Proof. destruct w as [c g f b t]. destruct c. reflexivity. Qed.

Lemma unexported_app (a b : list (nat * sys_call)) :
  unexported (a ++ b) = unexported a ++ unexported b.
Proof. apply flat_map_app. Qed.

Lemma exported_app (a b : list (nat * sys_call)) :
  exported (a ++ b) = exported a ++ exported b.
Proof. apply flat_map_app. Qed.

Section PinsSetup.

Variable H : headers.
Variable D : gpio_node.

Lemma apba_gpio_setup_body_run (i : Z) (labels : list string) (w : world) :
  0 <= i < APBA_NUM_GPIOS ->
  gpio_cnt (ctrl w) = i ->
  let g := of_get_gpio_flags D i in
  exists rv ls cs wb,
    apba_gpio_setup_body H D i labels w = (rv, ls, cs, wb)
    /\ ((rv = 0
         /\ gpio_is_valid H g = true
         /\ wb = with_ctrl
                   (set_gpio_cnt (i + 1)
                      (set_gpios
                         (list_update (gpios (ctrl w)) (Z.to_nat i) g)
                         (ctrl w))) w
         /\ unexported cs = []
         /\ exported cs = [g])
        \/ (rv <> 0
            /\ wb = w
            /\ unexported cs = exported cs)).
Proof.
  intros Hi Hcnt. cbv zeta. unfold apba_gpio_setup_body.
  destruct (gpio_is_valid H (of_get_gpio_flags D i)) eqn:Hv; cbn [negb].
  2:{ do 4 eexists. split; [reflexivity|]. right.
      split; [unfold EINVAL; discriminate|]. split; reflexivity. }
  destruct (fst (of_property_read_string_index D i) =? 0) eqn:Hl; cbn [negb].
  2:{ do 4 eexists. split; [reflexivity|]. right.
      split; [apply Z.eqb_neq; exact Hl|]. split; reflexivity. }
  unfold bind, call, ret, gets. cbn [fst snd].
  destruct (devm_gpio_request_one D i =? 0) eqn:Hr; cbn [negb fst snd].
  2:{ do 4 eexists. split; [reflexivity|]. right.
      split; [apply Z.eqb_neq; exact Hr|]. split; reflexivity. }
  destruct (gpio_export D i =? 0) eqn:He; cbn [negb fst snd].
  2:{ do 4 eexists. split; [reflexivity|]. right.
      split; [apply Z.eqb_neq; exact He|]. split; [reflexivity|].
      unfold unexported, exported. cbn [flat_map snd app].
      rewrite He. reflexivity. }
  destruct (gpio_export_link D i =? 0) eqn:Hk; cbn [negb fst snd].
  2:{ do 4 eexists. split; [reflexivity|]. right.
      split; [apply Z.eqb_neq; exact Hk|]. split; [reflexivity|].
      unfold unexported, exported. cbn [flat_map snd app].
      rewrite He. reflexivity. }
  unfold array_write.
  replace ((0 <=? i) && (i <? APBA_NUM_GPIOS)) with true
    by (symmetry; apply andb_true_iff; split;
        [apply Z.leb_le | apply Z.ltb_lt]; lia).
  unfold upd_ctrl, modify, ret.
  cbn [fst snd ctrl with_ctrl gpio_cnt set_gpios].
  rewrite Hcnt, wrap_int_small by (unfold APBA_NUM_GPIOS in Hi; lia).
  do 4 eexists. split; [reflexivity|]. left.
  split; [reflexivity|]. split; [reflexivity|].
  split; [destruct w as [c g f b t]; destruct c; reflexivity|].
  unfold unexported, exported. cbn [flat_map snd app].
  rewrite He. split; reflexivity.
Qed.

Lemma apba_gpio_setup_loop_step (n : nat) (i : Z) (labels : list string)
  (w : world) :
  apba_gpio_setup_loop H D (S n) i labels w
  = match apba_gpio_setup_body H D i labels w with
    | (rv, ls, cs, wb) =>
        if rv =? 0 then
          match apba_gpio_setup_loop H D n (i + 1) ls wb with
          | (rv', ls', cs', wb') => (rv', ls', cs ++ cs', wb')
          end
        else (rv, ls, cs, wb)
    end.
Proof.
  cbn [apba_gpio_setup_loop]. unfold bind at 1.
  destruct (apba_gpio_setup_body H D i labels w) as [[[rv ls] cs] wb].
  cbn [fst snd]. destruct (rv =? 0); [|reflexivity].
  unfold bind, ret.
  destruct (apba_gpio_setup_loop H D n (i + 1) ls wb) as [[[rv' ls'] cs'] wb'].
  reflexivity.
Qed.

Lemma apba_gpio_setup_loop_run (n : nat) :
  forall (i : Z) (labels : list string) (w : world),
    0 <= i ->
    i + Z.of_nat n <= APBA_NUM_GPIOS ->
    gpio_cnt (ctrl w) = i ->
    Z.of_nat (length (gpios (ctrl w))) = APBA_NUM_GPIOS ->
    exists rv ls cs (k : nat) (gs : list Z),
      apba_gpio_setup_loop H D n i labels w
      = (rv, ls, cs,
         with_ctrl (set_gpio_cnt (i + Z.of_nat k) (set_gpios gs (ctrl w))) w)
      /\ (k <= n)%nat
      /\ length gs = length (gpios (ctrl w))
      /\ (forall j, i <= j < i + Z.of_nat k ->
                    nth (Z.to_nat j) gs 0 = of_get_gpio_flags D j
                    /\ gpio_is_valid H (of_get_gpio_flags D j) = true)
      /\ (forall j, 0 <= j < i ->
                    nth (Z.to_nat j) gs 0 = nth (Z.to_nat j) (gpios (ctrl w)) 0)
      /\ ((rv = 0 /\ k = n
           /\ unexported cs = []
           /\ exported cs = map (of_get_gpio_flags D) (slots i n))
          \/ (rv <> 0 /\ (k < n)%nat
              /\ exists extra,
                  unexported cs = extra
                  /\ exported cs
                     = map (of_get_gpio_flags D) (slots i k) ++ extra)).
Proof.
  induction n as [|n IH]; intros i labels w Hi Hn Hcnt Hlen.
  - exists 0, labels, [], O, (gpios (ctrl w)).
    cbn [apba_gpio_setup_loop ret]. split.
    { rewrite Z.add_0_r, <- Hcnt, with_ctrl_pins_same. reflexivity. }
    split; [lia|]. split; [reflexivity|]. split; [intros j Hj; lia|].
    split; [reflexivity|]. left. repeat split.
  - rewrite apba_gpio_setup_loop_step.
    destruct (apba_gpio_setup_body_run i labels w) as
      (rv & ls & cs & wb & Hb & Hcase); [lia | exact Hcnt |].
    rewrite Hb.
    destruct Hcase as [(-> & Hv & Hw & Hu & He) | (Hnz & Hw & Hbal)].
    + cbn [Z.eqb]. subst wb.
      set (g := of_get_gpio_flags D i) in *.
      set (gs1 := list_update (gpios (ctrl w)) (Z.to_nat i) g) in *.
      set (w1 := with_ctrl (set_gpio_cnt (i + 1) (set_gpios gs1 (ctrl w))) w).
      assert (Hlen1 : Z.of_nat (length (gpios (ctrl w1))) = APBA_NUM_GPIOS).
      { unfold w1. cbn [ctrl with_ctrl gpios set_gpio_cnt set_gpios].
        unfold gs1. rewrite list_update_length. exact Hlen. }
      destruct (IH (i + 1) ls w1) as
        (rv' & ls' & cs' & k & gs & Hrun & Hk & Hl & Hnew & Hold & Hres);
        [lia | lia | reflexivity | exact Hlen1 |].
      rewrite Hrun.
      exists rv', ls', (cs ++ cs'), (S k), gs. split.
      { replace (i + Z.of_nat (S k)) with (i + 1 + Z.of_nat k) by lia.
        unfold w1. destruct w as [c gc f b t]. destruct c. reflexivity. }
      split; [lia|]. split.
      { rewrite Hl. unfold w1.
        cbn [ctrl with_ctrl gpios set_gpio_cnt set_gpios].
        unfold gs1. apply list_update_length. }
      split.
      { intros j Hj. destruct (Z.eq_dec j i) as [->|Hne].
        - rewrite (Hold i) by lia. unfold w1.
          cbn [ctrl with_ctrl gpios set_gpio_cnt set_gpios].
          unfold gs1. rewrite nth_list_update_eq by lia.
          split; [reflexivity | exact Hv].
        - apply Hnew. lia. }
      split.
      { intros j Hj. rewrite (Hold j) by lia. unfold w1.
        cbn [ctrl with_ctrl gpios set_gpio_cnt set_gpios].
        unfold gs1. apply nth_list_update_neq. lia. }
      rewrite unexported_app, exported_app, Hu, He. cbn [app].
      destruct Hres as [(Hz' & -> & Hu' & He') | (Hnz' & Hk' & extra & Hu' & He')].
      * left. split; [exact Hz'|]. split; [reflexivity|].
        split; [exact Hu'|]. rewrite He', slots_succ. reflexivity.
      * right. split; [exact Hnz'|]. split; [lia|]. exists extra.
        split; [exact Hu'|]. rewrite He', slots_succ. reflexivity.
    + apply Z.eqb_neq in Hnz. rewrite Hnz. apply Z.eqb_neq in Hnz. subst wb.
      exists rv, ls, cs, O, (gpios (ctrl w)). split.
      { rewrite Z.add_0_r, <- Hcnt, with_ctrl_pins_same. reflexivity. }
      split; [lia|]. split; [reflexivity|]. split; [intros j Hj; lia|].
      split; [reflexivity|]. right.
      split; [exact Hnz|]. split; [lia|]. exists (exported cs).
      split; [exact Hbal | reflexivity].
Qed.

Lemma apba_gpio_free_from_step (n : nat) (i : Z) (labels : list string)
  (w : world) :
  0 <= i < APBA_NUM_GPIOS ->
  i < gpio_cnt (ctrl w) ->
  apba_gpio_free_from (S n) i labels w
  = match apba_gpio_free_from n (i + 1) labels w with
    | (rest, w') =>
        ((length (trace w),
          CallSysfsRemoveLink (nth (Z.to_nat i) labels EmptyString))
         :: (length (trace w),
             CallGpioUnexport (nth (Z.to_nat i) (gpios (ctrl w)) 0))
         :: rest, w')
    end.
Proof.
  intros Hi Hlt. cbn [apba_gpio_free_from].
  unfold bind, gets, call, ret, array_read. cbn [fst snd].
  replace (i <? gpio_cnt (ctrl w)) with true
    by (symmetry; apply Z.ltb_lt; lia).
  replace ((0 <=? i) && (i <? APBA_NUM_GPIOS)) with true
    by (symmetry; apply andb_true_iff; split;
        [apply Z.leb_le | apply Z.ltb_lt]; lia).
  unfold ret. cbn [fst snd].
  destruct (apba_gpio_free_from n (i + 1) labels w) as [rest w'].
  reflexivity.
Qed.

Lemma apba_gpio_free_from_run (n : nat) :
  forall (i : Z) (labels : list string) (w : world),
    0 <= i ->
    gpio_cnt (ctrl w) = i + Z.of_nat n ->
    i + Z.of_nat n <= APBA_NUM_GPIOS ->
    exists calls,
      apba_gpio_free_from n i labels w = (calls, w)
      /\ unexported calls
         = map (fun j => nth (Z.to_nat j) (gpios (ctrl w)) 0) (slots i n)
      /\ exported calls = [].
Proof.
  induction n as [|n IH]; intros i labels w Hi Hcnt Hn.
  - exists []. repeat split.
  - rewrite apba_gpio_free_from_step by lia.
    destruct (IH (i + 1) labels w) as (calls & Hrun & Hu & He); [lia..|].
    rewrite Hrun. eexists. split; [reflexivity|].
    unfold unexported, exported in *. cbn [flat_map snd app].
    rewrite Hu, He, slots_succ. split; reflexivity.
Qed.

Lemma apba_gpio_setup_run (labels : list string) (w : world) :
  gpio_cnt (ctrl w) = 0 ->
  Z.of_nat (length (gpios (ctrl w))) = APBA_NUM_GPIOS ->
  let n := of_gpio_count D in
  exists rv ls cs (k : nat) (gs : list Z),
    apba_gpio_setup H D labels w
    = (rv, ls, cs,
       with_ctrl (set_gpio_cnt (Z.of_nat k) (set_gpios gs (ctrl w))) w)
    /\ length gs = length (gpios (ctrl w))
    /\ Z.of_nat k <= APBA_NUM_GPIOS
    /\ (forall j, 0 <= j < Z.of_nat k ->
                  nth (Z.to_nat j) gs 0 = of_get_gpio_flags D j
                  /\ gpio_is_valid H (of_get_gpio_flags D j) = true)
    /\ ((rv = 0
         /\ 0 < n <= APBA_NUM_GPIOS
         /\ of_property_count_strings D = n
         /\ Z.of_nat k = n
         /\ unexported cs = []
         /\ exported cs = map (of_get_gpio_flags D) (slots 0 (Z.to_nat n)))
        \/ (rv <> 0
            /\ forall g, count_occ Z.eq_dec (unexported cs) g
                         = count_occ Z.eq_dec (exported cs) g)).
Proof.
  intros Hcnt Hlen. cbv zeta. unfold apba_gpio_setup.
  assert (Hstay :
    exists rv ls cs (k : nat) (gs : list Z),
      ret (A := Z * list string * list (nat * sys_call))
        (- EINVAL, labels, []) w
      = (rv, ls, cs,
         with_ctrl (set_gpio_cnt (Z.of_nat k) (set_gpios gs (ctrl w))) w)
      /\ length gs = length (gpios (ctrl w))
      /\ Z.of_nat k <= APBA_NUM_GPIOS
      /\ (forall j, 0 <= j < Z.of_nat k ->
                    nth (Z.to_nat j) gs 0 = of_get_gpio_flags D j
                    /\ gpio_is_valid H (of_get_gpio_flags D j) = true)
      /\ ((rv = 0
           /\ 0 < of_gpio_count D <= APBA_NUM_GPIOS
           /\ of_property_count_strings D = of_gpio_count D
           /\ Z.of_nat k = of_gpio_count D
           /\ unexported cs = []
           /\ exported cs
              = map (of_get_gpio_flags D)
                  (slots 0 (Z.to_nat (of_gpio_count D))))
          \/ (rv <> 0
              /\ forall g, count_occ Z.eq_dec (unexported cs) g
                           = count_occ Z.eq_dec (exported cs) g))).
  { exists (- EINVAL), labels, [], O, (gpios (ctrl w)). split.
    - unfold ret. cbn [Z.of_nat]. rewrite <- Hcnt, with_ctrl_pins_same.
      reflexivity.
    - split; [reflexivity|].
      split; [unfold APBA_NUM_GPIOS; cbn; lia|].
      split; [intros j Hj; cbn in Hj; lia|].
      right. split; [unfold EINVAL; discriminate | intros g; reflexivity]. }
  destruct (of_gpio_count D <=? 0) eqn:Hpos; [exact Hstay|].
  destruct (APBA_NUM_GPIOS <? of_gpio_count D) eqn:Hmax; [exact Hstay|].
  destruct (of_property_count_strings D =? of_gpio_count D) eqn:Hlab;
    cbn [negb]; [|exact Hstay].
  clear Hstay. apply Z.leb_gt in Hpos. apply Z.ltb_ge in Hmax.
  apply Z.eqb_eq in Hlab.
  destruct (apba_gpio_setup_loop_run (Z.to_nat (of_gpio_count D)) 0 labels w)
    as (rv & ls & cs & k & gs & Hrun & Hk & Hl & Hnew & _ & Hres);
    [lia | rewrite Z2Nat.id by lia; lia | exact Hcnt | exact Hlen |].
  rewrite Z.add_0_l in Hrun.
  unfold bind at 1. rewrite Hrun. cbn [fst snd].
  destruct Hres as [(-> & -> & Hu & He) | (Hnz & Hk' & extra & Hu & He)].
  - cbn [Z.eqb]. exists 0, ls, cs, (Z.to_nat (of_gpio_count D)), gs.
    split; [reflexivity|]. split; [exact Hl|]. split; [lia|].
    split; [intros j Hj; apply Hnew; lia|].
    left. split; [reflexivity|]. split; [lia|]. split; [exact Hlab|].
    split; [apply Z2Nat.id; lia|]. split; [exact Hu | exact He].
  - apply Z.eqb_neq in Hnz. rewrite Hnz. apply Z.eqb_neq in Hnz.
    unfold apba_gpio_free, bind, gets. cbn [fst snd].
    cbn [ctrl with_ctrl gpio_cnt set_gpio_cnt]. rewrite Nat2Z.id.
    match goal with
    | |- context [apba_gpio_free_from k 0 ls ?w1] =>
        destruct (apba_gpio_free_from_run k 0 ls w1)
          as (calls & Hfree & Hfu & Hfe); [lia | reflexivity | lia |];
        rewrite Hfree
    end.
    unfold ret. cbn [fst snd].
    exists rv, ls, (cs ++ calls), k, gs.
    split; [reflexivity|]. split; [exact Hl|]. split; [lia|].
    split; [intros j Hj; apply Hnew; lia|].
    right. split; [exact Hnz|]. intros g.
    rewrite unexported_app, exported_app, Hu, He, Hfu, Hfe, app_nil_r.
    cbn [ctrl with_ctrl gpios set_gpio_cnt set_gpios].
    rewrite (map_ext_in (fun j => nth (Z.to_nat j) gs 0)
               (of_get_gpio_flags D) (slots 0 k)).
    + rewrite !count_occ_app. lia.
    + intros j Hj. apply Hnew. unfold slots in Hj. apply in_map_iff in Hj.
      destruct Hj as (x & <- & Hx). apply in_seq in Hx. lia.
Qed.

(** X27: apba_gpio_setup, started on the zeroed controller, writes only
    inside [gpios] and touches nothing but [gpios] and [gpio_cnt].  When
    it returns 0, the node has between 1 and APBA_NUM_GPIOS pins, each
    was valid, exported and stored at its position, [gpio_cnt] is their
    number and no pin was unexported.  When it fails, every pin whose
    export succeeded has been unexported again, once. *)
Theorem apba_gpio_setup_balanced (labels : list string) (w : world) :
  gpio_cnt (ctrl w) = 0 ->
  Z.of_nat (length (gpios (ctrl w))) = APBA_NUM_GPIOS ->
  let r := apba_gpio_setup H D labels w in
  let calls := snd (fst r) in
  let c' := ctrl (snd r) in
  let n := of_gpio_count D in
  snd r = with_ctrl (set_gpio_cnt (gpio_cnt c') (set_gpios (gpios c') (ctrl w))) w
  /\ length (gpios c') = length (gpios (ctrl w))
  /\ (fst (fst (fst r)) = 0 ->
      0 < n <= APBA_NUM_GPIOS
      /\ of_property_count_strings D = n
      /\ gpio_cnt c' = n
      /\ (forall j, 0 <= j < n ->
                    nth (Z.to_nat j) (gpios c') 0 = of_get_gpio_flags D j
                    /\ gpio_is_valid H (of_get_gpio_flags D j) = true)
      /\ unexported calls = []
      /\ exported calls = map (of_get_gpio_flags D) (slots 0 (Z.to_nat n)))
  /\ (fst (fst (fst r)) <> 0 ->
      forall g, count_occ Z.eq_dec (unexported calls) g
                = count_occ Z.eq_dec (exported calls) g).
Proof.
  intros Hcnt Hlen. cbv zeta.
  destruct (apba_gpio_setup_run labels w Hcnt Hlen)
    as (rv & ls & cs & k & gs & Hrun & Hl & Hk & Hnew & Hres).
  cbv zeta in Hres. rewrite Hrun.
  cbn [fst snd ctrl with_ctrl gpios gpio_cnt set_gpio_cnt set_gpios].
  split; [reflexivity|]. split; [exact Hl|]. split.
  - intros Hz. destruct Hres as [(_ & Hn & Hlab & Hkn & Hu & He) | (Hnz & _)];
      [|contradiction].
    split; [exact Hn|]. split; [exact Hlab|]. split; [exact Hkn|].
    split; [|split; [exact Hu | exact He]].
    intros j Hj. apply Hnew. lia.
  - intros Hnz. destruct Hres as [(Hz & _) | (_ & Hbal)];
      [contradiction | exact Hbal].
Qed.

(** X28: when apba_gpio_setup and then apba_int_setup have both returned
    0, the interrupt index read from the node lies below the number of
    pins, the interrupt requested and armed for wake-up is the one of
    the pin at that index, no array was read outside its bounds, and
    apba_isr afterwards samples that same pin. *)
Theorem apba_int_setup_uses_configured_pin (labels : list string) (w : world) :
  gpio_cnt (ctrl w) = 0 ->
  Z.of_nat (length (gpios (ctrl w))) = APBA_NUM_GPIOS ->
  let s := apba_gpio_setup H D labels w in
  let r := apba_int_setup D (snd s) in
  let w2 := snd r in
  fst (fst (fst s)) = 0 ->
  fst (fst r) = 0 ->
  let ix := int_index (ctrl w2) in
  let pin := of_get_gpio_flags D ix in
  let irq := gpio_to_irq D pin in
  ix = wrap_int (snd (of_property_read_u32 D))
  /\ 0 <= ix < of_gpio_count D
  /\ of_gpio_count D <= APBA_NUM_GPIOS
  /\ trace w2 = trace w
  /\ snd (fst r) = [(length (trace w), CallRequestIrq irq);
                    (length (trace w), CallEnableIrqWake irq)]
  /\ exists rest,
      apba_isr w2 = ((length (trace w), CallGpioGetValue pin) :: rest, w2).
Proof.
  intros Hcnt Hlen. cbv zeta.
  destruct (apba_gpio_setup_run labels w Hcnt Hlen)
    as (rv & ls & cs & k & gs & Hrun & Hl & Hk & Hnew & Hres).
  cbv zeta in Hres. rewrite Hrun. cbn [fst snd]. intros Hz.
  destruct Hres as [(_ & Hn & _ & Hkn & _) | (Hnz & _)]; [|contradiction].
  clear Hrun Hz.
  set (w1 := with_ctrl (set_gpio_cnt (Z.of_nat k) (set_gpios gs (ctrl w))) w).
  unfold apba_int_setup.
  destruct (fst (of_property_read_u32 D) =? 0) eqn:Hq; cbn [negb].
  2:{ unfold ret. cbn [fst snd]. intros Hr. apply Z.eqb_neq in Hq.
      contradiction. }
  unfold bind, gets, upd_ctrl, modify. cbn [fst snd].
  set (ix := wrap_int (snd (of_property_read_u32 D))).
  change (int_index (ctrl (with_ctrl (set_int_index ix (ctrl w1)) w1)))
    with ix.
  change (gpio_cnt (ctrl (with_ctrl (set_int_index ix (ctrl w1)) w1)))
    with (Z.of_nat k).
  change (gpios (ctrl (with_ctrl (set_int_index ix (ctrl w1)) w1))) with gs.
  destruct (ix <? 0) eqn:Hlo; cbn [orb].
  { unfold ret. cbn [fst snd]. unfold EINVAL. discriminate. }
  destruct (Z.of_nat k <=? ix) eqn:Hhi.
  { unfold ret. cbn [fst snd]. unfold EINVAL. discriminate. }
  apply Z.ltb_ge in Hlo. apply Z.leb_gt in Hhi.
  assert (Hin : (0 <=? ix) && (ix <? APBA_NUM_GPIOS) = true)
    by (apply andb_true_iff; split; [apply Z.leb_le | apply Z.ltb_lt]; lia).
  unfold array_read. rewrite Hin. unfold call, ret. cbn [fst snd].
  destruct (Hnew ix) as [Hpin _]; [lia|]. rewrite Hpin.
  destruct (devm_request_threaded_irq D
              (gpio_to_irq D (of_get_gpio_flags D ix)) =? 0) eqn:Hirq;
    cbn [negb fst snd].
  2:{ intros Hr. apply Z.eqb_neq in Hirq. contradiction. }
  intros _.
  change (int_index (ctrl (with_ctrl (set_int_index ix (ctrl w1)) w1)))
    with ix.
  split; [reflexivity|]. split; [lia|]. split; [lia|].
  split; [reflexivity|]. split; [reflexivity|].
  unfold apba_isr, bind, gets, array_read, call, ret. cbn [fst snd].
  change (int_index (ctrl (with_ctrl (set_int_index ix (ctrl w1)) w1)))
    with ix.
  change (gpios (ctrl (with_ctrl (set_int_index ix (ctrl w1)) w1))) with gs.
  rewrite Hin. cbn [fst snd]. rewrite Hpin.
  match goal with
  | |- context [if ?b then _ else _] => destruct b
  end; eexists; reflexivity.
Qed.

End PinsSetup.

(** ** The further properties on the sample controller *)

Ltac witness_hyp :=
  first [ exact demo_handled_types_distinct
        | intros; vm_compute; reflexivity
        | vm_compute; discriminate
        | left; vm_compute; reflexivity
        | vm_compute; repeat split; first [reflexivity | discriminate]
        | cbn; lia ].

Lemma apba_flash_partition_erases_then_writes_witness :
  let r := apba_flash_partition demo_headers demo_env true "apba" (Some demo_fw_short') demo_world in
  let e_erase := EvMtdErase (mtd_name demo_mtd) 0 (mtd_size demo_mtd mod 4294967296) in
  let e_write := EvMtdWrite (mtd_name demo_mtd) 0 (cb_len demo_fw_short') (cb_bytes demo_fw_short') in
  let err := _erase demo_mtd 0 (mtd_size demo_mtd mod 4294967296) in
  (err < 0 ->
   fst r = err /\ adds is_erase_or_write [e_erase] demo_world (snd r))
  /\ (0 <= err ->
      fst r = _write demo_mtd 0 (cb_len demo_fw_short') (cb_bytes demo_fw_short')
      /\ adds is_erase_or_write [e_erase; e_write] demo_world (snd r)).
Proof.
  refine (apba_flash_partition_erases_then_writes demo_headers demo_env demo_world "apba" demo_fw_short' demo_mtd _ _); witness_hyp.
Defined.



Lemma apba_enable_then_disable_witness :
  let w1 := exec (apba_enable demo_headers demo_env) demo_world_off in
  let w2 := exec (apba_disable demo_headers) w1 in
  let w2' := exec (apba_disable demo_headers) (exec (apba_enable demo_headers demo_env) w1) in
  (desired_on (ctrl w2) = 0
   /\ power_state w2 = Some false
   /\ adds is_clk_event [EvClkPrepareEnable; EvClkDisableUnprepare] demo_world_off w2)
  /\ (desired_on (ctrl w2') = 0
      /\ power_state w2' = Some false
      /\ adds is_clk_event
           [EvClkPrepareEnable; EvClkPrepareEnable; EvClkDisableUnprepare]
           demo_world_off w2').
Proof.
  refine (apba_enable_then_disable demo_headers demo_env demo_world_off _ _); witness_hyp.
Defined.

Lemma apba_mode_store_acknowledged_witness :
  let w0 := with_trace
              (trace demo_world ++ [EvUartSend (mode_req_bytes demo_headers 3);
                           EvWait MODE_COMP 1000]) demo_world in
  let w1 := handle_all demo_headers demo_env (([demo_msg 5 [104]]) ++ [(demo_msg 7 [3])]) w0 in
  apba_mode_store demo_headers demo_env "3" 2 (([demo_msg 5 [104]]) ++ (demo_msg 7 [3]) :: ([demo_msg 7 [4]])) demo_world
  = (2,
     with_ctrl (set_mode (3 mod 256) (set_done MODE_COMP 0 (ctrl w1))) w1).
Proof.
  refine (apba_mode_store_acknowledged demo_headers demo_env demo_world "3" 2 ([demo_msg 5 [104]]) ([demo_msg 7 [4]]) (demo_msg 7 [3]) 3 _ _ _ _ _ _ _ _); witness_hyp.
Defined.

Lemma late_reply_completes_next_mode_request_witness :
  let r1 := apba_mode_store demo_headers demo_env "3" 2 [] demo_world in
  let w1 := exec (apba_handle_message demo_headers demo_env (demo_msg 7 [3])) (snd r1) in
  let r2 := apba_mode_store demo_headers demo_env "3" 2 ([demo_msg 5 [104]]) w1 in
  mode (ctrl (snd r1)) = mode (ctrl demo_world)
  /\ mode_comp (ctrl w1) = 1
  /\ fst r2 = 2
  /\ mode (ctrl (snd r2)) = 3 mod 256
  /\ mode_comp (ctrl (snd r2)) = 0
  /\ trace (snd r2)
     = trace w1 ++ [EvUartSend (mode_req_bytes demo_headers 3); EvWait MODE_COMP 1000].
Proof.
  refine (late_reply_completes_next_mode_request demo_headers demo_env demo_world "3" "3" 2 2 3 3 (demo_msg 7 [3]) ([demo_msg 5 [104]]) _ _ _ _ _ _ _ _); witness_hyp.
Defined.

Lemma apba_log_show_drains_oldest_witness :
  let w0 := with_trace
              (trace demo_world ++ [EvUartSend (log_req_bytes demo_headers);
                           EvWait COMP 1000]) demo_world in
  let f := apba_log_fifo (handle_all demo_headers demo_env (([demo_msg 5 [104; 105]]) ++ [(demo_msg 6 [])]) w0) in
  let r := apba_log_show demo_headers demo_env (([demo_msg 5 [104; 105]]) ++ (demo_msg 6 []) :: ([])) demo_world in
  fst (fst r) = Z.min 4095 (kfifo_len f)
  /\ snd (fst r) = firstn (Z.to_nat (fst (fst r))) f
  /\ apba_log_fifo (snd r) = skipn (Z.to_nat (fst (fst r))) f
  /\ snd (fst r) ++ apba_log_fifo (snd r) = f.
Proof.
  refine (apba_log_show_drains_oldest demo_headers demo_env demo_world ([demo_msg 5 [104; 105]]) ([]) (demo_msg 6 []) _ _ _ _ _ _); witness_hyp.
Defined.

Lemma apba_mode_store_loopback_witness :
  let r := apba_mode_store demo_headers demo_env "3" 2
             [mkCbuf (mode_req_bytes demo_headers 3) (fun _ : nat => 0)] demo_world in
  fst r = 2
  /\ mode (ctrl (snd r)) = 3 mod 256
  /\ mode_comp (ctrl (snd r)) = 0
  /\ apba_log_fifo (snd r) = apba_log_fifo demo_world
  /\ uart_baud (snd r) = uart_baud demo_world.
Proof.
  refine (apba_mode_store_loopback demo_headers demo_env demo_world "3" 2 3 (fun _ : nat => 0) _ _ _ _ _ _ _); witness_hyp.
Defined.

Lemma apba_parse_seq_wellformed_witness :
  let r := apba_parse_seq (Some 24) demo_enable_cells demo_empty_seq in
  (fst r <> 0 -> snd r = demo_empty_seq)
  /\ ((Some 24) = None -> fst r = - EINVAL)
  /\ (fst r = 0 ->
      let cnt := len (snd r) in
      0 < cnt <= len demo_empty_seq
      /\ cnt mod 3 = 0
      /\ val (snd r) = snd (demo_enable_cells cnt)
      /\ (Z.of_nat (length (snd (demo_enable_cells cnt))) = cnt ->
          Forall u32 (snd (demo_enable_cells cnt)) ->
          let ts := triples_of (val (snd r)) (Z.to_nat (cnt / 3)) in
          apba_seq demo_headers (snd r) demo_world
          = (tt, with_trace (trace demo_world ++ runSequence_spec demo_headers (ctrl demo_world) ts) demo_world)
          /\ forallb (fun e => negb (is_out_of_bounds e))
               (runSequence_spec demo_headers (ctrl demo_world) ts) = true)).
Proof.
  refine (apba_parse_seq_wellformed demo_headers (Some 24) demo_enable_cells demo_empty_seq demo_world _); witness_hyp.
Defined.

Lemma apba_mode_show_three_characters_witness :
  let m := mode (ctrl demo_world_mode_200) in
  let digits := NilZero.string_of_int (Z.to_int m) in
  (g_ctrl demo_world_mode_200 = false -> apba_mode_show demo_world_mode_200 = ((0, EmptyString), demo_world_mode_200))
  /\ (g_ctrl demo_world_mode_200 = true -> m < 100 ->
      apba_mode_show demo_world_mode_200
      = ((Z.of_nat (String.length digits) + 1,
          (digits ++ String newline EmptyString)%string), demo_world_mode_200))
  /\ (g_ctrl demo_world_mode_200 = true -> 100 <= m ->
      apba_mode_show demo_world_mode_200 = ((3, digits), demo_world_mode_200)).
Proof.
  refine (apba_mode_show_three_characters demo_world_mode_200 _); witness_hyp.
Defined.

Lemma apba_slave_notify_targets_latest_interface_witness :
  let notify := apba_slave_notify demo_headers demo_env 0 1 in
  let MASK := MB_CONTROL_SLAVE_MASK_APBE demo_headers in
  (2 <> MASK -> notify 5 2 7 demo_world_off = ([], demo_world_off))
  /\ (7 <> 0 -> 7 <> 1 ->
      notify 5 MASK 7 demo_world_off
      = ([], with_ctrl (set_master_intf 5 (ctrl demo_world_off)) demo_world_off))
  /\ (let w1 := exec (notify 5 MASK 1) demo_world_off in
      let w2 := with_ctrl (set_master_intf 6 (ctrl w1)) w1 in
      eval (notify 5 MASK 1) demo_world_off = []
      /\ w1 = exec (apba_enable demo_headers demo_env)
                (with_ctrl (set_master_intf 5 (ctrl demo_world_off)) demo_world_off)
      /\ desired_on (ctrl w1) = 1
      /\ notify 6 MASK 0 w1
         = ([(length (trace w1), CallScheduleDisableWork)], w2)
      /\ adds is_power_cmd
           [EvSlaveCtrlPower 6 (MB_CONTROL_SLAVE_POWER_OFF demo_headers) MASK]
           w2 (exec (apba_disable_work_func demo_headers) w2)).
Proof.
  refine (apba_slave_notify_targets_latest_interface demo_headers demo_env 0 1 5 6 2 7 demo_world_off _ _ _); witness_hyp.
Defined.

Lemma apba_isr_forwards_while_enabled_witness :
  let pin := nth (Z.to_nat (int_index (ctrl demo_world_off))) (gpios (ctrl demo_world_off)) 0 in
  let on := exec (apba_enable demo_headers demo_env) demo_world_off in
  let off := exec (apba_disable demo_headers) on in
  apba_isr on
  = ((length (trace on), CallGpioGetValue pin)
     :: (if mods_uart (ctrl demo_world_off)
         then [(length (trace on), CallUartWakeInterrupt)] else []),
     on)
  /\ apba_isr off = ([(length (trace off), CallGpioGetValue pin)], off).
Proof.
  refine (apba_isr_forwards_while_enabled demo_headers demo_env demo_world_off _ _ _); witness_hyp.
Defined.

Lemma flash_partition_store_firmware_witness :
  let r := flash_partition_store demo_headers demo_env demo_request_firmware
             ("apba" ++ String newline EmptyString) demo_world in
  let ffff := ("apba" ++ FFFF_EXT)%string in
  let bin := ("apba" ++ BIN_EXT)%string in
  let failed := fst (demo_request_firmware ffff) <? 0 in
  let got := if failed then demo_request_firmware bin else demo_request_firmware ffff in
  let reqs :=
    (length (trace demo_world), CallRequestFirmware ffff)
    :: (if failed then [(length (trace demo_world), CallRequestFirmware bin)] else []) in
  (fst got < 0 -> r = ((Some (fst got), reqs), demo_world))
  /\ (0 <= fst got ->
      snd got = None \/ (exists fw, snd got = Some fw /\ cb_len fw = 0) ->
      r = ((Some (- EINVAL), reqs), demo_world))
  /\ (forall fw, 0 <= fst got -> snd got = Some fw -> cb_len fw <> 0 ->
      let f := apba_flash_partition demo_headers demo_env true "apba" (Some fw) demo_world in
      r = ((Some (if fst f =? 0
                  then Z.of_nat (String.length "apba") + 1 else fst f),
            reqs ++ [(length (trace (snd f)), CallReleaseFirmware)]),
           snd f)).
Proof.
  refine (flash_partition_store_firmware demo_headers demo_env demo_request_firmware "apba" demo_world _ _ _); witness_hyp.
Defined.

Lemma apba_gpio_setup_balanced_witness :
  let r := apba_gpio_setup demo_headers demo_gpio_node demo_labels demo_world_probe in
  let calls := snd (fst r) in
  let c' := ctrl (snd r) in
  let n := of_gpio_count demo_gpio_node in
  snd r = with_ctrl (set_gpio_cnt (gpio_cnt c') (set_gpios (gpios c') (ctrl demo_world_probe))) demo_world_probe
  /\ length (gpios c') = length (gpios (ctrl demo_world_probe))
  /\ (fst (fst (fst r)) = 0 ->
      0 < n <= APBA_NUM_GPIOS
      /\ of_property_count_strings demo_gpio_node = n
      /\ gpio_cnt c' = n
      /\ (forall j, 0 <= j < n ->
                    nth (Z.to_nat j) (gpios c') 0 = of_get_gpio_flags demo_gpio_node j
                    /\ gpio_is_valid demo_headers (of_get_gpio_flags demo_gpio_node j) = true)
      /\ unexported calls = []
      /\ exported calls = map (of_get_gpio_flags demo_gpio_node) (slots 0 (Z.to_nat n)))
  /\ (fst (fst (fst r)) <> 0 ->
      forall g, count_occ Z.eq_dec (unexported calls) g
                = count_occ Z.eq_dec (exported calls) g).
Proof.
  refine (apba_gpio_setup_balanced demo_headers demo_gpio_node demo_labels demo_world_probe _ _); witness_hyp.
Defined.

Lemma apba_int_setup_uses_configured_pin_witness :
  let s := apba_gpio_setup demo_headers demo_gpio_node demo_labels
             demo_world_probe in
  let r := apba_int_setup demo_gpio_node (snd s) in
  let w2 := snd r in
  let ix := int_index (ctrl w2) in
  let pin := of_get_gpio_flags demo_gpio_node ix in
  let irq := gpio_to_irq demo_gpio_node pin in
  ix = wrap_int (snd (of_property_read_u32 demo_gpio_node))
  /\ 0 <= ix < of_gpio_count demo_gpio_node
  /\ of_gpio_count demo_gpio_node <= APBA_NUM_GPIOS
  /\ trace w2 = trace demo_world_probe
  /\ snd (fst r) = [(length (trace demo_world_probe), CallRequestIrq irq);
                    (length (trace demo_world_probe), CallEnableIrqWake irq)]
  /\ exists rest,
      apba_isr w2
      = ((length (trace demo_world_probe), CallGpioGetValue pin) :: rest, w2).
Proof.
  refine (apba_int_setup_uses_configured_pin demo_headers demo_gpio_node
            demo_labels demo_world_probe _ _ _ _); witness_hyp.
Defined.


Lemma int_reason_actions_witness :
  apba_action_on_int_reason demo_headers demo_env APBA_INT_APBE_ON demo_world
  = (tt, with_trace (trace demo_world ++ [EvSlaveCtrlPower 1 1 1]) demo_world)
  /\ apba_action_on_int_reason demo_headers demo_env APBA_INT_APBE_CONNECTED
       demo_world
     = (tt, with_trace (trace demo_world ++ [EvScheduleAttachWork 1])
              demo_world)
  /\ apba_action_on_int_reason demo_headers demo_env
       APBA_INT_APBE_DISCONNECTED demo_world
     = (tt,
        with_trace
          (trace demo_world
           ++ [EvSlaveCtrlPower 1 2 1; EvScheduleAttachWork 0]) demo_world)
  /\ apba_handle_message demo_headers demo_env (demo_msg 1 [1]) demo_world
     = (tt, demo_world).
Proof.
  destruct (int_reason_actions demo_headers demo_env demo_world)
    as (_ & Hact & Hmsg).
  destruct Hact as (Hon & Hconn & Hdisc);
    [reflexivity | vm_compute; discriminate |].
  split; [exact Hon|]. split; [exact Hconn|]. split; [exact Hdisc|].
  apply (Hmsg (demo_msg 1 [1]));
    [reflexivity | vm_compute; discriminate | reflexivity].
Defined.

Lemma erase_partition_store_name_witness :
  let nl := String newline EmptyString in
  let r := apba_erase_partition demo_headers demo_env (g_ctrl demo_world)
             "apba" demo_world in
  erase_partition_store demo_headers demo_env ("apba" ++ nl) demo_world
  = ((if fst r =? 0 then Z.of_nat (String.length "apba") + 1 else fst r),
     snd r)
  /\ erase_partition_store demo_headers demo_env "apba" demo_world
     = ((if fst r =? 0 then Z.of_nat (String.length "apba") else fst r),
        snd r).
Proof.
  destruct (erase_partition_store_name demo_headers demo_env "apba" demo_world)
    as (_ & _ & Hname).
  destruct Hname as (Hnl & Hplain); [cbn; lia | reflexivity |].
  split; [exact Hnl|]. apply Hplain. vm_compute. discriminate.
Defined.

Lemma without_uart_transport_witness :
  let w' := with_ctrl (set_mods_uart false (ctrl demo_world)) demo_world in
  apba_uart_register false demo_world = (0, w')
  /\ apba_mode_store demo_headers demo_env "3" 2 [demo_msg 7 [3]] w' = (0, w')
  /\ apba_baud_store demo_headers demo_env "3" 2 [demo_msg 7 [3]] w'
     = (- ENODEV, w')
  /\ apba_baud_show w' = ((0, EmptyString), w')
  /\ apba_apbe_attach_work_func 1 w' = (tt, w').
Proof.
  destruct (without_uart_transport demo_headers demo_env "3" 2 1
              [demo_msg 7 [3]] demo_world) as (_ & Hreg).
  apply Hreg. reflexivity.
Defined.

Lemma apba_firmware_callback_finishes_witness :
  let r := apba_firmware_callback demo_headers demo_env true (Some demo_fw)
             demo_world in
  let w' := snd r in
  fst r = [(length (trace w'), CallReleaseFirmware);
           (length (trace w'), CallMucEnableDet)]
  /\ flash_mode w' = Some false
  /\ desired_on (ctrl w') = desired_on (ctrl demo_world)
  /\ power_state w' = Some true.
Proof.
  destruct (apba_firmware_callback_finishes demo_headers demo_env
              (Some demo_fw) demo_world)
    as (_ & Hcalls & _ & Hflash & Hdesired & Hon & _).
  split; [exact Hcalls|]. split; [exact Hflash|]. split; [exact Hdesired|].
  apply Hon. vm_compute. discriminate.
Defined.

Lemma apba_enable_store_result_witness :
  apba_enable_store demo_headers demo_env_switch "1" 2 demo_world_off
  = (2, exec (apba_enable demo_headers demo_env_switch) demo_world_off)
  /\ apba_enable_store demo_headers demo_env_switch "0" 2 demo_world
     = (2, exec (apba_disable demo_headers) demo_world)
  /\ apba_enable_store demo_headers demo_env_switch "3" 2 demo_world
     = (- EINVAL, demo_world).
Proof.
  pose proof (apba_enable_store_result demo_headers demo_env_switch "1" 2
                demo_world_off) as Hone.
  pose proof (apba_enable_store_result demo_headers demo_env_switch "0" 2
                demo_world) as Hzero.
  pose proof (apba_enable_store_result demo_headers demo_env_switch "3" 2
                demo_world) as Hbad.
  change (kstrtoul demo_env_switch "1") with (Some 1) in Hone.
  change (kstrtoul demo_env_switch "0") with (Some 0) in Hzero.
  change (kstrtoul demo_env_switch "3") with (Some 3) in Hbad.
  cbv iota in Hone, Hzero, Hbad.
  destruct Hone as (_ & Hone & _). destruct Hzero as (_ & _ & Hzero).
  destruct Hbad as (Hbad & _).
  split; [apply Hone; reflexivity|].
  split; [apply Hzero; reflexivity | apply Hbad; discriminate].
Defined.
